(** * RCompilationDatabase: compilation arguments for libclang

    A shallow embedding of [src/cpp/session/modules/clang/RCompilationDatabase.cpp]
    and the properties of its argument resolution, caches and precompiled
    header store. *)

From Stdlib Require Import ZArith Ascii String List Lia Bool.
From stdpp Require Import base option list strings gmap pretty.

(** ** Text primitives

    [std::string] is [string]; the Boost string algorithms the file calls are
    written out over it. *)
Module Text.

Definition ascii_eqb (a b : ascii) : bool := Ascii.eqb a b.

(** [std::isspace] in the classic locale, as used by [boost::is_space]
    and by the [\s] class. *)
Definition is_space (c : ascii) : bool := Ascii.is_space c.

Definition is_upper (c : ascii) : bool :=
  let n := nat_of_ascii c in (65 <=? n)%nat && (n <=? 90)%nat.
Definition is_lower (c : ascii) : bool :=
  let n := nat_of_ascii c in (97 <=? n)%nat && (n <=? 122)%nat.
Definition is_digit (c : ascii) : bool :=
  let n := nat_of_ascii c in (48 <=? n)%nat && (n <=? 57)%nat.

(** The [\w] class: letters, digits and the underscore. *)
Definition is_word (c : ascii) : bool :=
  is_upper c || is_lower c || is_digit c || ascii_eqb c "_".

Definition to_lower_char (c : ascii) : ascii :=
  if is_upper c then ascii_of_nat (nat_of_ascii c + 32) else c.

Fixpoint to_lower (s : string) : string :=
  match s with
  | EmptyString => EmptyString
  | String c s' => String (to_lower_char c) (to_lower s')
  end.

(** [boost::algorithm::starts_with (s, pre)] *)
Definition starts_with (s pre : string) : bool := String.prefix pre s.

Fixpoint drop (n : nat) (s : string) : string :=
  match n, s with
  | O, _ => s
  | S n', String _ s' => drop n' s'
  | S _, EmptyString => EmptyString
  end.

Fixpoint take (n : nat) (s : string) : string :=
  match n, s with
  | S n', String c s' => String c (take n' s')
  | _, _ => EmptyString
  end.

(** [s.find (pat) != std::string::npos] *)
Fixpoint contains (s pat : string) : bool :=
  starts_with s pat ||
  match s with
  | EmptyString => false
  | String _ s' => contains s' pat
  end.

(** [boost::algorithm::icontains] *)
Definition icontains (s pat : string) : bool :=
  contains (to_lower s) (to_lower pat).

(** [boost::algorithm::replace_first (s, pat, fmt)]: the leftmost
    occurrence of [pat] is replaced, the rest of [s] is kept as it is. *)
Fixpoint replace_first (s pat fmt : string) : string :=
  if starts_with s pat then fmt +:+ drop (String.length pat) s
  else match s with
       | EmptyString => EmptyString
       | String c s' => String c (replace_first s' pat fmt)
       end.

(** [boost::algorithm::replace_all (s, pat, fmt)]: every occurrence, left
    to right, the search resuming behind each replaced occurrence.
    [skip] counts the characters of the current occurrence still to pass. *)
Fixpoint replace_all_from (skip : nat) (s pat fmt : string) : string :=
  match s with
  | EmptyString => EmptyString
  | String c s' =>
      match skip with
      | S n => replace_all_from n s' pat fmt
      | O =>
          if starts_with s pat && negb (String.eqb pat EmptyString)
          then fmt +:+ replace_all_from (String.length pat - 1) s' pat fmt
          else String c (replace_all_from O s' pat fmt)
      end
  end.

Definition replace_all (s pat fmt : string) : string :=
  replace_all_from O s pat fmt.

Fixpoint trim_left (s : string) : string :=
  match s with
  | EmptyString => EmptyString
  | String c s' => if is_space c then trim_left s' else s
  end.

Fixpoint trim_right (s : string) : string :=
  match s with
  | EmptyString => EmptyString
  | String c s' =>
      match trim_right s' with
      | EmptyString => if is_space c then EmptyString else String c EmptyString
      | t => String c t
      end
  end.

(** Every run of white space is replaced by its first character
    ([token_compress_on] with [head_finder (1)]). *)
Fixpoint compress_spaces (in_run : bool) (s : string) : string :=
  match s with
  | EmptyString => EmptyString
  | String c s' =>
      if is_space c
      then if in_run then compress_spaces true s'
           else String c (compress_spaces true s')
      else String c (compress_spaces false s')
  end.

(** [boost::algorithm::trim_all]: white space is removed at both ends and
    every inner run of white space shrinks to its first character. *)
Definition trim_all (s : string) : string :=
  compress_spaces false (trim_right (trim_left s)).

(** [boost::algorithm::split (out, s, is_any_of (seps))] without token
    compression: one piece between any two separators, empty pieces kept. *)
Fixpoint split_any (seps : string) (cur : string) (s : string) : list string :=
  match s with
  | EmptyString => [String.rev cur]
  | String c s' =>
      if contains seps (String c EmptyString)
      then String.rev cur :: split_any seps EmptyString s'
      else split_any seps (String c cur) s'
  end.

Definition split (s seps : string) : list string := split_any seps EmptyString s.

(** [std::ostringstream << n] for an integral [n]. *)
Definition show_Z (n : Z) : string := pretty n.

End Text.

(** ** Regular expressions

    The four patterns of the file only repeat single character classes, so the
    syntax has the class, its greedy and its lazy repetition, sequence,
    alternation and the two line anchors.  The matcher is the backtracking
    one of [boost::regex] in its default (Perl) mode: alternatives are tried
    left to right, a greedy repetition gives characters back one at a time, a
    lazy one takes them one at a time. *)
Module Regex.
Import Text.

Inductive regex : Type :=
| Eps
| Cls (p : ascii → bool)
| Star (p : ascii → bool)
| StarLazy (p : ascii → bool)
| Seq (r1 r2 : regex)
| Alt (r1 r2 : regex)
| Bol
| Eol.

Definition Plus (p : ascii → bool) : regex := Seq (Cls p) (Star p).
Definition Opt (r : regex) : regex := Alt r Eps.

Fixpoint Lit (s : string) : regex :=
  match s with
  | EmptyString => Eps
  | String c s' => Seq (Cls (ascii_eqb c)) (Lit s')
  end.

Definition is_separator (c : ascii) : bool :=
  ascii_eqb c "010" || ascii_eqb c "013" || ascii_eqb c "012".

Definition head_is (s : string) (c : ascii) : bool :=
  match s with
  | String d _ => ascii_eqb d c
  | EmptyString => false
  end.

(** [^]: the start of the text, or behind a line separator, but not between
    a carriage return and its line feed. *)
Definition at_bol (prev : option ascii) (s : string) : bool :=
  match prev with
  | None => true
  | Some p => is_separator p && negb (ascii_eqb p "013" && head_is s "010")
  end.

(** [$]: the end of the text, or in front of a line separator, with the
    same exception. *)
Definition at_eol (prev : option ascii) (s : string) : bool :=
  match s with
  | EmptyString => true
  | String c _ =>
      is_separator c &&
      negb (ascii_eqb c "010" &&
            match prev with Some p => ascii_eqb p "013" | None => false end)
  end.

Section Matcher.
Context {A : Type}.

(** A greedy repetition of the class [p]: as many characters as possible
    first, then one less each time [k] fails. *)
Fixpoint star_greedy (p : ascii → bool) (k : option ascii → string → option A)
    (prev : option ascii) (s : string) {struct s} : option A :=
  match s with
  | String c s' =>
      if p c
      then match star_greedy p k (Some c) s' with
           | Some a => Some a
           | None => k prev s
           end
      else k prev s
  | EmptyString => k prev s
  end.

(** A lazy repetition of the class [p]: [k] first, one more character each
    time it fails. *)
Fixpoint star_lazy (p : ascii → bool) (k : option ascii → string → option A)
    (prev : option ascii) (s : string) {struct s} : option A :=
  match k prev s with
  | Some a => Some a
  | None =>
      match s with
      | String c s' => if p c then star_lazy p k (Some c) s' else None
      | EmptyString => None
      end
  end.

(** [run r prev s k]: match [r] at the front of [s] ([prev] is the
    character in front of it), then continue with [k] on what is left;
    [None] makes the matcher backtrack. *)
Fixpoint run (r : regex) (prev : option ascii) (s : string)
    (k : option ascii → string → option A) {struct r} : option A :=
  match r with
  | Eps => k prev s
  | Cls p =>
      match s with
      | String c s' => if p c then k (Some c) s' else None
      | EmptyString => None
      end
  | Star p => star_greedy p k prev s
  | StarLazy p => star_lazy p k prev s
  | Seq r1 r2 => run r1 prev s (fun prev' s' => run r2 prev' s' k)
  | Alt r1 r2 =>
      match run r1 prev s k with
      | Some a => Some a
      | None => run r2 prev s k
      end
  | Bol => if at_bol prev s then k prev s else None
  | Eol => if at_eol prev s then k prev s else None
  end.
End Matcher.

(** The match of [r] that starts at the front of [s], as the number of
    characters it covers. *)
Definition match_at (r : regex) (prev : option ascii) (s : string) : option nat :=
  run r prev s (fun _ rest => Some (String.length s - String.length rest)).

(** [boost::sregex_token_iterator (b, e, re, 0)]: all matches from left to
    right, each search resuming where the last match ended.  [skip] counts
    the characters of the last match still to pass.  (None of the patterns
    here matches the empty string.) *)
Fixpoint find_all_from (r : regex) (skip : nat) (prev : option ascii)
    (s : string) : list string :=
  match s with
  | EmptyString => []
  | String c s' =>
      match skip with
      | S n => find_all_from r n (Some c) s'
      | O =>
          match match_at r prev s with
          | Some len => take len s :: find_all_from r (len - 1) (Some c) s'
          | None => find_all_from r O (Some c) s'
          end
      end
  end.

Definition find_all (r : regex) (s : string) : list string :=
  find_all_from r O None s.

(** [boost::regex_search (s, re)] *)
Fixpoint search_from (r : regex) (prev : option ascii) (s : string) : bool :=
  match match_at r prev s with
  | Some _ => true
  | None =>
      match s with
      | EmptyString => false
      | String c s' => search_from r (Some c) s'
      end
  end.

Definition regex_search (s : string) (r : regex) : bool := search_from r None s.

End Regex.

Import Text Regex.

(** ** The anonymous namespace: text functions *)

Definition any_char (_ : ascii) : bool := true.
Definition one_of (cs : string) (c : ascii) : bool := contains cs (String c EmptyString).
Definition none_of (cs : string) (c : ascii) : bool := negb (one_of cs c).

(** The pattern [#include\s+<Rcpp11]. *)
Definition reRcpp11 : regex :=
  Seq (Lit "#include") (Seq (Plus is_space) (Lit "<Rcpp11")).

(** The pattern [#include\s+<Rcpp]. *)
Definition reRcpp : regex :=
  Seq (Lit "#include") (Seq (Plus is_space) (Lit "<Rcpp")).

(** The pattern [^\s*//\s*\[\[Rcpp::(\w+)(\(.*?\))?\]\]\s*$]. *)
Definition reAttribute : regex :=
  Seq Bol (Seq (Star is_space) (Seq (Lit "//") (Seq (Star is_space)
    (Seq (Lit "[[Rcpp::") (Seq (Plus is_word)
      (Seq (Opt (Seq (Lit "(") (Seq (StarLazy any_char) (Lit ")"))))
        (Seq (Lit "]]") (Seq (Star is_space) Eol)))))))).

Definition dquote : string := String "034" EmptyString.
Definition blank_or_tab : string := String " " (String "009" EmptyString).

(** The pattern [[ \t]-(?:[IDif]|std)(?:Q[^Q]+Q|[^ ]+)], where [Q] stands for
    the double quote character. *)
Definition reCompileArg : regex :=
  Seq (Cls (one_of blank_or_tab)) (Seq (Lit "-")
    (Seq (Alt (Cls (one_of "IDif")) (Lit "std"))
      (Alt (Seq (Lit dquote) (Seq (Plus (none_of dquote)) (Lit dquote)))
           (Plus (none_of " "))))).

(** The part of [sourceCppHash] behind the file read. *)
Definition sourceCppHashOfContents (contents : string) : string :=
  if regex_search contents reRcpp11 then ""
  else
    let hash :=
      fold_left (fun hash attrib => hash +:+ trim_all attrib)
                (find_all reAttribute contents) "" in
    if String.eqb hash ""
    then if regex_search contents reRcpp then "Rcpp" else hash
    else hash.

Definition extractCompileArgs (line : string) : list string :=
  map (fun arg => replace_all (trim_all arg) dquote "")
      (find_all reCompileArg line).

Definition extractStdArg (args : list string) : string :=
  match List.find (fun arg => starts_with arg "-std=") args with
  | Some arg => arg
  | None => ""
  end.

Definition carriage_return_line_feed : string :=
  String "013" (String "010" EmptyString).

(** [parseCompilationResults] with the file name and the stem of [srcFile]. *)
Definition parseCompilationResultsFor (filename stem results : string) : list string :=
  let lines := split results carriage_return_line_feed in
  let compile := "-c " +:+ filename +:+ " -o " +:+ stem in
  flat_map (fun line => if contains line compile then extractCompileArgs line else [])
           lines.

(** ** The platform layer *)

(** Modelled from the spec: [core::FilePath], the path type of the platform
    layer, which the file uses and does not define.  A path is the list of
    its components below the root of the file system. *)
Module FilePath.

Fixpoint absolutePathFrom (p : list string) : string :=
  match p with
  | [] => ""
  | c :: p' => "/" +:+ c +:+ absolutePathFrom p'
  end.

Definition absolutePath (p : list string) : string :=
  match p with
  | [] => "/"
  | _ => absolutePathFrom p
  end.

Definition components (s : string) : list string :=
  List.filter (fun c => negb (String.eqb c "")) (split s "/").

(** [FilePath (s)] *)
Definition of_string (s : string) : list string := components s.

Definition childPath (p : list string) (name : string) : list string :=
  p ++ components name.

Definition parent (p : list string) : list string := removelast p.

Definition filename (p : list string) : string := List.last p "".

(** The stem and the extension of a file name: the extension starts at the
    last dot. *)
Fixpoint split_extension (name : string) : string * string :=
  match name with
  | EmptyString => ("", "")
  | String c name' =>
      let '(st, ext) := split_extension name' in
      match ext with
      | EmptyString =>
          if ascii_eqb c "." then ("", String c name') else (String c st, "")
      | _ => (String c st, ext)
      end
  end.

Definition is_dot_name (name : string) : bool :=
  String.eqb name "." || String.eqb name "..".

Definition stem (p : list string) : string :=
  let name := filename p in
  if is_dot_name name then name else fst (split_extension name).

Definition extension (p : list string) : string :=
  let name := filename p in
  if is_dot_name name then "" else snd (split_extension name).

Definition extensionLowerCase (p : list string) : string :=
  to_lower (extension p).

Fixpoint strip_prefix (dir p : list string) : option (list string) :=
  match dir, p with
  | [], _ => Some p
  | d :: dir', c :: p' => if String.eqb d c then strip_prefix dir' p' else None
  | _ :: _, [] => None
  end.

(** [p.relativePath (dir)]: the path of [p] below [dir], empty when [p] is
    not below [dir]. *)
Definition relativePath (p dir : list string) : string :=
  match strip_prefix dir p with
  | Some (c :: rest) => c +:+ absolutePathFrom rest
  | _ => ""
  end.

End FilePath.

Abbreviation FilePath := (list string).

Inductive Node : Type :=
| File (contents : string) (mtime : Z)
| Directory (mtime : Z).

Abbreviation FileSystem := (gmap (list string) Node).

(** Modelled from the spec: the file system primitives of the platform layer
    ([exists], [lastWriteTime], reading, writing, removal and creation of
    directories), over a map from the paths that exist to what they are. *)
Module Fs.

Definition path_exists (fs : FileSystem) (p : FilePath) : bool :=
  match fs !! p with Some _ => true | None => false end.

Definition lastWriteTime (fs : FileSystem) (p : FilePath) : Z :=
  match fs !! p with
  | Some (File _ t) | Some (Directory t) => t
  | None => 0
  end.

Definition readStringFromFile (fs : FileSystem) (p : FilePath) : option string :=
  match fs !! p with
  | Some (File contents _) => Some contents
  | _ => None
  end.

Definition write (fs : FileSystem) (p : FilePath) (contents : string) (now : Z)
    : FileSystem :=
  <[p := File contents now]> fs.

Definition below (dir p : FilePath) : bool :=
  match FilePath.strip_prefix dir p with Some _ => true | None => false end.

(** Removal of a file, or of a directory with all it holds. *)
Definition remove_all (fs : FileSystem) (p : FilePath) : FileSystem :=
  filter (fun kv => below p (fst kv) = false) fs.

Fixpoint ancestors_from (done todo : list string) : list (list string) :=
  match todo with
  | [] => []
  | c :: todo' => (done ++ [c]) :: ancestors_from (done ++ [c]) todo'
  end.

(** [create_directories]: the directory and every missing directory above
    it. *)
Definition create_directories (fs : FileSystem) (p : FilePath) (now : Z)
    : FileSystem :=
  fold_left (fun fs d => match fs !! d with
                         | Some _ => fs
                         | None => <[d := Directory now]> fs
                         end)
            (ancestors_from [] p) fs.

End Fs.

(** ** External collaborators *)

Record ProcessResult : Type := {
  exitStatus : Z;
  stdOut : string;
  stdErr : string
}.

Record ProcessOptions : Type := {
  workingDir : option (list string);
  environment : list (string * string)
}.

Record RPackageInfo : Type := {
  linkingTo : string;
  systemRequirements : string
}.

(** What the session, R, libclang and the operating system answer during one
    resolution; [None] stands for a returned [Error]. *)
Record Host : Type := {
  (* core::libclang *)
  clang_compileArgs : list string;
  clang_version : string;
  clang_parseTranslationUnit : string → list string → bool;
  clang_saveTranslationUnit : string → Z;
  (* projects::projectContext () *)
  buildTargetPath : list string;
  buildTypeIsPackage : bool;
  projectDirectory : list string;
  (* module_context *)
  userScratchPath : list string;
  tempFile : list string;
  rScriptPath : option (list string);
  rBinDir : option (list string);
  packratModeOn : bool;
  libPathsString : string;
  rcppSupportsDryRun : bool;
  (* r::exec::RFunction *)
  rs_packagePCH : string → option string;
  rs_includesForLinkingTo : string → option (list string);
  rs_clangPCHPath : string → string → option string;
  (* core::r_util::RPackageInfo::read *)
  readPackageInfo : list string → option RPackageInfo;
  (* core::system *)
  systemEnvironment : list (string * string);
  generateUuid : string;
  runProgram : string → list string → ProcessOptions → option ProcessResult;
  runRCommand : list string → list string → ProcessOptions → option ProcessResult;
  (* the file system *)
  canWrite : list string → bool;
  canRemove : list string → bool;
  canCreateDirectory : list string → bool;
  now : Z
}.

Definition EXIT_SUCCESS : Z := 0.
Definition CXSaveError_None : Z := 0.

(** A started process. *)
Inductive Invocation : Type :=
| RunProgram (exe : string) (args : list string) (options : ProcessOptions)
| RunRCommand (rBin : list string) (args : list string) (options : ProcessOptions).

(** ** The compilation database and its surroundings *)

Record RCompilationDatabase : Type := {
  packageBuildFileHash_ : string;
  packageSrcArgs_ : list string;
  packagePCH_ : string;
  sourceCppHashes_ : gmap string string;
  sourceCppArgsMap_ : gmap string (list string)
}.

Record Session : Type := {
  this : RCompilationDatabase;
  files : gmap (list string) Node;
  spawned : list Invocation
}.

(** The database of a fresh session. *)
Definition emptyDatabase : RCompilationDatabase :=
  {| packageBuildFileHash_ := ""; packageSrcArgs_ := []; packagePCH_ := "";
     sourceCppHashes_ := ∅; sourceCppArgsMap_ := ∅ |}.

(** Member functions run in a state monad over the session. *)
Definition M (A : Type) : Type := Session → A * Session.

Definition ret {A} (a : A) : M A := fun s => (a, s).
Definition bind {A B} (m : M A) (k : A → M B) : M B :=
  fun s => let '(a, s') := m s in k a s'.

Notation "'let*' x ':=' m 'in' k" := (bind m (fun x => k))
  (at level 10, x pattern, m at level 100, k at level 200).
Notation "m ';;' k" := (bind m (fun _ => k))
  (at level 100, k at level 200, right associativity).

Definition getThis : M RCompilationDatabase := fun s => (this s, s).
Definition setThis (d : RCompilationDatabase) : M unit :=
  fun s => (tt, {| this := d; files := files s; spawned := spawned s |}).
Definition getFiles : M (gmap (list string) Node) := fun s => (files s, s).
Definition setFiles (fs : gmap (list string) Node) : M unit :=
  fun s => (tt, {| this := this s; files := fs; spawned := spawned s |}).
Definition spawn (i : Invocation) : M unit :=
  fun s => (tt, {| this := this s; files := files s; spawned := spawned s ++ [i] |}).

(** Modelled from the spec: [core::writeStringToFile] of the platform layer;
    [false] stands for an error. *)
Definition writeStringToFile (h : Host) (p : FilePath) (contents : string) : M bool :=
  if canWrite h p
  then let* fs := getFiles in
       setFiles (Fs.write fs p contents (now h));; ret true
  else ret false.

(** Modelled from the spec: [FilePath::remove], which deletes a file, or a
    directory with all it holds. *)
Definition removePath (h : Host) (p : FilePath) : M bool :=
  if canRemove h p
  then let* fs := getFiles in setFiles (Fs.remove_all fs p);; ret true
  else ret false.

(** Modelled from the spec: [FilePath::removeIfExists] *)
Definition removeIfExists (h : Host) (p : FilePath) : M bool :=
  let* fs := getFiles in
  if Fs.path_exists fs p then removePath h p else ret true.

(** Modelled from the spec: [FilePath::ensureDirectory], which creates the
    directory and those above it when it does not exist. *)
Definition ensureDirectory (h : Host) (p : FilePath) : M bool :=
  let* fs := getFiles in
  if Fs.path_exists fs p then ret true
  else if canCreateDirectory h p
       then setFiles (Fs.create_directories fs p (now h));; ret true
       else ret false.

(** [core::system::setenv (&env, name, value)] *)
Fixpoint setenv (env : list (string * string)) (name value : string)
    : list (string * string) :=
  match env with
  | [] => [(name, value)]
  | (n, v) :: env' =>
      if String.eqb n name then (name, value) :: env'
      else (n, v) :: setenv env' name value
  end.

(** ** The anonymous namespace: functions on the surroundings *)

Definition sourceCppHash (srcPath : FilePath) : M string :=
  let* fs := getFiles in
  match Fs.readStringFromFile fs srcPath with
  | None => ret ""
  | Some contents => ret (sourceCppHashOfContents contents)
  end.

Definition buildFileHash (fs : FileSystem) (filePath : FilePath) : string :=
  if Fs.path_exists fs filePath
  then show_Z (Fs.lastWriteTime fs filePath)
  else "".

Definition packageBuildFileHash (h : Host) : M string :=
  let* fs := getFiles in
  let buildPath := buildTargetPath h in
  let srcPath := FilePath.childPath buildPath "src" in
  ret (buildFileHash fs (FilePath.childPath buildPath "DESCRIPTION") +:+
       (if Fs.path_exists fs srcPath
        then buildFileHash fs (FilePath.childPath srcPath "Makevars") +:+
             buildFileHash fs (FilePath.childPath srcPath "Makevars.win")
        else "")).

(** Outside Windows the environment of the session is used as it is. *)
Definition compilationEnvironment (h : Host) : list (string * string) :=
  systemEnvironment h.

Definition parseCompilationResults (srcFile : FilePath) (results : string)
    : list string :=
  parseCompilationResultsFor (FilePath.filename srcFile) (FilePath.stem srcFile)
                             results.

Definition packagePCH (h : Host) (linkingTo : string) : string :=
  match rs_packagePCH h linkingTo with
  | Some pch => pch
  | None => ""
  end.

Definition includesForLinkingTo (h : Host) (linkingTo : string) : list string :=
  match rs_includesForLinkingTo h linkingTo with
  | Some includes => includes
  | None => []
  end.

(** ** Member functions *)

(** The command line of [executeSourceCpp]: the program, its arguments and
    the options; [None] when the path of the R script cannot be found. *)
Definition sourceCppCommand (h : Host) (env : list (string * string))
    (srcPath : FilePath) : option (string * list string * ProcessOptions) :=
  match rScriptPath h with
  | None => None
  | Some rScript =>
      let args := ["--slave"] in
      let '(dir, args, env) :=
        if packratModeOn h
        then (Some (projectDirectory h), args ++ ["--no-save"; "--no-restore"], env)
        else (None, args ++ ["--vanilla"],
              if String.eqb (libPathsString h) "" then env
              else setenv env "R_LIBS" (libPathsString h)) in
      let '(extraParams, env) :=
        if rcppSupportsDryRun h then (", dryRun = TRUE", env)
        else ("", setenv env "MAKE" "make --dry-run") in
      let options := {| workingDir := dir; environment := env |} in
      let args := args ++ ["-e"; "Rcpp::sourceCpp('" +:+ FilePath.absolutePath srcPath
                                 +:+ "', showOutput = TRUE" +:+ extraParams +:+ ")"] in
      Some (FilePath.absolutePath rScript, args, options)
  end.

Definition executeSourceCpp (h : Host) (env : list (string * string))
    (srcPath : FilePath) : M (option ProcessResult) :=
  match sourceCppCommand h env srcPath with
  | None => ret None
  | Some (exe, args, options) =>
      spawn (RunProgram exe args options);;
      ret (runProgram h exe args options)
  end.

(** The command of [executeRCmdSHLIB]; [None] when the directory of the R
    binaries cannot be found. *)
Definition rCmdSHLIBCommand (h : Host) (env : list (string * string))
    (srcPath : FilePath) : option (list string * list string * ProcessOptions) :=
  match rBinDir h with
  | None => None
  | Some rBin =>
      Some (rBin, ["SHLIB"; "--dry-run"; FilePath.filename srcPath],
            {| workingDir := Some (FilePath.parent srcPath); environment := env |})
  end.

Definition executeRCmdSHLIB (h : Host) (env : list (string * string))
    (srcPath : FilePath) : M (option ProcessResult) :=
  match rCmdSHLIBCommand h env srcPath with
  | None => ret None
  | Some (rBin, args, options) =>
      spawn (RunRCommand rBin args options);;
      ret (runRCommand h rBin args options)
  end.

Definition argsForRCmdSHLIB (h : Host) (env : list (string * string))
    (tempSrcFile : FilePath) : M (list string) :=
  let* written := writeStringToFile h tempSrcFile ("void foo() {}" +:+ String "010" "") in
  if negb written then ret []
  else
    let* result := executeRCmdSHLIB h env tempSrcFile in
    removePath h tempSrcFile;;
    match result with
    | None => ret []
    | Some result =>
        if negb (Z.eqb (exitStatus result) EXIT_SUCCESS) then ret []
        else ret (parseCompilationResults tempSrcFile (stdOut result))
    end.

Definition argsForSourceCpp (h : Host) (srcFile : FilePath) : M (list string) :=
  let args := clang_compileArgs h in
  let env := compilationEnvironment h in
  let* result := executeSourceCpp h env srcFile in
  match result with
  | None => ret []
  | Some result =>
      if negb (Z.eqb (exitStatus result) EXIT_SUCCESS) then ret []
      else ret (args ++ parseCompilationResults srcFile (stdOut result))
  end.

(** The two path substitutions applied to an argument of [R CMD SHLIB]. *)
Definition substitutePaths (srcDir : FilePath) (arg : string) : string :=
  let arg := replace_first arg "-I.."
               ("-I" +:+ FilePath.absolutePath (FilePath.parent srcDir)) in
  replace_first arg "-I." ("-I" +:+ FilePath.absolutePath srcDir).

(** The arguments a package resolution starts from: those of libclang and the
    includes of the packages named in [LinkingTo]. *)
Definition packageBaseArgs (h : Host) (pkgInfo : RPackageInfo) : list string :=
  let args := clang_compileArgs h in
  if negb (String.eqb (linkingTo pkgInfo) "")
  then args ++ includesForLinkingTo h (linkingTo pkgInfo)
  else args.

(** The build environment, with [USE_CXX1X] when the package asks for C++11. *)
Definition packageEnvironment (h : Host) (pkgInfo : RPackageInfo)
    : list (string * string) :=
  let env := compilationEnvironment h in
  if icontains (systemRequirements pkgInfo) "C++11"
  then env ++ [("USE_CXX1X", "1")]
  else env.

Definition packageSrcDir (h : Host) : FilePath :=
  FilePath.childPath (buildTargetPath h) "src".

Definition packageTempSrcFile (h : Host) : FilePath :=
  FilePath.childPath (packageSrcDir h) (generateUuid h +:+ ".cpp").

Definition updateForCurrentPackage (h : Host) : M unit :=
  let* buildFileHash := packageBuildFileHash h in
  let* self := getThis in
  if String.eqb buildFileHash (packageBuildFileHash_ self) then ret tt
  else
    match readPackageInfo h (buildTargetPath h) with
    | None => ret tt
    | Some pkgInfo =>
        let args := packageBaseArgs h pkgInfo in
        let env := packageEnvironment h pkgInfo in
        let srcDir := packageSrcDir h in
        let* compileArgs := argsForRCmdSHLIB h env (packageTempSrcFile h) in
        match compileArgs with
        | [] => ret tt
        | _ =>
            let args := args ++ map (substitutePaths srcDir) compileArgs in
            let* self := getThis in
            setThis {| packageBuildFileHash_ := buildFileHash;
                       packageSrcArgs_ := args;
                       packagePCH_ := packagePCH h (linkingTo pkgInfo);
                       sourceCppHashes_ := sourceCppHashes_ self;
                       sourceCppArgsMap_ := sourceCppArgsMap_ self |}
        end
    end.

Definition updateForSourceCpp (h : Host) (srcFile : FilePath) : M unit :=
  let* hash := sourceCppHash srcFile in
  let filename := FilePath.absolutePath srcFile in
  let* self := getThis in
  if bool_decide (sourceCppHashes_ self !! filename = Some hash) then ret tt
  else if String.eqb hash "" then ret tt
  else
    let* args := argsForSourceCpp h srcFile in
    match args with
    | [] => ret tt
    | _ =>
        let* self := getThis in
        setThis {| packageBuildFileHash_ := packageBuildFileHash_ self;
                   packageSrcArgs_ := packageSrcArgs_ self;
                   packagePCH_ := packagePCH_ self;
                   sourceCppHashes_ := <[filename := hash]> (sourceCppHashes_ self);
                   sourceCppArgsMap_ := <[filename := args]> (sourceCppArgsMap_ self) |}
    end.

(** The root of the precompiled headers of one package. *)
Definition precompiledDirFor (h : Host) (pkgName : string) : FilePath :=
  FilePath.childPath (userScratchPath h) ("libclang/precompiled/" +:+ pkgName).

(** [precompiledHeaderArgs], first step: when the directory of the current
    platform and versions is missing, the whole root of the package is
    deleted and the directory is created.  [false] stands for the early
    return after an error. *)
Definition ensurePlatformPath (h : Host) (precompiledDir platformPath : FilePath)
    : M bool :=
  let* fs := getFiles in
  if negb (Fs.path_exists fs platformPath)
  then
    let* removed := removeIfExists h precompiledDir in
    if negb removed then ret false
    else ensureDirectory h platformPath
  else ret true.

(** [precompiledHeaderArgs], second step: the header is parsed and saved when
    its file is missing.  [false] stands for the early return after an
    error. *)
Definition createPrecompiledHeader (h : Host) (pkgName stdArg : string)
    (platformPath pchPath : FilePath) : M bool :=
  let cppPath := FilePath.childPath platformPath (pkgName +:+ stdArg +:+ ".cpp") in
  let contents := "#include <" +:+ pkgName +:+ ".h>" +:+ String "010" "" in
  let* written := writeStringToFile h cppPath contents in
  if negb written then ret false
  else
    let args := clang_compileArgs h in
    let args := if negb (String.eqb stdArg "") then args ++ [stdArg] else args in
    let env := compilationEnvironment h in
    let* cArgs := argsForRCmdSHLIB h env (tempFile h) in
    let args := args ++ cArgs in
    let args := args ++ includesForLinkingTo h pkgName in
    if negb (clang_parseTranslationUnit h (FilePath.absolutePath cppPath) args)
    then ret false
    else
      let ret_ := clang_saveTranslationUnit h (FilePath.absolutePath pchPath) in
      (if Z.eqb ret_ CXSaveError_None
       then let* fs := getFiles in setFiles (Fs.write fs pchPath "" (now h))
       else ret tt);;
      ret true.

Definition precompiledHeaderArgs (h : Host) (pkgName stdArg : string)
    : M (list string) :=
  let precompiledDir := precompiledDirFor h pkgName in
  match rs_clangPCHPath h pkgName (clang_version h) with
  | None => ret []
  | Some platformDir =>
      let platformPath := FilePath.childPath precompiledDir platformDir in
      let* ready := ensurePlatformPath h precompiledDir platformPath in
      if negb ready then ret []
      else
        let pchPath := FilePath.childPath platformPath (pkgName +:+ stdArg +:+ ".pch") in
        let* fs := getFiles in
        let* created :=
          if negb (Fs.path_exists fs pchPath)
          then createPrecompiledHeader h pkgName stdArg platformPath pchPath
          else ret true in
        if negb created then ret []
        else ret ["-include-pch"; FilePath.absolutePath pchPath]
  end.

(** Whether [filePath] is a source file of the current package. *)
Definition isPackageSource (h : Host) (filePath : FilePath) : bool :=
  buildTypeIsPackage h &&
  negb (String.eqb (FilePath.relativePath filePath (packageSrcDir h)) "").

(** The first half of [compileArgsForTranslationUnit]: the arguments of the
    cache the file belongs to, brought up to date on demand, and the package
    whose precompiled header goes with them. *)
Definition cachedArgsForTranslationUnit (h : Host) (filePath : FilePath)
    : M (list string * string) :=
  if isPackageSource h filePath
  then
    updateForCurrentPackage h;;
    let* self := getThis in
    ret (packageSrcArgs_ self, packagePCH_ self)
  else
    updateForSourceCpp h filePath;;
    let* self := getThis in
    match sourceCppArgsMap_ self !! FilePath.absolutePath filePath with
    | Some args => ret (args, "Rcpp")
    | None => ret ([], "")
    end.

Definition isCppFile (filePath : FilePath) : bool :=
  let ext := FilePath.extensionLowerCase filePath in
  String.eqb ext ".cc" || String.eqb ext ".cpp".

Definition compileArgsForTranslationUnit (h : Host) (filename : string)
    : M (list string) :=
  let filePath := FilePath.of_string filename in
  let* found := cachedArgsForTranslationUnit h filePath in
  let '(args, packagePCH) := found in
  match args with
  | [] => ret args
  | _ =>
      if negb (String.eqb packagePCH "")
      then
        if isCppFile filePath
        then
          let stdArg := extractStdArg args in
          let* pchArgs := precompiledHeaderArgs h packagePCH stdArg in
          ret (args ++ pchArgs)
        else ret args
      else ret args
  end.

(** Modelled from the spec: [FilePath::children], the entries right below a
    directory, in no particular order. *)
Definition children (fs : FileSystem) (dir : FilePath) : list FilePath :=
  List.filter (fun p => bool_decide (p ≠ [] ∧ FilePath.parent p = dir))
              (map fst (map_to_list fs)).

(** What the source index and the directory listing answer: whether a file
    name is that of a translation unit, and whether a directory can be
    listed. *)
Record SourceIndex : Type := {
  isTranslationUnit : string → bool;
  canList : FilePath → bool
}.

Definition translationUnits (h : Host) (index : SourceIndex) : M (list string) :=
  if buildTypeIsPackage h
  then
    let srcPath := FilePath.childPath (buildTargetPath h) "src" in
    let* fs := getFiles in
    if Fs.path_exists fs srcPath
    then
      if canList index srcPath
      then ret (List.filter (isTranslationUnit index)
                  (map FilePath.absolutePath (children fs srcPath)))
      else ret []
    else ret []
  else ret [].

(** ** Vocabulary of the properties *)

Fixpoint all_chars (p : ascii → bool) (s : string) : bool :=
  match s with
  | EmptyString => true
  | String c s' => p c && all_chars p s'
  end.

Definition not_space (c : ascii) : bool := negb (is_space c).
Definition not_dquote (c : ascii) : bool := negb (ascii_eqb c "034").
Definition not_line_end (c : ascii) : bool :=
  negb (contains carriage_return_line_feed (String c "")).

(** The words a pattern can match, the anchors apart. *)
Fixpoint Lang (r : regex) (w : string) : Prop :=
  match r with
  | Eps | Bol | Eol => w = ""
  | Cls p => ∃ c, w = String c "" ∧ p c = true
  | Star p | StarLazy p => all_chars p w = true
  | Seq r1 r2 => ∃ w1 w2, w = w1 +:+ w2 ∧ Lang r1 w1 ∧ Lang r2 w2
  | Alt r1 r2 => Lang r1 w ∨ Lang r2 w
  end.

(** The matcher answered [a] on [s]: a front part [m] of [s] is in [W] and
    the continuation answered [a] on what follows it. *)
Definition Continues {A} (k : option ascii → string → option A) (s : string)
    (W : string → Prop) (a : A) : Prop :=
  ∃ m rest prev', s = m +:+ rest ∧ W m ∧ k prev' rest = Some a.

(** The classes of flags the compile-line pattern lets through. *)
Definition flagClasses : list string := ["-I"; "-D"; "-i"; "-f"; "-std"].

(** A character of a plain word: no white space, no double quote. *)
Definition plain_char (c : ascii) : bool := not_space c && not_dquote c.

(** A word that is a flag for libclang: one of the classes and at least one
    more character. *)
Definition flag_word (w : string) : bool :=
  existsb (fun cls => starts_with w cls && (String.length cls <? String.length w)%nat)
          flagClasses.

(** Nothing, or something that starts with a blank: where a word ends. *)
Definition word_end (rest : string) : bool :=
  match rest with
  | EmptyString => true
  | String c _ => ascii_eqb c " "
  end.

(** The words [ws], one blank in front of each. *)
Definition words_behind (ws : list string) : string :=
  fold_right (fun w rest => String " " (w +:+ rest)) "" ws.

(** The line made of [w0] and the words [ws] behind it. *)
Definition line_of (w0 : string) (ws : list string) : string :=
  w0 +:+ words_behind ws.

(** The signature of the compile line of [srcFile]. *)
Definition compileSignature (srcFile : FilePath) : string :=
  "-c " +:+ FilePath.filename srcFile +:+ " -o " +:+ FilePath.stem srcFile.

(** [s.find (pat)]: where the first occurrence of [pat] in [s] starts. *)
Fixpoint index_of (s pat : string) : option nat :=
  if starts_with s pat then Some 0
  else match s with
       | EmptyString => None
       | String _ s' => option_map S (index_of s' pat)
       end.

(** What the two build tools answer, the bookkeeping of the session apart. *)
Definition rCmdSHLIBResult (h : Host) (env : list (string * string))
    (srcPath : FilePath) : option ProcessResult :=
  match rCmdSHLIBCommand h env srcPath with
  | None => None
  | Some (rBin, args, options) => runRCommand h rBin args options
  end.

Definition sourceCppResult (h : Host) (srcPath : FilePath) : option ProcessResult :=
  match sourceCppCommand h (compilationEnvironment h) srcPath with
  | None => None
  | Some (exe, args, options) => runProgram h exe args options
  end.

(** A tool run that failed: it could not be started or did not exit with
    [EXIT_SUCCESS]. *)
Definition runFailed (result : option ProcessResult) : Prop :=
  match result with
  | None => True
  | Some r => exitStatus r ≠ EXIT_SUCCESS
  end.

(** A tool run that succeeded but whose output has no flag for [srcFile]. *)
Definition runWithoutFlags (srcFile : FilePath) (result : option ProcessResult) : Prop :=
  match result with
  | None => False
  | Some r => exitStatus r = EXIT_SUCCESS ∧
              parseCompilationResults srcFile (stdOut r) = []
  end.

(** The package resolution fails or yields no flags. *)
Definition packageResolutionFails (h : Host) : Prop :=
  match readPackageInfo h (buildTargetPath h) with
  | None => True
  | Some pkgInfo =>
      let result := rCmdSHLIBResult h (packageEnvironment h pkgInfo)
                                    (packageTempSrcFile h) in
      canWrite h (packageTempSrcFile h) = false ∨
      runFailed result ∨ runWithoutFlags (packageTempSrcFile h) result
  end.

(** The file system has the parent of every path it has. *)
Definition parentsExist (fs : FileSystem) : bool :=
  forallb (fun entry => match removelast (fst entry) with
                        | [] => true
                        | dir => Fs.path_exists fs dir
                        end)
          (map_to_list fs).

(** [v] names a directory right below [root]: the precompiled headers of one
    platform and set of versions. *)
Definition versionDirectory (fs : FileSystem) (root : FilePath) (v : string) : Prop :=
  ∃ t, fs !! (root ++ [v]) = Some (Directory t).

Definition atMostOneVersion (fs : FileSystem) (root : FilePath) : Prop :=
  ∀ v1 v2, versionDirectory fs root v1 → versionDirectory fs root v2 → v1 = v2.

(** No directory of [fs'] is new. *)
Definition noNewDirectory (fs fs' : FileSystem) : Prop :=
  ∀ q t, fs' !! q = Some (Directory t) → fs !! q = Some (Directory t).

(** Every path of [fs'] is one of [fs] or one of [new]. *)
Definition addsOnly (new : list FilePath) (fs fs' : FileSystem) : Prop :=
  ∀ q, is_Some (fs' !! q) → is_Some (fs !! q) ∨ q ∈ new.

(** The processes [executeRCmdSHLIB] and [executeSourceCpp] start. *)
Definition rCmdSHLIBInvocations (h : Host) (env : list (string * string))
    (srcPath : FilePath) : list Invocation :=
  match rCmdSHLIBCommand h env srcPath with
  | None => []
  | Some (rBin, args, options) => [RunRCommand rBin args options]
  end.

Definition sourceCppInvocations (h : Host) (srcPath : FilePath) : list Invocation :=
  match sourceCppCommand h (compilationEnvironment h) srcPath with
  | None => []
  | Some (exe, args, options) => [RunProgram exe args options]
  end.

(** The flags a tool run gives for [srcFile]. *)
Definition flagsOfRun (srcFile : FilePath) (result : option ProcessResult)
    : list string :=
  match result with
  | None => []
  | Some r =>
      if negb (Z.eqb (exitStatus r) EXIT_SUCCESS) then []
      else parseCompilationResults srcFile (stdOut r)
  end.

(** The package resolution succeeds with at least one flag. *)
Definition packageResolutionSucceeds (h : Host) (pkgInfo : RPackageInfo)
    (flags : list string) : Prop :=
  readPackageInfo h (buildTargetPath h) = Some pkgInfo ∧
  canWrite h (packageTempSrcFile h) = true ∧
  flagsOfRun (packageTempSrcFile h)
             (rCmdSHLIBResult h (packageEnvironment h pkgInfo)
                              (packageTempSrcFile h)) = flags ∧
  flags ≠ [].

(** The standalone resolution fails, or gives neither a flag of libclang nor
    one of the build. *)
Definition sourceCppResolutionFails (h : Host) (srcFile : FilePath) : Prop :=
  runFailed (sourceCppResult h srcFile) ∨
  (clang_compileArgs h = [] ∧ runWithoutFlags srcFile (sourceCppResult h srcFile)).

(** What the standalone cache holds for a file. *)
Definition sourceCppCached (self : RCompilationDatabase) (filePath : FilePath)
    : list string * string :=
  match sourceCppArgsMap_ self !! FilePath.absolutePath filePath with
  | Some args => (args, "Rcpp")
  | None => ([], "")
  end.

(** [fs'] has the directories of [fs] at most, and beside the paths of [fs]
    only files of [allowed]. *)
Definition filesOnly (allowed : list FilePath) (fs fs' : FileSystem) : Prop :=
  noNewDirectory fs fs' ∧ addsOnly allowed fs fs'.

(** Below [root] there is nothing but the directories that lead to
    [platformPath]. *)
Definition evicted (root platformPath : FilePath) (fs : FileSystem) : Prop :=
  ∀ q, root `prefix_of` q → is_Some (fs !! q) → q `prefix_of` platformPath.

(** *** The build files of the package *)

(** The files whose state the fingerprint of the package reads. *)
Definition descriptionFile (h : Host) : FilePath :=
  FilePath.childPath (buildTargetPath h) "DESCRIPTION".
Definition makevarsFile (h : Host) : FilePath :=
  FilePath.childPath (packageSrcDir h) "Makevars".
Definition makevarsWinFile (h : Host) : FilePath :=
  FilePath.childPath (packageSrcDir h) "Makevars.win".

Definition buildFiles (h : Host) : list FilePath :=
  [descriptionFile h; packageSrcDir h; makevarsFile h; makevarsWinFile h].

(** Whether a path exists, and when it was last written. *)
Definition stamp (fs : FileSystem) (p : FilePath) : option Z :=
  if Fs.path_exists fs p then Some (Fs.lastWriteTime fs p) else None.

(** The same paths exist in [fs] and in [fs'], and every file has the
    contents and the time it had. *)
Definition sameFiles (fs fs' : FileSystem) : Prop :=
  ∀ q, Fs.path_exists fs' q = Fs.path_exists fs q ∧
       ∀ c t, fs' !! q = Some (File c t) ↔ fs !! q = Some (File c t).

Definition not_slash (c : ascii) : bool := negb (contains "/" (String c "")).

(** A component of a path: not empty, no slash. *)
Definition validComponent (c : string) : bool :=
  negb (String.eqb c "") && all_chars not_slash c.

(** Every path of the file system is made of such components. *)
Definition validPaths (fs : FileSystem) : bool :=
  forallb (fun entry => forallb validComponent (fst entry)) (map_to_list fs).

(** *** The standalone cache *)

(** The arguments a run of [Rcpp::sourceCpp] gives for [srcFile]: those of
    libclang and the flags of the compile line. *)
Definition sourceCppArgsOfRun (h : Host) (srcFile : FilePath) : list string :=
  match sourceCppResult h srcFile with
  | None => []
  | Some r =>
      if negb (exitStatus r =? EXIT_SUCCESS)%Z then []
      else clang_compileArgs h ++ parseCompilationResults srcFile (stdOut r)
  end.

(** The database with the entry of a standalone file set. *)
Definition withSourceCppEntry (d : RCompilationDatabase) (filename hash : string)
    (args : list string) : RCompilationDatabase :=
  {| packageBuildFileHash_ := packageBuildFileHash_ d;
     packageSrcArgs_ := packageSrcArgs_ d;
     packagePCH_ := packagePCH_ d;
     sourceCppHashes_ := <[filename := hash]> (sourceCppHashes_ d);
     sourceCppArgsMap_ := <[filename := args]> (sourceCppArgsMap_ d) |}.

(** What the database keeps at all times: the two standalone maps have the
    same keys, no stored fingerprint and no stored argument list is empty,
    and the package cache is blank as long as it has no arguments. *)
Definition wellFormed (d : RCompilationDatabase) : Prop :=
  (∀ k, is_Some (sourceCppHashes_ d !! k) ↔ is_Some (sourceCppArgsMap_ d !! k)) ∧
  (∀ k hash, sourceCppHashes_ d !! k = Some hash → hash ≠ "") ∧
  (∀ k args, sourceCppArgsMap_ d !! k = Some args → args ≠ []) ∧
  (packageSrcArgs_ d = [] → packageBuildFileHash_ d = "" ∧ packagePCH_ d = "").

(** *** Processes *)

(** The value an environment gives to a name: that of its first entry for
    the name. *)
Definition getenv (env : list (string * string)) (name : string) : option string :=
  option_map snd (List.find (fun entry => String.eqb (fst entry) name) env).

(** A process that only prints what a build would do: [R CMD SHLIB] with
    [--dry-run], or [Rcpp::sourceCpp] either with [dryRun = TRUE] as its last
    parameter or with a [make] that only prints. *)
Definition isDryRun (i : Invocation) : Prop :=
  match i with
  | RunRCommand _ args _ => "--dry-run" ∈ args
  | RunProgram _ args options =>
      (∃ call, List.last args "" = call +:+ ", dryRun = TRUE)") ∨
      getenv (environment options) "MAKE" = Some "make --dry-run"
  end.

(** [s1] has the processes of [s] and at most [n] more, dry runs all. *)
Definition startsDryRuns (n : nat) (s s1 : Session) : Prop :=
  ∃ new, spawned s1 = spawned s ++ new ∧ Forall isDryRun new ∧ length new ≤ n.

(** *** The precompiled header store *)

(** The paths of the precompiled header of [pkgName] for [stdArg]: its
    directory, the header and the source the header is made from. *)
Definition platformPathFor (h : Host) (pkgName platformDir : string) : FilePath :=
  FilePath.childPath (precompiledDirFor h pkgName) platformDir.
Definition pchPathFor (h : Host) (pkgName platformDir stdArg : string) : FilePath :=
  FilePath.childPath (platformPathFor h pkgName platformDir)
                     (pkgName +:+ stdArg +:+ ".pch").
Definition cppPathFor (h : Host) (pkgName platformDir stdArg : string) : FilePath :=
  FilePath.childPath (platformPathFor h pkgName platformDir)
                     (pkgName +:+ stdArg +:+ ".cpp").

(** *** Searches *)



(** ** A worked session

    A package in [/home/u/pkg], a standalone file [/home/u/foo.cpp], and a
    host whose tools answer as given. *)
Module Example.

Definition succeeded (out : string) : option ProcessResult :=
  Some {| exitStatus := 0; stdOut := out; stdErr := "" |}.

Definition exited (status : Z) : option ProcessResult :=
  Some {| exitStatus := status; stdOut := ""; stdErr := "error" |}.

(** The line [make] prints for the compilation of [file]. *)
Definition compileLine (flags file : string) : string :=
  "g++ -I/usr/share/R/include -DNDEBUG" +:+ flags +:+ " -c " +:+ file +:+
  " -o " +:+ FilePath.stem [file] +:+ ".o".

Definition host (clangArgs : list string) (clangVersion : string)
    (parses : bool) (saveCode : Z)
    (shlib : string → option ProcessResult)
    (sourceCpp : option ProcessResult) : Host :=
  {| clang_compileArgs := clangArgs;
     clang_version := clangVersion;
     clang_parseTranslationUnit := fun _ _ => parses;
     clang_saveTranslationUnit := fun _ => saveCode;
     buildTargetPath := ["home"; "u"; "pkg"];
     buildTypeIsPackage := true;
     projectDirectory := ["home"; "u"; "pkg"];
     userScratchPath := ["home"; "u"; ".rstudio"];
     tempFile := ["tmp"; "clang-1.cpp"];
     rScriptPath := Some ["usr"; "bin"; "Rscript"];
     rBinDir := Some ["usr"; "bin"];
     packratModeOn := false;
     libPathsString := "";
     rcppSupportsDryRun := true;
     rs_packagePCH := fun _ => Some "Rcpp";
     rs_includesForLinkingTo := fun _ => Some ["-I/usr/lib/R/Rcpp/include"];
     rs_clangPCHPath := fun _ version => Some ("x86_64-3.1-" +:+ version);
     readPackageInfo := fun _ => Some {| linkingTo := "Rcpp";
                                         systemRequirements := "" |};
     systemEnvironment := [("HOME", "/home/u")];
     generateUuid := "7f1c";
     runProgram := fun _ _ _ => sourceCpp;
     runRCommand := fun _ args _ => shlib (List.last args "");
     canWrite := fun _ => true;
     canRemove := fun _ => true;
     canCreateDirectory := fun _ => true;
     now := 100 |}.

Definition shlibWorks (file : string) : option ProcessResult :=
  succeeded (compileLine " -I../inst/include -I. -fpic" file).

Definition shlibBreaks (_ : string) : option ProcessResult := exited 1.

Definition clangArgs : list string := ["-I/opt/clang/include"].

(** Everything works. *)
Definition working : Host :=
  host clangArgs "3.5" true 0 shlibWorks (succeeded (compileLine " -fpic" "foo.cpp")).

(** [R CMD SHLIB] exits with an error. *)
Definition brokenBuild : Host :=
  host clangArgs "3.5" true 0 shlibBreaks (succeeded (compileLine " -fpic" "foo.cpp")).

(** [Rcpp::sourceCpp] runs but prints no compile line. *)
Definition silentSourceCpp : Host :=
  host clangArgs "3.5" true 0 shlibWorks (succeeded "make: Nothing to be done").

(** libclang parses the header but cannot save it. *)
Definition cannotSave : Host :=
  host clangArgs "3.5" true 1 shlibWorks (succeeded (compileLine " -fpic" "foo.cpp")).

(** libclang [3.6] has replaced [3.5]. *)
Definition upgraded : Host :=
  host clangArgs "3.6" true 0 shlibWorks (succeeded (compileLine " -fpic" "foo.cpp")).

Definition fooCpp : FilePath := ["home"; "u"; "foo.cpp"].

Definition newline : string := String "010" "".

Definition withRcpp : string :=
  "#include <Rcpp.h>" +:+ newline +:+ "int one() { return 1; }".

Definition withExport : string :=
  "#include <Rcpp.h>" +:+ newline +:+ "// [[Rcpp::export]]" +:+ newline +:+
  "int one() { return 1; }".

Definition withRcpp11 : string :=
  "#include <Rcpp11>" +:+ newline +:+ "// [[Rcpp::export]]" +:+ newline +:+
  "int one() { return 1; }".

Definition plainCpp : string := "int main() { return 0; }".

Definition disk (fooContents : string) : FileSystem :=
  list_to_map
    [ (["home"], Directory 1);
      (["home"; "u"], Directory 1);
      (["home"; "u"; "pkg"], Directory 5);
      (["home"; "u"; "pkg"; "DESCRIPTION"], File "Package: pkg" 10);
      (["home"; "u"; "pkg"; "src"], Directory 11);
      (["home"; "u"; "pkg"; "src"; "a.cpp"], File "int a;" 12);
      (["home"; "u"; "foo.cpp"], File fooContents 13);
      (["tmp"], Directory 1) ].

Definition fresh (fooContents : string) : Session :=
  {| this := emptyDatabase; files := disk fooContents; spawned := [] |}.

(** The session after the header of Rcpp was precompiled for libclang
    [3.5]. *)
Definition afterFirstHeader : Session :=
  snd (precompiledHeaderArgs working "Rcpp" "" (fresh withRcpp)).

(** The user edits [foo.cpp]. *)
Definition edit (contents : string) (s : Session) : Session :=
  {| this := this s;
     files := <[fooCpp := File contents 20]> (files s);
     spawned := spawned s |}.

End Example.

(** ** More of the worked session *)
Module Scene.

(** The host [h] with a disk that cannot be changed. *)
Definition readOnly (h : Host) : Host :=
  {| clang_compileArgs := clang_compileArgs h;
     clang_version := clang_version h;
     clang_parseTranslationUnit := clang_parseTranslationUnit h;
     clang_saveTranslationUnit := clang_saveTranslationUnit h;
     buildTargetPath := buildTargetPath h;
     buildTypeIsPackage := buildTypeIsPackage h;
     projectDirectory := projectDirectory h;
     userScratchPath := userScratchPath h;
     tempFile := tempFile h;
     rScriptPath := rScriptPath h;
     rBinDir := rBinDir h;
     packratModeOn := packratModeOn h;
     libPathsString := libPathsString h;
     rcppSupportsDryRun := rcppSupportsDryRun h;
     rs_packagePCH := rs_packagePCH h;
     rs_includesForLinkingTo := rs_includesForLinkingTo h;
     rs_clangPCHPath := rs_clangPCHPath h;
     readPackageInfo := readPackageInfo h;
     systemEnvironment := systemEnvironment h;
     generateUuid := generateUuid h;
     runProgram := runProgram h;
     runRCommand := runRCommand h;
     canWrite := fun _ => false;
     canRemove := fun _ => false;
     canCreateDirectory := fun _ => false;
     now := now h |}.

(** The host [h] with an R whose two functions on [LinkingTo] fail. *)
Definition failingR (h : Host) : Host :=
  {| clang_compileArgs := clang_compileArgs h;
     clang_version := clang_version h;
     clang_parseTranslationUnit := clang_parseTranslationUnit h;
     clang_saveTranslationUnit := clang_saveTranslationUnit h;
     buildTargetPath := buildTargetPath h;
     buildTypeIsPackage := buildTypeIsPackage h;
     projectDirectory := projectDirectory h;
     userScratchPath := userScratchPath h;
     tempFile := tempFile h;
     rScriptPath := rScriptPath h;
     rBinDir := rBinDir h;
     packratModeOn := packratModeOn h;
     libPathsString := libPathsString h;
     rcppSupportsDryRun := rcppSupportsDryRun h;
     rs_packagePCH := fun _ => None;
     rs_includesForLinkingTo := fun _ => None;
     rs_clangPCHPath := rs_clangPCHPath h;
     readPackageInfo := readPackageInfo h;
     systemEnvironment := systemEnvironment h;
     generateUuid := generateUuid h;
     runProgram := runProgram h;
     runRCommand := runRCommand h;
     canWrite := canWrite h;
     canRemove := canRemove h;
     canCreateDirectory := canCreateDirectory h;
     now := now h |}.

(** The session [s] with the file [p] written at time [t]. *)
Definition touch (p : FilePath) (contents : string) (t : Z) (s : Session) : Session :=
  {| this := this s; files := <[p := File contents t]> (files s); spawned := spawned s |}.

(** The session [s] without the path [p]. *)
Definition unlink (p : FilePath) (s : Session) : Session :=
  {| this := this s; files := delete p (files s); spawned := spawned s |}.

Definition makevars : FilePath := ["home"; "u"; "pkg"; "src"; "Makevars"].
Definition makevarsWin : FilePath := ["home"; "u"; "pkg"; "src"; "Makevars.win"].
Definition description : FilePath := ["home"; "u"; "pkg"; "DESCRIPTION"].

(** The package has a [Makevars], and its arguments have been resolved. *)
Definition resolvedWithMakevars : Session :=
  snd (updateForCurrentPackage Example.working
         (touch makevars "PKG_CPPFLAGS = -DX" 30 (Example.fresh Example.withRcpp))).

(** A source index that takes the files of C++ for translation units. *)
Definition cppIndex : SourceIndex :=
  {| isTranslationUnit := fun name => isCppFile (FilePath.of_string name);
     canList := fun _ => true |}.

(** A build tool that prints one compile line for the file it is given. *)
Definition oneLine (file : string) : option ProcessResult :=
  Example.succeeded ("cc -c " +:+ file +:+ " -o " +:+ FilePath.stem [file] +:+
                     " -I/usr/include/dep -DFOO=1").

(** The host [h] for a package whose description asks for [requirements]. *)
Definition requiring (requirements : string) (h : Host) : Host :=
  {| clang_compileArgs := clang_compileArgs h;
     clang_version := clang_version h;
     clang_parseTranslationUnit := clang_parseTranslationUnit h;
     clang_saveTranslationUnit := clang_saveTranslationUnit h;
     buildTargetPath := buildTargetPath h;
     buildTypeIsPackage := buildTypeIsPackage h;
     projectDirectory := projectDirectory h;
     userScratchPath := userScratchPath h;
     tempFile := tempFile h;
     rScriptPath := rScriptPath h;
     rBinDir := rBinDir h;
     packratModeOn := packratModeOn h;
     libPathsString := libPathsString h;
     rcppSupportsDryRun := rcppSupportsDryRun h;
     rs_packagePCH := rs_packagePCH h;
     rs_includesForLinkingTo := rs_includesForLinkingTo h;
     rs_clangPCHPath := rs_clangPCHPath h;
     readPackageInfo := fun _ => Some {| linkingTo := "Rcpp";
                                         systemRequirements := requirements |};
     systemEnvironment := systemEnvironment h;
     generateUuid := generateUuid h;
     runProgram := runProgram h;
     runRCommand := runRCommand h;
     canWrite := canWrite h;
     canRemove := canRemove h;
     canCreateDirectory := canCreateDirectory h;
     now := now h |}.

(** A build tool that prints a compile line without any flag. *)
Definition bareLine (file : string) : option ProcessResult :=
  Example.succeeded ("cc -c " +:+ file +:+ " -o " +:+ FilePath.stem [file]).

(** [Rcpp::sourceCpp] exits with an error. *)
Definition brokenSourceCpp : Host :=
  Example.host Example.clangArgs "3.5" true 0 Example.shlibWorks (Example.exited 1).

(** Neither libclang nor the build tools give any argument. *)
Definition noArguments : Host :=
  Example.host [] "3.5" true 0 (fun _ => Example.succeeded "make: Nothing to be done")
    (Example.succeeded "make: Nothing to be done").

(** The package was resolved, and its description has changed since. *)
Definition resolvedThenEdited : Session :=
  touch description "Package: pkg" 20
    (snd (updateForCurrentPackage Example.working (Example.fresh Example.withRcpp))).

(** [foo.cpp] was resolved, and has got an attribute since. *)
Definition sourcedThenEdited : Session :=
  Example.edit Example.withExport
    (snd (updateForSourceCpp Example.working Example.fooCpp
            (Example.fresh Example.withRcpp))).

End Scene.

(** * Properties *)

(** ** Strings *)
Lemma string_app_cons (c : ascii) (s t : string) : String c s +:+ t = String c (s +:+ t).
Proof. reflexivity. Qed.

Lemma string_app_nil_l (s : string) : "" +:+ s = s.
Proof. reflexivity. Qed.

Ltac sapp := rewrite ?string_app_cons, ?string_app_nil_l in *.

Lemma string_app_nil_r (s : string) : s +:+ "" = s.
Proof. induction s as [|c s IH]; sapp; [done|]. by rewrite IH. Qed.

Lemma string_app_assoc (a b c : string) : (a +:+ b) +:+ c = a +:+ b +:+ c.
Proof. induction a as [|x a IH]; sapp; [done|]. by rewrite IH. Qed.

Lemma string_length_app (a b : string) :
  String.length (a +:+ b) = String.length a + String.length b.
Proof. induction a as [|x a IH]; sapp; simpl; [done|]. by rewrite IH. Qed.

Lemma string_take_app_length (w rest : string) : take (String.length w) (w +:+ rest) = w.
Proof. induction w as [|c w IH]; sapp; simpl; [by destruct rest|]. by rewrite IH. Qed.

Lemma ascii_eqb_eq (a b : ascii) : ascii_eqb a b = true ↔ a = b.
Proof. apply Ascii.eqb_eq. Qed.

Lemma starts_with_nil (s : string) : starts_with s "" = true.
Proof. by destruct s. Qed.

Lemma starts_with_cons (c d : ascii) (s pre : string) :
  starts_with (String c s) (String d pre) = ascii_eqb d c && starts_with s pre.
Proof.
  unfold starts_with, ascii_eqb. cbn [String.prefix].
  destruct (ascii_dec d c) as [->|Hne].
  - by rewrite Ascii.eqb_refl.
  - by destruct (Ascii.eqb_spec d c).
Qed.

Global Arguments starts_with : simpl never.

Lemma starts_with_app (s pre : string) :
  starts_with s pre = true ↔ ∃ rest, s = pre +:+ rest.
Proof.
  revert s. induction pre as [|c pre IH]; intros s.
  - rewrite starts_with_nil. split; [intros _; by exists s|done].
  - destruct s as [|d s].
    + split; [done|intros [? ?]; done].
    + rewrite starts_with_cons, andb_true_iff, ascii_eqb_eq, IH.
      split.
      * intros [-> [rest ->]]. by exists rest.
      * intros [rest Hr]. sapp. injection Hr as -> ->. eauto.
Qed.

(** ** The primitives at work *)

Example trim_all_example :
  trim_all ("  -I" +:+ String "009" (String "009" "x  y ")) =
  "-I" +:+ String "009" "x y".
Proof. vm_compute. reflexivity. Qed.

Example split_example :
  split ("a" +:+ carriage_return_line_feed +:+ "b") carriage_return_line_feed =
  ["a"; ""; "b"].
Proof. vm_compute. reflexivity. Qed.

Example replace_first_example :
  replace_first "-I../inst/-I.." "-I.." "-I/r" = "-I/r/inst/-I..".
Proof. vm_compute. reflexivity. Qed.

Example extractCompileArgs_quoted :
  extractCompileArgs
    ("gcc -I" +:+ dquote +:+ "/opt/my headers" +:+ dquote +:+
     " -DNAME=" +:+ dquote +:+ "x" +:+ dquote +:+ " -Wall -c a.c -o a.o") =
  ["-I/opt/my headers"; "-DNAME=x"].
Proof. vm_compute. reflexivity. Qed.

Example sourceCppHash_examples :
  sourceCppHashOfContents Example.withRcpp = "Rcpp" ∧
  sourceCppHashOfContents Example.withExport = "// [[Rcpp::export]]" ∧
  sourceCppHashOfContents Example.plainCpp = "" ∧
  sourceCppHashOfContents
    ("  //  [[Rcpp::depends(RcppArmadillo)]]  " +:+ Example.newline +:+
     "// [[Rcpp::export]]" +:+ Example.newline +:+ "int f();") =
  "// [[Rcpp::depends(RcppArmadillo)]]// [[Rcpp::export]]".
Proof. vm_compute. repeat split. Qed.

Example FilePath_examples :
  FilePath.of_string "/home/u/pkg/src/a.b.CPP" = ["home"; "u"; "pkg"; "src"; "a.b.CPP"] ∧
  FilePath.absolutePath ["home"; "u"; "pkg"] = "/home/u/pkg" ∧
  FilePath.filename ["home"; "u"; "a.b.CPP"] = "a.b.CPP" ∧
  FilePath.stem ["home"; "u"; "a.b.CPP"] = "a.b" ∧
  FilePath.extensionLowerCase ["home"; "u"; "a.b.CPP"] = ".cpp" ∧
  FilePath.relativePath ["home"; "u"; "pkg"; "src"; "a.cpp"] ["home"; "u"; "pkg"; "src"]
    = "a.cpp" ∧
  FilePath.relativePath ["home"; "u"; "foo.cpp"] ["home"; "u"; "pkg"; "src"] = "".
Proof. vm_compute. repeat split. Qed.

(** ** The matcher finds only words of the pattern *)

Section Soundness.
Context {A : Type}.
Implicit Types (k : option ascii → string → option A).

Lemma star_greedy_sound p k prev s a :
  star_greedy p k prev s = Some a →
  Continues k s (fun m => all_chars p m = true) a.
Proof.
  revert prev. induction s as [|c s IH]; intros prev; simpl.
  - intros Hk. by exists "", "", prev.
  - destruct (p c) eqn:Hp.
    + destruct (star_greedy p k (Some c) s) as [a'|] eqn:Hrec.
      * intros [= ->]. destruct (IH _ Hrec) as (m & rest & prev' & -> & Hm & Hk).
        exists (String c m), rest, prev'. simpl. by rewrite Hp, Hm.
      * intros Hk. by exists "", (String c s), prev.
    + intros Hk. by exists "", (String c s), prev.
Qed.

Lemma star_lazy_sound p k prev s a :
  star_lazy p k prev s = Some a →
  Continues k s (fun m => all_chars p m = true) a.
Proof.
  revert prev. induction s as [|c s IH]; intros prev; simpl.
  - destruct (k prev "") eqn:Hk; [|done]. intros [= ->]. by exists "", "", prev.
  - destruct (k prev (String c s)) eqn:Hk.
    + intros [= ->]. by exists "", (String c s), prev.
    + destruct (p c) eqn:Hp; [|done]. intros Hrec.
      destruct (IH _ Hrec) as (m & rest & prev' & -> & Hm & Hk').
      exists (String c m), rest, prev'. simpl. by rewrite Hp, Hm.
Qed.
End Soundness.

Lemma run_sound {A} (r : regex) : ∀ prev s (k : option ascii → string → option A) a,
  run r prev s k = Some a → Continues k s (Lang r) a.
Proof.
  induction r as [|p|p|p|r1 IH1 r2 IH2|r1 IH1 r2 IH2| |]; intros prev s k a; simpl.
  - intros Hk. by exists "", s, prev.
  - destruct s as [|c s]; [done|]. destruct (p c) eqn:Hp; [|done].
    intros Hk. exists (String c ""), s, (Some c). eauto.
  - apply star_greedy_sound.
  - apply star_lazy_sound.
  - intros H. destruct (IH1 _ _ _ _ H) as (m1 & rest1 & prev1 & -> & Hm1 & H2).
    destruct (IH2 _ _ _ _ H2) as (m2 & rest2 & prev2 & -> & Hm2 & Hk).
    exists (m1 +:+ m2), rest2, prev2. rewrite string_app_assoc. eauto 10.
  - destruct (run r1 prev s k) as [a'|] eqn:H1.
    + intros [= ->]. destruct (IH1 _ _ _ _ H1) as (m & rest & prev' & -> & Hm & Hk).
      exists m, rest, prev'. eauto.
    + intros H2. destruct (IH2 _ _ _ _ H2) as (m & rest & prev' & -> & Hm & Hk).
      exists m, rest, prev'. eauto.
  - destruct (at_bol prev s); [|done]. intros Hk. by exists "", s, prev.
  - destruct (at_eol prev s); [|done]. intros Hk. by exists "", s, prev.
Qed.

Lemma match_at_sound r prev s len :
  match_at r prev s = Some len → Lang r (take len s).
Proof.
  unfold match_at. intros H.
  destruct (run_sound _ _ _ _ _ H) as (m & rest & prev' & -> & Hm & [= <-]).
  rewrite string_length_app. replace (_ + _ - _) with (String.length m) by lia.
  by rewrite string_take_app_length.
Qed.

Lemma find_all_from_sound r skip prev s tok :
  tok ∈ find_all_from r skip prev s → Lang r tok.
Proof.
  revert skip prev. induction s as [|c s IH]; intros skip prev; simpl.
  - by intros ?%elem_of_nil.
  - destruct skip as [|n]; [|by apply IH].
    destruct (match_at r prev (String c s)) as [len|] eqn:Hm; [|by apply IH].
    intros [->|Hin]%elem_of_cons; [by eapply match_at_sound|by eapply IH].
Qed.

(** ** The compile-line parser *)
Lemma Lang_Lit (s w : string) : Lang (Lit s) w → w = s.
Proof.
  revert w. induction s as [|c s IH]; intros w; simpl; [done|].
  intros (w1 & w2 & -> & (d & -> & Hd%ascii_eqb_eq) & Hw2). subst d.
  sapp. f_equal. by apply IH.
Qed.

Lemma trim_right_keeps (p s : string) :
  all_chars not_space p = true → trim_right (p +:+ s) = p +:+ trim_right s.
Proof.
  induction p as [|c p IH]; sapp; [done|]. simpl.
  intros [Hc Hp]%andb_true_iff. rewrite (IH Hp).
  unfold not_space in Hc. apply negb_true_iff in Hc. rewrite Hc.
  by destruct (p +:+ trim_right s).
Qed.

Lemma compress_spaces_keeps (p s : string) (b : bool) :
  all_chars not_space p = true → p ≠ "" →
  compress_spaces b (p +:+ s) = p +:+ compress_spaces false s.
Proof.
  revert b. induction p as [|c p IH]; intros b; sapp; [done|]. simpl.
  intros [Hc Hp]%andb_true_iff _.
  unfold not_space in Hc. apply negb_true_iff in Hc. rewrite Hc. f_equal.
  destruct p as [|d p]; [by sapp|]. by apply IH.
Qed.

Lemma replace_all_dquote_keeps (p s : string) :
  all_chars not_dquote p = true →
  replace_all (p +:+ s) dquote "" = p +:+ replace_all s dquote "".
Proof.
  unfold replace_all. induction p as [|c p IH]; sapp; [done|]. simpl.
  intros [Hc Hp]%andb_true_iff. rewrite (IH Hp).
  unfold not_dquote in Hc. apply negb_true_iff in Hc.
  unfold dquote at 1. rewrite starts_with_cons.
  assert (ascii_eqb "034" c = false) as ->
    by (unfold ascii_eqb in *; by rewrite Ascii.eqb_sym).
  done.
Qed.

Lemma contains_char_cons (c q : ascii) (s : string) :
  contains (String c s) (String q "") = ascii_eqb c q || contains s (String q "").
Proof.
  cbn [contains]. rewrite starts_with_cons, starts_with_nil, andb_true_r.
  unfold ascii_eqb. by rewrite Ascii.eqb_sym.
Qed.




Lemma split_any_app (seps cur a b : string) (nl : ascii) :
  contains seps (String nl "") = true →
  split_any seps cur (a +:+ String nl b) =
  split_any seps cur a ++ split_any seps "" b.
Proof.
  intros Hnl. revert cur. induction a as [|c a IH]; intros cur; sapp; cbn [split_any].
  - by rewrite Hnl.
  - destruct (contains seps (String c "")); by rewrite IH.
Qed.

Lemma rev_app_cons (c : ascii) (cur s : string) :
  String.rev_app (String c cur) s = String.rev_app cur (String c s).
Proof. reflexivity. Qed.

Lemma split_any_one_line (cur s : string) :
  all_chars not_line_end s = true →
  split_any carriage_return_line_feed cur s = [String.rev_app cur s].
Proof.
  revert cur. induction s as [|c s IH]; intros cur; cbn [split_any all_chars]; [done|].
  intros [Hc Hs]%andb_true_iff. unfold not_line_end in Hc.
  apply negb_true_iff in Hc. rewrite Hc. by rewrite IH.
Qed.

Lemma parseCompilationResults_lines (srcFile : FilePath) (results : string) :
  parseCompilationResults srcFile results =
  flat_map (fun line => if contains line (compileSignature srcFile)
                        then extractCompileArgs line else [])
           (split results carriage_return_line_feed).
Proof. reflexivity. Qed.

(** *** The pattern on plain words *)
Lemma star_greedy_exact {A} (p : ascii → bool) (g : string → A) (w rest : string)
    (prev : option ascii) :
  all_chars p w = true →
  match rest with String c _ => p c = false | EmptyString => True end →
  star_greedy p (fun _ r => Some (g r)) prev (w +:+ rest) = Some (g rest).
Proof.
  intros Hw Hrest. revert prev Hw.
  induction w as [|c w IH]; intros prev Hw; sapp.
  - destruct rest as [|c rest]; cbn [star_greedy]; [done|]. by rewrite Hrest.
  - cbn [all_chars] in Hw. apply andb_true_iff in Hw as [Hc Hw].
    cbn [star_greedy]. by rewrite Hc, IH.
Qed.

Lemma run_Lit_starts_with {A} (l s : string) (prev : option ascii)
    (k : option ascii → string → option A) :
  ∃ prev', run (Lit l) prev s k =
           if starts_with s l then k prev' (drop (String.length l) s) else None.
Proof.
  revert prev s. induction l as [|c l IH]; intros prev s; cbn [Lit run].
  - exists prev. by rewrite starts_with_nil.
  - destruct s as [|d s]; [by exists prev|]. rewrite starts_with_cons.
    destruct (ascii_eqb c d); [|by exists prev]. cbn [andb String.length drop].
    apply IH.
Qed.

Lemma starts_with_word (w rest l : string) :
  word_end rest = true → all_chars not_space l = true →
  starts_with (w +:+ rest) l = starts_with w l.
Proof.
  intros Hrest. revert w. induction l as [|c l IH]; intros w Hl.
  - by rewrite !starts_with_nil.
  - cbn [all_chars] in Hl. apply andb_true_iff in Hl as [Hc Hl].
    destruct w as [|d w]; sapp.
    + destruct rest as [|e rest]; [done|]. rewrite starts_with_cons.
      cbn [word_end] in Hrest. apply ascii_eqb_eq in Hrest as ->.
      replace (ascii_eqb c " ") with false; [done|].
      symmetry. apply not_true_is_false. intros ->%ascii_eqb_eq. done.
    + rewrite !starts_with_cons. by rewrite IH.
Qed.

Lemma plain_not_space (w : string) :
  all_chars plain_char w = true → all_chars not_space w = true.
Proof.
  induction w as [|c w IH]; cbn [all_chars]; [done|].
  unfold plain_char at 1. rewrite !andb_true_iff. intros [[? _] ?]. auto.
Qed.

Lemma plain_not_dquote (w : string) :
  all_chars plain_char w = true → all_chars not_dquote w = true.
Proof.
  induction w as [|c w IH]; cbn [all_chars]; [done|].
  unfold plain_char at 1. rewrite !andb_true_iff. intros [[_ ?] ?]. auto.
Qed.

Lemma plain_none_of_blank (w : string) :
  all_chars plain_char w = true → all_chars (none_of " ") w = true.
Proof.
  induction w as [|c w IH]; cbn [all_chars]; [done|].
  unfold plain_char at 1. rewrite !andb_true_iff. intros [[Hsp _] Hw].
  split; [|auto]. unfold none_of, one_of. rewrite contains_char_cons.
  unfold not_space in Hsp. apply negb_true_iff in Hsp.
  unfold ascii_eqb. destruct (Ascii.eqb_spec " " c) as [<-|]; [done|]. done.
Qed.

(** The second half of the pattern, on what is left of a word. *)
Lemma run_flag_value {A} (g : string → A) (w rest : string) (prev : option ascii) :
  all_chars plain_char w = true → word_end rest = true →
  run (Alt (Seq (Lit dquote) (Seq (Plus (none_of dquote)) (Lit dquote)))
           (Plus (none_of " ")))
      prev (w +:+ rest) (fun _ r => Some (g r)) =
  match w with EmptyString => None | _ => Some (g rest) end.
Proof.
  intros Hw Hrest. cbn [run].
  assert (run (Lit dquote) prev (w +:+ rest)
            (fun prev' s' => run (Plus (none_of dquote)) prev' s'
               (fun prev'' s'' => run (Lit dquote) prev'' s''
                  (fun _ r => Some (g r)))) = None) as ->.
  { unfold dquote at 1. cbn [Lit run].
    destruct w as [|c w]; sapp.
    - destruct rest as [|e rest]; [done|]. cbn [word_end] in Hrest.
      apply ascii_eqb_eq in Hrest as ->. done.
    - cbn [all_chars] in Hw. apply andb_true_iff in Hw as [Hc _].
      unfold plain_char, not_dquote in Hc. apply andb_true_iff in Hc as [_ Hc].
      apply negb_true_iff in Hc. unfold ascii_eqb in *.
      by rewrite Ascii.eqb_sym, Hc. }
  unfold Plus. cbn [run]. destruct w as [|c w]; sapp.
  - destruct rest as [|e rest]; [done|]. cbn [word_end] in Hrest.
    apply ascii_eqb_eq in Hrest as ->. done.
  - pose proof (plain_none_of_blank _ Hw) as Hnb. cbn [all_chars] in Hnb.
    apply andb_true_iff in Hnb as [Hc Hnb]. rewrite Hc.
    apply star_greedy_exact; [done|].
    destruct rest as [|e rest]; [done|]. cbn [word_end] in Hrest.
    apply ascii_eqb_eq in Hrest as ->. done.
Qed.

Lemma one_of_IDif (d : ascii) :
  one_of "IDif" d =
  ascii_eqb "I" d || ascii_eqb "D" d || ascii_eqb "i" d || ascii_eqb "f" d.
Proof.
  unfold one_of. rewrite !contains_char_cons. cbn [contains].
  replace (starts_with "" (String d "")) with false by done.
  by rewrite !orb_false_r, !orb_assoc.
Qed.

Lemma flag_word_dash (w1 : string) :
  flag_word (String "-" w1) =
  match w1 with
  | EmptyString => false
  | String d w2 =>
      (one_of "IDif" d && negb (String.eqb w2 "")) ||
      (starts_with w1 "std" && negb (String.eqb (drop 3 w1) ""))
  end.
Proof.
  unfold flag_word, flagClasses. cbn [existsb].
  destruct w1 as [|d w2]; [done|].
  rewrite one_of_IDif, !starts_with_cons, !starts_with_nil.
  assert (ascii_eqb "-" "-" = true) as -> by done.
  assert ((String.length "-I" <? String.length (String "-" (String d w2)))%nat =
          negb (String.eqb w2 "")) as -> by (by destruct w2).
  assert ((String.length "-D" <? String.length (String "-" (String d w2)))%nat =
          negb (String.eqb w2 "")) as -> by (by destruct w2).
  assert ((String.length "-i" <? String.length (String "-" (String d w2)))%nat =
          negb (String.eqb w2 "")) as -> by (by destruct w2).
  assert ((String.length "-f" <? String.length (String "-" (String d w2)))%nat =
          negb (String.eqb w2 "")) as -> by (by destruct w2).
  assert ((String.length "-std" <? String.length (String "-" (String d w2)))%nat =
          negb (String.eqb (drop 3 (String d w2)) "")) as ->.
  { destruct w2 as [|? [|? [|? ?]]]; done. }
  destruct (ascii_eqb "I" d), (ascii_eqb "D" d), (ascii_eqb "i" d),
    (ascii_eqb "f" d), (negb (String.eqb w2 "")); cbn [andb orb];
    rewrite ?orb_false_r; try done.
Qed.

Lemma flag_word_no_dash (w : string) :
  starts_with w "-" = false → flag_word w = false.
Proof.
  unfold flag_word, flagClasses. cbn [existsb]. destruct w as [|c w]; [done|].
  rewrite !starts_with_cons, starts_with_nil, andb_true_r. by intros ->.
Qed.

Lemma string_drop_app (n : nat) (w rest : string) :
  (n ≤ String.length w)%nat → drop n (w +:+ rest) = drop n w +:+ rest.
Proof.
  revert w. induction n as [|n IH]; intros w Hn; [done|].
  destruct w as [|c w]; cbn [String.length] in Hn; [lia|]. sapp.
  cbn [drop]. apply IH. lia.
Qed.

Lemma starts_with_length (s l : string) :
  starts_with s l = true → (String.length l ≤ String.length s)%nat.
Proof.
  intros [rest ->]%starts_with_app. rewrite string_length_app. lia.
Qed.

Lemma run_Seq {A} (r1 r2 : regex) (prev : option ascii) (s : string)
    (k : option ascii → string → option A) :
  run (Seq r1 r2) prev s k = run r1 prev s (fun prev' s' => run r2 prev' s' k).
Proof. reflexivity. Qed.

Lemma run_Alt {A} (r1 r2 : regex) (prev : option ascii) (s : string)
    (k : option ascii → string → option A) :
  run (Alt r1 r2) prev s k =
  match run r1 prev s k with Some a => Some a | None => run r2 prev s k end.
Proof. reflexivity. Qed.

Lemma run_Cls {A} (p : ascii → bool) (prev : option ascii) (s : string)
    (k : option ascii → string → option A) :
  run (Cls p) prev s k =
  match s with
  | String c s' => if p c then k (Some c) s' else None
  | EmptyString => None
  end.
Proof. reflexivity. Qed.

(** The pattern on a blank and a word: the word is taken whole when it is
    a flag, and nothing is taken when it is not. *)
Lemma run_reCompileArg_word {A} (g : string → A) (b : ascii) (w rest : string)
    (prev : option ascii) :
  one_of blank_or_tab b = true →
  all_chars plain_char w = true → word_end rest = true →
  run reCompileArg prev (String b (w +:+ rest)) (fun _ r => Some (g r)) =
  if flag_word w then Some (g rest) else None.
Proof.
  intros Hb Hw Hrest. unfold reCompileArg.
  rewrite run_Seq, run_Cls, Hb, run_Seq.
  set (tail := Alt (Seq (Lit dquote) (Seq (Plus (none_of dquote)) (Lit dquote)))
                   (Plus (none_of " "))).
  set (K := fun (prev' : option ascii) (s' : string) =>
              run tail prev' s' (fun _ r => Some (g r))).
  match goal with
  | |- run (Lit "-") ?p ?s ?k = _ =>
      destruct (run_Lit_starts_with "-" s p k) as [p1 ->]
  end.
  rewrite starts_with_word by done.
  destruct (starts_with w "-") eqn:Hdash; [|by rewrite flag_word_no_dash].
  apply starts_with_app in Hdash as [w1 ->]. sapp. cbn [String.length drop].
  assert (all_chars plain_char w1 = true) as Hw1.
  { cbn [all_chars] in Hw. by apply andb_true_iff in Hw as [_ ?]. }
  rewrite flag_word_dash, run_Seq, run_Alt. fold K.
  destruct (run_Lit_starts_with "std" (w1 +:+ rest) p1 K) as [p2 Hstd].
  rewrite starts_with_word in Hstd by done. rewrite Hstd. clear Hstd.
  cbn [String.length].
  assert (starts_with w1 "std" = true →
          K p2 (drop 3 (w1 +:+ rest)) =
          if negb (String.eqb (drop 3 w1) "") then Some (g rest) else None) as HK.
  { intros Hs. rewrite string_drop_app by (by apply starts_with_length in Hs).
    unfold K, tail. rewrite run_flag_value; [by destruct (drop 3 w1)| |done].
    apply starts_with_app in Hs as [w3 ->]. sapp. cbn [drop].
    cbn [all_chars] in Hw1. by repeat (apply andb_true_iff in Hw1 as [_ Hw1]). }
  rewrite run_Cls.
  destruct w1 as [|d w2]; sapp.
  - assert (starts_with "" "std" = false) as -> by done.
    destruct rest as [|e rest]; [done|].
    cbn [word_end] in Hrest. apply ascii_eqb_eq in Hrest as ->.
    by assert (one_of "IDif" " " = false) as -> by done.
  - destruct (one_of "IDif" d) eqn:Hd.
    + cbn [all_chars] in Hw1. apply andb_true_iff in Hw1 as [_ Hw2].
      unfold K at 1, tail. rewrite run_flag_value by done.
      destruct w2 as [|e w2]; [|done]. cbn [String.eqb negb andb orb].
      rewrite starts_with_cons.
      assert (starts_with "" "td" = false) as -> by done.
      by rewrite andb_false_r.
    + cbn [andb orb].
      destruct (starts_with (String d w2) "std") eqn:Hs; [|done].
      by rewrite HK.
Qed.

Lemma match_at_word (b : ascii) (w rest : string) (prev : option ascii) :
  one_of blank_or_tab b = true →
  all_chars plain_char w = true → word_end rest = true →
  match_at reCompileArg prev (String b (w +:+ rest)) =
  if flag_word w then Some (S (String.length w)) else None.
Proof.
  intros Hb Hw Hrest. unfold match_at.
  rewrite (run_reCompileArg_word
             (fun r => String.length (String b (w +:+ rest)) - String.length r))
    by done.
  destruct (flag_word w); [|done]. f_equal.
  cbn [String.length]. rewrite string_length_app. lia.
Qed.

Lemma match_at_plain (c : ascii) (s : string) (prev : option ascii) :
  plain_char c = true → match_at reCompileArg prev (String c s) = None.
Proof.
  intros Hc. unfold match_at, reCompileArg. rewrite run_Seq, run_Cls.
  replace (one_of blank_or_tab c) with false; [done|].
  unfold one_of, blank_or_tab. rewrite !contains_char_cons.
  unfold plain_char, not_space in Hc. apply andb_true_iff in Hc as [Hc _].
  apply negb_true_iff in Hc. unfold ascii_eqb.
  destruct (Ascii.eqb_spec " " c) as [<-|]; [done|].
  destruct (Ascii.eqb_spec "009" c) as [<-|]; [done|]. done.
Qed.

Lemma word_end_words_behind (ws : list string) : word_end (words_behind ws) = true.
Proof. by destruct ws. Qed.

Lemma find_all_from_plain (w0 rest : string) (found : list string)
    (skip : nat) (prev : option ascii) :
  (∀ prev', find_all_from reCompileArg 0 prev' rest = found) →
  all_chars plain_char w0 = true → (skip ≤ String.length w0)%nat →
  find_all_from reCompileArg skip prev (w0 +:+ rest) = found.
Proof.
  intros Hrest. revert skip prev.
  induction w0 as [|c w0 IH]; intros skip prev Hw0 Hskip; sapp.
  - cbn [String.length] in Hskip. replace skip with 0%nat by lia. apply Hrest.
  - cbn [all_chars] in Hw0. apply andb_true_iff in Hw0 as [Hc Hw0].
    cbn [find_all_from String.length] in *. destruct skip as [|n].
    + rewrite match_at_plain by done. apply IH; [done|lia].
    + apply IH; [done|lia].
Qed.

Lemma find_all_from_words (ws : list string) (prev : option ascii) :
  Forall (fun w => all_chars plain_char w = true) ws →
  find_all_from reCompileArg 0 prev (words_behind ws) =
  map (String " ") (List.filter flag_word ws).
Proof.
  intros Hws. revert prev.
  induction Hws as [|w ws Hw _ IH]; intros prev; [done|].
  cbn [words_behind fold_right List.filter]. fold (words_behind ws).
  cbn [find_all_from].
  rewrite match_at_word by (done || apply word_end_words_behind).
  destruct (flag_word w).
  - cbn [map]. f_equal.
    + change (take (S (String.length w)) (String " " (w +:+ words_behind ws)))
        with (String " " (take (String.length w) (w +:+ words_behind ws))).
      by rewrite string_take_app_length.
    + replace (S (String.length w) - 1)%nat with (String.length w) by lia.
      by apply find_all_from_plain.
  - apply find_all_from_plain; [done|done|lia].
Qed.

Lemma trim_all_word (w : string) :
  all_chars plain_char w = true →
  replace_all (trim_all (String " " w)) dquote "" = w.
Proof.
  intros Hw. unfold trim_all. cbn [trim_left].
  assert (is_space " " = true) as -> by done.
  destruct w as [|c w]; [done|].
  pose proof (plain_not_space _ Hw) as Hsp.
  pose proof (plain_not_dquote _ Hw) as Hdq.
  assert (trim_left (String c w) = String c w) as ->.
  { cbn [trim_left]. cbn [all_chars] in Hsp. apply andb_true_iff in Hsp as [Hc _].
    unfold not_space in Hc. apply negb_true_iff in Hc. by rewrite Hc. }
  rewrite <- (string_app_nil_r (String c w)).
  rewrite trim_right_keeps by done. cbn [trim_right].
  rewrite compress_spaces_keeps by done. cbn [compress_spaces].
  rewrite replace_all_dquote_keeps by done. done.
Qed.

Lemma extractCompileArgs_words (w0 : string) (ws : list string) :
  all_chars plain_char w0 = true →
  Forall (fun w => all_chars plain_char w = true) ws →
  extractCompileArgs (line_of w0 ws) = List.filter flag_word ws.
Proof.
  intros Hw0 Hws. unfold extractCompileArgs, find_all, line_of.
  rewrite (find_all_from_plain w0 _ (map (String " ") (List.filter flag_word ws)));
    [|intros; by apply find_all_from_words|done|lia].
  rewrite map_map.
  induction Hws as [|w ws Hw _ IH]; [done|].
  cbn [List.filter]. destruct (flag_word w); [|done].
  cbn [map]. by rewrite trim_all_word, IH.
Qed.

Lemma line_of_one_line (w0 : string) (ws : list string) :
  all_chars plain_char w0 = true →
  Forall (fun w => all_chars plain_char w = true) ws →
  all_chars not_line_end (line_of w0 ws) = true.
Proof.
  assert (∀ w rest, all_chars plain_char w = true →
                    all_chars not_line_end rest = true →
                    all_chars not_line_end (w +:+ rest) = true) as Happ.
  { intros w rest Hw Hrest. induction w as [|c w IH]; sapp; [done|].
    cbn [all_chars] in *. apply andb_true_iff in Hw as [Hc Hw].
    rewrite IH by done. rewrite andb_true_r.
    unfold not_line_end, carriage_return_line_feed. rewrite !contains_char_cons.
    unfold plain_char, not_space in Hc. apply andb_true_iff in Hc as [Hc _].
    apply negb_true_iff in Hc. unfold ascii_eqb.
    destruct (Ascii.eqb_spec "013" c) as [<-|]; [done|].
    destruct (Ascii.eqb_spec "010" c) as [<-|]; [done|]. done. }
  intros Hw0 Hws. unfold line_of. apply Happ; [done|].
  induction Hws as [|w ws Hw _ IH]; [done|].
  cbn [words_behind fold_right all_chars]. fold (words_behind ws).
  rewrite Happ by done. done.
Qed.

Lemma parseCompilationResults_words (srcFile : FilePath) (w0 : string) (ws : list string) :
  all_chars plain_char w0 = true →
  Forall (fun w => all_chars plain_char w = true) ws →
  parseCompilationResults srcFile (line_of w0 ws) =
  if contains (line_of w0 ws) (compileSignature srcFile)
  then List.filter flag_word ws else [].
Proof.
  intros Hw0 Hws. rewrite parseCompilationResults_lines.
  unfold split. rewrite split_any_one_line by (by apply line_of_one_line).
  cbn [flat_map String.rev_app]. rewrite List.app_nil_r.
  by rewrite extractCompileArgs_words.
Qed.




(** The scenario of the specification: the flags of the compile line, in
    their order. *)
Example parseCompilationResults_scenario :
  parseCompilationResults ["tmp"; "tmp.cpp"]
    "cc -c tmp.cpp -o tmp -I/usr/include/dep -DFOO=1" =
  ["-I/usr/include/dep"; "-DFOO=1"].
Proof. vm_compute. reflexivity. Qed.

(** ** Path substitution *)

Lemma string_drop_app_length (w rest : string) : drop (String.length w) (w +:+ rest) = rest.
Proof. induction w as [|c w IH]; sapp; simpl; [done|]. by rewrite IH. Qed.

Lemma replace_first_index (s pat fmt : string) :
  replace_first s pat fmt =
  match index_of s pat with
  | Some i => take i s +:+ fmt +:+ drop (i + String.length pat) s
  | None => s
  end.
Proof.
  induction s as [|c s IH]; cbn [replace_first index_of].
  - destruct (starts_with "" pat); [|done]. by destruct pat.
  - destruct (starts_with (String c s) pat) eqn:Hsw; [done|].
    rewrite IH. destruct (index_of s pat) as [i|]; simpl; [|done]. by sapp.
Qed.

Lemma index_of_contains (s pat : string) :
  index_of s pat = None ↔ contains s pat = false.
Proof.
  induction s as [|c s IH]; cbn [index_of contains].
  - destruct (starts_with "" pat); simpl; split; done.
  - destruct (starts_with (String c s) pat); simpl; [split; done|].
    rewrite <- IH. destruct (index_of s pat); simpl; split; done.
Qed.


(** ** The state monad *)

Ltac monad := unfold bind, ret, getThis, setThis, getFiles, setFiles, spawn in *.

Lemma session_eta (s : Session) :
  {| this := this s; files := files s; spawned := spawned s |} = s.
Proof. by destruct s. Qed.

Lemma sourceCppHash_pure (p : FilePath) (s : Session) :
  sourceCppHash p s = (fst (sourceCppHash p s), s).
Proof.
  unfold sourceCppHash. monad.
  by destruct (Fs.readStringFromFile (files s) p).
Qed.

Lemma packageBuildFileHash_pure (h : Host) (s : Session) :
  packageBuildFileHash h s = (fst (packageBuildFileHash h s), s).
Proof. reflexivity. Qed.

Lemma executeRCmdSHLIB_run (h : Host) env (p : FilePath) (s : Session) :
  executeRCmdSHLIB h env p s =
  (rCmdSHLIBResult h env p,
   {| this := this s; files := files s;
      spawned := spawned s ++ rCmdSHLIBInvocations h env p |}).
Proof.
  unfold executeRCmdSHLIB, rCmdSHLIBResult, rCmdSHLIBInvocations. monad.
  destruct (rCmdSHLIBCommand h env p) as [[[rBin args] options]|]; [done|].
  by rewrite List.app_nil_r, session_eta.
Qed.

Lemma executeSourceCpp_run (h : Host) (p : FilePath) (s : Session) :
  executeSourceCpp h (compilationEnvironment h) p s =
  (sourceCppResult h p,
   {| this := this s; files := files s;
      spawned := spawned s ++ sourceCppInvocations h p |}).
Proof.
  unfold executeSourceCpp, sourceCppResult, sourceCppInvocations. monad.
  destruct (sourceCppCommand h _ p) as [[[exe args] options]|]; [done|].
  by rewrite List.app_nil_r, session_eta.
Qed.

(** The file system behind [argsForRCmdSHLIB] once the source file is
    written. *)
Lemma argsForRCmdSHLIB_run (h : Host) env (tmp : FilePath) (s : Session) :
  argsForRCmdSHLIB h env tmp s =
  if canWrite h tmp
  then (flagsOfRun tmp (rCmdSHLIBResult h env tmp),
        {| this := this s;
           files := (let fs := Fs.write (files s) tmp
                                 ("void foo() {}" +:+ String "010" "") (now h) in
                     if canRemove h tmp then Fs.remove_all fs tmp else fs);
           spawned := spawned s ++ rCmdSHLIBInvocations h env tmp |})
  else ([], s).
Proof.
  unfold argsForRCmdSHLIB, writeStringToFile, removePath, flagsOfRun.
  destruct (canWrite h tmp); [|done].
  monad. cbn [negb]. rewrite executeRCmdSHLIB_run. cbn [this files spawned].
  destruct (canRemove h tmp); cbn [this files spawned];
    (destruct (rCmdSHLIBResult h env tmp) as [r|]; [|done]);
    by destruct (negb (exitStatus r =? EXIT_SUCCESS)%Z).
Qed.

Lemma argsForSourceCpp_run (h : Host) (srcFile : FilePath) (s : Session) :
  argsForSourceCpp h srcFile s =
  (match sourceCppResult h srcFile with
   | None => []
   | Some r => if negb (exitStatus r =? EXIT_SUCCESS)%Z then []
               else clang_compileArgs h ++ parseCompilationResults srcFile (stdOut r)
   end,
   {| this := this s; files := files s;
      spawned := spawned s ++ sourceCppInvocations h srcFile |}).
Proof.
  unfold argsForSourceCpp. monad. rewrite executeSourceCpp_run.
  destruct (sourceCppResult h srcFile) as [r|]; [|done].
  by destruct (negb (exitStatus r =? EXIT_SUCCESS)%Z).
Qed.

Lemma flagsOfRun_nil (srcFile : FilePath) (result : option ProcessResult) :
  runFailed result ∨ runWithoutFlags srcFile result →
  flagsOfRun srcFile result = [].
Proof.
  destruct result as [r|]; simpl; [|done].
  intros [Hexit|[Hexit Hparse]].
  - by apply Z.eqb_neq in Hexit as ->.
  - by rewrite Hexit.
Qed.

(** ** The package cache *)

Lemma updateForCurrentPackage_hit (h : Host) (s : Session) :
  fst (packageBuildFileHash h s) = packageBuildFileHash_ (this s) →
  updateForCurrentPackage h s = (tt, s).
Proof.
  intros Hhit. unfold updateForCurrentPackage.
  unfold bind at 1. rewrite packageBuildFileHash_pure.
  monad. rewrite Hhit, String.eqb_refl. reflexivity.
Qed.

Lemma updateForCurrentPackage_fails (h : Host) (s : Session) :
  packageResolutionFails h →
  this (snd (updateForCurrentPackage h s)) = this s.
Proof.
  unfold packageResolutionFails, updateForCurrentPackage.
  unfold bind at 1. rewrite packageBuildFileHash_pure.
  unfold bind at 1, getThis.
  destruct (String.eqb _ _); [done|].
  destruct (readPackageInfo h (buildTargetPath h)) as [pkgInfo|]; [|done].
  intros Hfails. unfold bind. rewrite argsForRCmdSHLIB_run.
  destruct (canWrite h (packageTempSrcFile h)); [|done].
  rewrite flagsOfRun_nil; [done|]. by destruct Hfails as [?|?].
Qed.

Lemma updateForCurrentPackage_succeeds (h : Host) (s : Session) pkgInfo flags :
  fst (packageBuildFileHash h s) ≠ packageBuildFileHash_ (this s) →
  packageResolutionSucceeds h pkgInfo flags →
  let s' := snd (updateForCurrentPackage h s) in
  this s' =
    {| packageBuildFileHash_ := fst (packageBuildFileHash h s);
       packageSrcArgs_ := packageBaseArgs h pkgInfo ++
                          map (substitutePaths (packageSrcDir h)) flags;
       packagePCH_ := packagePCH h (linkingTo pkgInfo);
       sourceCppHashes_ := sourceCppHashes_ (this s);
       sourceCppArgsMap_ := sourceCppArgsMap_ (this s) |} ∧
  spawned s' = spawned s ++
               rCmdSHLIBInvocations h (packageEnvironment h pkgInfo)
                                    (packageTempSrcFile h) ∧
  length (rCmdSHLIBInvocations h (packageEnvironment h pkgInfo)
                               (packageTempSrcFile h)) = 1.
Proof.
  intros Hstale (Hinfo & Hwrite & Hflags & Hne) s'.
  assert (∃ fs, s' =
    {| this := {| packageBuildFileHash_ := fst (packageBuildFileHash h s);
                  packageSrcArgs_ := packageBaseArgs h pkgInfo ++
                     map (substitutePaths (packageSrcDir h)) flags;
                  packagePCH_ := packagePCH h (linkingTo pkgInfo);
                  sourceCppHashes_ := sourceCppHashes_ (this s);
                  sourceCppArgsMap_ := sourceCppArgsMap_ (this s) |};
       files := fs;
       spawned := spawned s ++
                  rCmdSHLIBInvocations h (packageEnvironment h pkgInfo)
                                       (packageTempSrcFile h) |}) as [fs ->].
  { subst s'. unfold updateForCurrentPackage.
    unfold bind at 1. rewrite packageBuildFileHash_pure.
    unfold bind at 1, getThis.
    apply String.eqb_neq in Hstale. rewrite Hstale, Hinfo.
    unfold bind at 1. rewrite argsForRCmdSHLIB_run, Hwrite, Hflags.
    destruct flags as [|flag flags]; [done|]. monad. cbn. eauto. }
  cbn [this spawned]. split; [done|]. split; [done|].
  unfold packageResolutionSucceeds, flagsOfRun, rCmdSHLIBResult,
    rCmdSHLIBInvocations in *.
  destruct (rCmdSHLIBCommand h _ _) as [[[rBin args] options]|]; [done|].
  by subst flags.
Qed.

(** C5: a package resolution that finds flags stores, behind the arguments
    of libclang and the includes of the packages linked to, every parsed
    argument with its paths substituted, in the order of the compile line.
    In an argument that contains [-I..], the first [-I..] becomes [-I] with
    the absolute path of the directory above the source directory (and that
    is the whole change when no [-I.] is left behind it); in an argument
    that contains [-I.] but not [-I..], the first [-I.] becomes [-I] with
    the absolute path of the source directory; an argument that contains
    neither stays as it is. *)
Theorem substitutePaths_rewrites (h : Host) (arg : string) :
  let srcDir := packageSrcDir h in
  let above := FilePath.absolutePath (FilePath.parent srcDir) in
  let here := FilePath.absolutePath srcDir in
  (∀ s pkgInfo flags,
     fst (packageBuildFileHash h s) ≠ packageBuildFileHash_ (this s) →
     packageResolutionSucceeds h pkgInfo flags →
     packageSrcArgs_ (this (snd (updateForCurrentPackage h s))) =
       packageBaseArgs h pkgInfo ++ map (substitutePaths srcDir) flags) ∧
  (∀ i, index_of arg "-I.." = Some i →
     let arg' := take i arg +:+ ("-I" +:+ above) +:+ drop (i + 4) arg in
     substitutePaths srcDir arg = replace_first arg' "-I." ("-I" +:+ here) ∧
     (contains arg' "-I." = false → substitutePaths srcDir arg = arg')) ∧
  (∀ i, contains arg "-I.." = false → index_of arg "-I." = Some i →
     substitutePaths srcDir arg =
       take i arg +:+ ("-I" +:+ here) +:+ drop (i + 3) arg) ∧
  (contains arg "-I.." = false → contains arg "-I." = false →
     substitutePaths srcDir arg = arg).
Proof.
  intros srcDir above here. split.
  { intros s pkgInfo flags Hstale Hok.
    by destruct (updateForCurrentPackage_succeeds h s pkgInfo flags Hstale Hok)
      as (-> & _). }
  unfold substitutePaths. fold above here.
  split; [|split].
  - intros i Hi.
    assert (replace_first arg "-I.." ("-I" +:+ above) =
            take i arg +:+ ("-I" +:+ above) +:+ drop (i + 4) arg) as ->.
    { rewrite replace_first_index, Hi. done. }
    split; [done|].
    intros Hnone%index_of_contains. by rewrite replace_first_index, Hnone.
  - intros i Hno%index_of_contains Hi.
    rewrite (replace_first_index arg "-I.."), Hno.
    by rewrite (replace_first_index arg "-I."), Hi.
  - intros Hno%index_of_contains Hno'%index_of_contains.
    rewrite (replace_first_index arg "-I.."), Hno.
    by rewrite (replace_first_index arg "-I."), Hno'.
Qed.

Lemma substitutePaths_rewrites_witness :
  packageSrcArgs_ (this (snd (updateForCurrentPackage Example.working
                                (Example.fresh Example.withRcpp)))) =
    packageBaseArgs Example.working {| linkingTo := "Rcpp"; systemRequirements := "" |} ++
    map (substitutePaths (packageSrcDir Example.working))
        ["-I/usr/share/R/include"; "-DNDEBUG"; "-I../inst/include"; "-I."; "-fpic"] ∧
  substitutePaths (packageSrcDir Example.working) "-I../inst/include" =
    "-I/home/u/pkg/inst/include" ∧
  substitutePaths (packageSrcDir Example.working) "-I." = "-I/home/u/pkg/src" ∧
  substitutePaths (packageSrcDir Example.working) "-DNDEBUG" = "-DNDEBUG".
Proof.
  destruct (substitutePaths_rewrites Example.working "-I../inst/include")
    as (Hall & Habove & _ & _).
  destruct (substitutePaths_rewrites Example.working "-I.") as (_ & _ & Hhere & _).
  destruct (substitutePaths_rewrites Example.working "-DNDEBUG")
    as (_ & _ & _ & Hnone).
  split; [|split; [|split]].
  - apply Hall; [vm_compute; discriminate|].
    split; [reflexivity|]. split; [reflexivity|].
    split; [vm_compute; reflexivity|discriminate].
  - apply (Habove 0); vm_compute; reflexivity.
  - apply (Hhere 0); vm_compute; reflexivity.
  - apply Hnone; vm_compute; reflexivity.
Defined.

Example substitutePaths_in_package_resolution :
  packageSrcArgs_ (this (snd (updateForCurrentPackage Example.working
                                (Example.fresh Example.withRcpp)))) =
  ["-I/opt/clang/include"; "-I/usr/lib/R/Rcpp/include"; "-I/usr/share/R/include";
   "-DNDEBUG"; "-I/home/u/pkg/inst/include"; "-I/home/u/pkg/src"; "-fpic"].
Proof. vm_compute. reflexivity. Qed.

(** ** The standalone cache *)

Lemma updateForSourceCpp_no_hash (h : Host) (srcFile : FilePath) (s : Session) :
  fst (sourceCppHash srcFile s) = "" →
  updateForSourceCpp h srcFile s = (tt, s).
Proof.
  intros Hhash. unfold updateForSourceCpp.
  unfold bind at 1. rewrite sourceCppHash_pure, Hhash.
  unfold bind at 1, getThis. by destruct (bool_decide _).
Qed.

Lemma updateForSourceCpp_fails (h : Host) (srcFile : FilePath) (s : Session) :
  sourceCppResolutionFails h srcFile →
  this (snd (updateForSourceCpp h srcFile s)) = this s.
Proof.
  intros Hfails. unfold updateForSourceCpp.
  unfold bind at 1. rewrite sourceCppHash_pure.
  unfold bind at 1, getThis.
  destruct (bool_decide _); [done|]. destruct (String.eqb _ _); [done|].
  unfold bind. rewrite argsForSourceCpp_run.
  unfold sourceCppResolutionFails, runFailed, runWithoutFlags in Hfails.
  destruct (sourceCppResult h srcFile) as [r|]; [|done].
  destruct Hfails as [Hexit|[Hclang [Hexit Hparse]]].
  - by apply Z.eqb_neq in Hexit as ->.
  - by rewrite Hexit, Hclang, Hparse.
Qed.

(** ** The resolver *)

Lemma cachedArgs_package (h : Host) (filePath : FilePath) (s : Session) :
  isPackageSource h filePath = true →
  cachedArgsForTranslationUnit h filePath s =
  let s' := snd (updateForCurrentPackage h s) in
  ((packageSrcArgs_ (this s'), packagePCH_ (this s')), s').
Proof.
  intros Hpkg. unfold cachedArgsForTranslationUnit. rewrite Hpkg. monad.
  by destruct (updateForCurrentPackage h s) as [[] s'].
Qed.

Lemma cachedArgs_sourceCpp (h : Host) (filePath : FilePath) (s : Session) :
  isPackageSource h filePath = false →
  cachedArgsForTranslationUnit h filePath s =
  let s' := snd (updateForSourceCpp h filePath s) in
  (sourceCppCached (this s') filePath, s').
Proof.
  intros Hpkg. unfold cachedArgsForTranslationUnit, sourceCppCached.
  rewrite Hpkg. monad.
  destruct (updateForSourceCpp h filePath s) as [[] s']. cbn [snd].
  by destruct (sourceCppArgsMap_ (this s') !! _).
Qed.

Lemma isCppFile_extension (filePath : FilePath) :
  isCppFile filePath = true ↔
  FilePath.extensionLowerCase filePath = ".cc" ∨
  FilePath.extensionLowerCase filePath = ".cpp".
Proof. unfold isCppFile. by rewrite orb_true_iff, !String.eqb_eq. Qed.

(** C10: the precompiled header is for files whose extension, in lower case,
    is [.cc] or [.cpp]; for any other file the resolver returns the
    arguments of the cache as they are, and the precompiled header manager
    is not run: the session is the one the cache left. *)
Theorem compileArgs_without_pch (h : Host) (filename : string) (s : Session) :
  let filePath := FilePath.of_string filename in
  FilePath.extensionLowerCase filePath ≠ ".cc" →
  FilePath.extensionLowerCase filePath ≠ ".cpp" →
  compileArgsForTranslationUnit h filename s =
    (fst (fst (cachedArgsForTranslationUnit h filePath s)),
     snd (cachedArgsForTranslationUnit h filePath s)).
Proof.
  intros filePath Hcc Hcpp. unfold compileArgsForTranslationUnit. fold filePath.
  assert (isCppFile filePath = false) as Hext.
  { apply not_true_is_false. rewrite isCppFile_extension. tauto. }
  unfold bind at 1.
  destruct (cachedArgsForTranslationUnit h filePath s) as [[args pch] s'].
  rewrite Hext. cbn [fst snd].
  destruct args; [done|]. by destruct (negb _).
Qed.

Lemma compileArgs_without_pch_witness :
  compileArgsForTranslationUnit Example.working "/home/u/pkg/src/a.cxx"
    (Example.fresh Example.withRcpp) =
  (fst (fst (cachedArgsForTranslationUnit Example.working
               ["home"; "u"; "pkg"; "src"; "a.cxx"]
               (Example.fresh Example.withRcpp))),
   snd (cachedArgsForTranslationUnit Example.working
          ["home"; "u"; "pkg"; "src"; "a.cxx"]
          (Example.fresh Example.withRcpp))).
Proof.
  apply (compileArgs_without_pch Example.working "/home/u/pkg/src/a.cxx");
    vm_compute; discriminate.
Defined.

Lemma compileArgs_with_pch (h : Host) (filename : string) (s s1 : Session)
    (args : list string) (pch : string) :
  let filePath := FilePath.of_string filename in
  cachedArgsForTranslationUnit h filePath s = ((args, pch), s1) →
  args ≠ [] → pch ≠ "" → isCppFile filePath = true →
  compileArgsForTranslationUnit h filename s =
    (args ++ fst (precompiledHeaderArgs h pch (extractStdArg args) s1),
     snd (precompiledHeaderArgs h pch (extractStdArg args) s1)).
Proof.
  intros filePath Hcached Hargs Hpch Hext.
  unfold compileArgsForTranslationUnit. fold filePath.
  unfold bind at 1. rewrite Hcached, Hext.
  destruct args as [|arg args]; [done|].
  apply String.eqb_neq in Hpch. rewrite Hpch. cbn [negb]. unfold bind, ret.
  by destruct (precompiledHeaderArgs h pch _ s1).
Qed.

Lemma cachedArgs_no_fingerprint (h : Host) (filePath : FilePath) (s : Session) :
  isPackageSource h filePath = false →
  fst (sourceCppHash filePath s) = "" →
  cachedArgsForTranslationUnit h filePath s = (sourceCppCached (this s) filePath, s).
Proof.
  intros Hstandalone Hhash. rewrite cachedArgs_sourceCpp by done.
  by rewrite updateForSourceCpp_no_hash.
Qed.

(** C1, as the code has it: for a standalone file whose fingerprint is empty
    the standalone cache is not brought up to date: no tool is run and the
    session stays as it is; and when the cache holds nothing for the file,
    the resolver returns no argument and leaves the session as it is, so
    that nothing at all is run. *)
Theorem no_fingerprint_no_resolution (h : Host) (filename : string) (s : Session) :
  let filePath := FilePath.of_string filename in
  isPackageSource h filePath = false →
  fst (sourceCppHash filePath s) = "" →
  updateForSourceCpp h filePath s = (tt, s) ∧
  (sourceCppArgsMap_ (this s) !! FilePath.absolutePath filePath = None →
     compileArgsForTranslationUnit h filename s = ([], s)).
Proof.
  intros filePath Hstandalone Hhash.
  split; [by apply updateForSourceCpp_no_hash|].
  intros Hnone. unfold compileArgsForTranslationUnit. fold filePath.
  unfold bind. rewrite cachedArgs_no_fingerprint by done.
  unfold sourceCppCached. by rewrite Hnone.
Qed.

Lemma no_fingerprint_no_resolution_witness :
  compileArgsForTranslationUnit Example.working "/home/u/foo.cpp"
    (Example.fresh Example.plainCpp) = ([], Example.fresh Example.plainCpp).
Proof.
  apply (no_fingerprint_no_resolution Example.working "/home/u/foo.cpp");
    vm_compute; reflexivity.
Defined.

(** C1, as the claim has it, fails: [foo.cpp] is resolved while it includes
    [Rcpp.h]; the include is then removed, so that the fingerprint is empty;
    the resolver still returns the arguments of the first resolution. *)
Lemma stale_arguments_for_empty_fingerprint :
  isPackageSource Example.working Example.fooCpp = false ∧
  fst (sourceCppHash Example.fooCpp
         (Example.edit Example.plainCpp
            (snd (compileArgsForTranslationUnit Example.working "/home/u/foo.cpp"
                    (Example.fresh Example.withRcpp))))) = "" ∧
  fst (compileArgsForTranslationUnit Example.working "/home/u/foo.cpp"
         (Example.edit Example.plainCpp
            (snd (compileArgsForTranslationUnit Example.working "/home/u/foo.cpp"
                    (Example.fresh Example.withRcpp))))) =
  ["-I/opt/clang/include"; "-I/usr/share/R/include"; "-DNDEBUG"; "-fpic";
   "-include-pch";
   "/home/u/.rstudio/libclang/precompiled/Rcpp/x86_64-3.1-3.5/Rcpp.pch"].
Proof. vm_compute. repeat split. Qed.

(** C4, as the code has it: a package resolution that fails or yields no
    flag leaves the package cache as it was, and the arguments the resolver
    takes from it are the ones cached before; a standalone resolution that
    fails, or that gives no argument at all, leaves the standalone cache as
    it was, and the resolver takes from it what was cached before. *)
Theorem failed_resolution_keeps_cache (h : Host) (filePath : FilePath) (s : Session) :
  (packageResolutionFails h →
     this (snd (updateForCurrentPackage h s)) = this s ∧
     (isPackageSource h filePath = true →
        fst (cachedArgsForTranslationUnit h filePath s) =
          (packageSrcArgs_ (this s), packagePCH_ (this s)))) ∧
  (sourceCppResolutionFails h filePath →
     this (snd (updateForSourceCpp h filePath s)) = this s ∧
     (isPackageSource h filePath = false →
        fst (cachedArgsForTranslationUnit h filePath s) =
          sourceCppCached (this s) filePath)).
Proof.
  split.
  - intros Hfails.
    pose proof (updateForCurrentPackage_fails h s Hfails) as Hthis.
    split; [done|]. intros Hpkg. rewrite cachedArgs_package by done.
    cbn [fst]. by rewrite Hthis.
  - intros Hfails.
    pose proof (updateForSourceCpp_fails h filePath s Hfails) as Hthis.
    split; [done|]. intros Hpkg. rewrite cachedArgs_sourceCpp by done.
    cbn [fst]. by rewrite Hthis.
Qed.

Lemma failed_resolution_keeps_cache_witness :
  (length (spawned (snd (updateForCurrentPackage Example.brokenBuild
                           Scene.resolvedThenEdited))) =
     S (length (spawned Scene.resolvedThenEdited)) ∧
   this (snd (updateForCurrentPackage Example.brokenBuild Scene.resolvedThenEdited)) =
     this Scene.resolvedThenEdited) ∧
  (length (spawned (snd (updateForCurrentPackage Scene.noArguments
                           Scene.resolvedThenEdited))) =
     S (length (spawned Scene.resolvedThenEdited)) ∧
   this (snd (updateForCurrentPackage Scene.noArguments Scene.resolvedThenEdited)) =
     this Scene.resolvedThenEdited) ∧
  (length (spawned (snd (updateForSourceCpp Scene.brokenSourceCpp Example.fooCpp
                           Scene.sourcedThenEdited))) =
     S (length (spawned Scene.sourcedThenEdited)) ∧
   this (snd (updateForSourceCpp Scene.brokenSourceCpp Example.fooCpp
                Scene.sourcedThenEdited)) =
     this Scene.sourcedThenEdited ∧
   fst (cachedArgsForTranslationUnit Scene.brokenSourceCpp Example.fooCpp
          Scene.sourcedThenEdited) =
     (["-I/opt/clang/include"; "-I/usr/share/R/include"; "-DNDEBUG"; "-fpic"], "Rcpp")) ∧
  (length (spawned (snd (updateForSourceCpp Scene.noArguments Example.fooCpp
                           Scene.sourcedThenEdited))) =
     S (length (spawned Scene.sourcedThenEdited)) ∧
   this (snd (updateForSourceCpp Scene.noArguments Example.fooCpp
                Scene.sourcedThenEdited)) =
     this Scene.sourcedThenEdited).
Proof.
  destruct (failed_resolution_keeps_cache Example.brokenBuild Example.fooCpp
              Scene.resolvedThenEdited) as [Hpackage _].
  destruct (failed_resolution_keeps_cache Scene.noArguments Example.fooCpp
              Scene.resolvedThenEdited) as [Hflagless _].
  destruct (failed_resolution_keeps_cache Scene.brokenSourceCpp Example.fooCpp
              Scene.sourcedThenEdited) as [_ HsourceCpp].
  destruct (failed_resolution_keeps_cache Scene.noArguments Example.fooCpp
              Scene.sourcedThenEdited) as [_ Hnothing].
  split; [|split; [|split]].
  - split; [vm_compute; reflexivity|].
    apply Hpackage. vm_compute. right. left. discriminate.
  - split; [vm_compute; reflexivity|].
    apply Hflagless. vm_compute. right. right. split; reflexivity.
  - split; [vm_compute; reflexivity|].
    destruct HsourceCpp as [Hthis Hcached].
    { left. vm_compute. discriminate. }
    split; [exact Hthis|]. rewrite Hcached by reflexivity. vm_compute. reflexivity.
  - split; [vm_compute; reflexivity|].
    apply Hnothing. right. vm_compute. repeat split.
Defined.

(** C4, as the claim has it, fails for the standalone cache: [Rcpp::sourceCpp]
    runs and exits with success but prints no compile line, so that no flag
    is found; the arguments of libclang alone replace the cached ones. *)
Lemma flagless_sourceCpp_replaces_cache :
  runWithoutFlags Example.fooCpp
    (sourceCppResult Example.silentSourceCpp Example.fooCpp) ∧
  sourceCppArgsMap_
    (this (Example.edit Example.withExport
             (snd (updateForSourceCpp Example.working Example.fooCpp
                     (Example.fresh Example.withRcpp)))))
    !! "/home/u/foo.cpp" =
  Some ["-I/opt/clang/include"; "-I/usr/share/R/include"; "-DNDEBUG"; "-fpic"] ∧
  sourceCppArgsMap_
    (this (snd (updateForSourceCpp Example.silentSourceCpp Example.fooCpp
                  (Example.edit Example.withExport
                     (snd (updateForSourceCpp Example.working Example.fooCpp
                             (Example.fresh Example.withRcpp)))))))
    !! "/home/u/foo.cpp" =
  Some ["-I/opt/clang/include"].
Proof. vm_compute. repeat split. Qed.

(** C7, as the code has it: when the first of two package resolutions finds
    the cache out of date and its build gives at least one flag, it runs the
    build tool once; the second, for which the fingerprint of the build
    files is the same, runs nothing and leaves the session, and so the
    arguments, as they are. *)
Theorem package_resolution_twice (h h' : Host) (s : Session)
    (pkgInfo : RPackageInfo) (flags : list string) :
  fst (packageBuildFileHash h s) ≠ packageBuildFileHash_ (this s) →
  packageResolutionSucceeds h pkgInfo flags →
  let s1 := snd (updateForCurrentPackage h s) in
  fst (packageBuildFileHash h' s1) = fst (packageBuildFileHash h s) →
  (∃ run, spawned s1 = spawned s ++ [run]) ∧
  updateForCurrentPackage h' s1 = (tt, s1) ∧
  packageSrcArgs_ (this s1) =
    packageBaseArgs h pkgInfo ++ map (substitutePaths (packageSrcDir h)) flags.
Proof.
  intros Hstale Hsucceeds s1 Hsame.
  destruct (updateForCurrentPackage_succeeds h s pkgInfo flags Hstale Hsucceeds)
    as (Hthis & Hspawned & Hone).
  fold s1 in Hthis, Hspawned. split; [|split].
  - rewrite Hspawned.
    destruct (rCmdSHLIBInvocations h _ _) as [|run [|]]; try done. by exists run.
  - apply updateForCurrentPackage_hit. by rewrite Hsame, Hthis.
  - by rewrite Hthis.
Qed.

Lemma package_resolution_twice_witness :
  updateForCurrentPackage Example.working
    (snd (updateForCurrentPackage Example.working (Example.fresh Example.withRcpp))) =
  (tt, snd (updateForCurrentPackage Example.working (Example.fresh Example.withRcpp))).
Proof.
  eapply (package_resolution_twice Example.working Example.working
            (Example.fresh Example.withRcpp)
            {| linkingTo := "Rcpp"; systemRequirements := "" |}
            ["-I/usr/share/R/include"; "-DNDEBUG"; "-I../inst/include"; "-I.";
             "-fpic"]).
  - vm_compute. discriminate.
  - repeat split; vm_compute; try reflexivity. discriminate.
  - vm_compute. reflexivity.
Defined.

(** C7, as the claim has it, fails: nothing on disk changes between the two
    resolutions, but the build tool exits with an error, the fingerprint is
    not stored, and the second resolution runs the build tool again. *)
Lemma failed_build_runs_twice :
  files (snd (updateForCurrentPackage Example.brokenBuild
                (Example.fresh Example.withRcpp))) =
  files (Example.fresh Example.withRcpp) ∧
  length (spawned (snd (updateForCurrentPackage Example.brokenBuild
                          (snd (updateForCurrentPackage Example.brokenBuild
                                  (Example.fresh Example.withRcpp)))))) = 2.
Proof. vm_compute. repeat split. Qed.

(** C9: the language standard the precompiled header is looked up with is
    the first argument that starts with [-std=]: an argument behind it that
    starts with [-std=] too is not looked at; without such an argument it is
    the empty string.  The resolver hands this very value to the precompiled
    header manager. *)
Theorem extractStdArg_first_wins (args : list string) :
  (∀ before arg after,
     args = before ++ arg :: after →
     Forall (fun a => starts_with a "-std=" = false) before →
     starts_with arg "-std=" = true →
     extractStdArg args = arg) ∧
  (Forall (fun a => starts_with a "-std=" = false) args → extractStdArg args = "") ∧
  (∀ h filename s s1 pch,
     cachedArgsForTranslationUnit h (FilePath.of_string filename) s = ((args, pch), s1) →
     args ≠ [] → pch ≠ "" → isCppFile (FilePath.of_string filename) = true →
     fst (compileArgsForTranslationUnit h filename s) =
       args ++ fst (precompiledHeaderArgs h pch (extractStdArg args) s1)).
Proof.
  split; [|split].
  - unfold extractStdArg. intros before arg after -> Hbefore Harg.
    induction Hbefore as [|a before Ha _ IH]; simpl.
    + by rewrite Harg.
    + by rewrite Ha.
  - unfold extractStdArg. induction 1 as [|a rest Ha _ IH]; simpl; [done|].
    by rewrite Ha.
  - intros h filename s s1 pch Hcached Hargs Hpch Hext.
    by rewrite (compileArgs_with_pch h filename s s1 args pch).
Qed.

Lemma extractStdArg_first_wins_witness :
  extractStdArg ["-I/usr/include"; "-std=c++11"; "-DNDEBUG"; "-std=gnu++98"] =
    "-std=c++11" ∧
  extractStdArg ["-I/usr/include"; "-DNDEBUG"] = "".
Proof.
  split.
  - apply (extractStdArg_first_wins
             ["-I/usr/include"; "-std=c++11"; "-DNDEBUG"; "-std=gnu++98"])
      with (before := ["-I/usr/include"]) (after := ["-DNDEBUG"; "-std=gnu++98"]).
    + reflexivity.
    + repeat constructor.
    + reflexivity.
  - apply (extractStdArg_first_wins ["-I/usr/include"; "-DNDEBUG"]).
    repeat constructor.
Defined.

(** ** The file system *)

Lemma strip_prefix_Some (dir p rest : FilePath) :
  FilePath.strip_prefix dir p = Some rest ↔ p = dir ++ rest.
Proof.
  revert p. induction dir as [|d dir IH]; intros p; simpl.
  - split; [by intros [= ->]|by intros ->].
  - destruct p as [|c p]; [done|].
    destruct (String.eqb_spec d c) as [->|Hne].
    + rewrite IH. split; [by intros ->|by intros [= ->]].
    + split; [done|]. intros [= ? ?]. congruence.
Qed.

Lemma below_prefix (dir p : FilePath) :
  Fs.below dir p = true ↔ dir `prefix_of` p.
Proof.
  unfold Fs.below. destruct (FilePath.strip_prefix dir p) as [rest|] eqn:H.
  - apply strip_prefix_Some in H. split; [by exists rest|done].
  - split; [done|]. intros [rest Hrest].
    apply strip_prefix_Some in Hrest. congruence.
Qed.

Lemma lookup_remove_all (fs : FileSystem) (p q : FilePath) (n : Node) :
  Fs.remove_all fs p !! q = Some n ↔ fs !! q = Some n ∧ ¬ p `prefix_of` q.
Proof.
  unfold Fs.remove_all. rewrite map_lookup_filter_Some. cbn [fst].
  by rewrite <- below_prefix, not_true_iff_false.
Qed.

Lemma lookup_write (fs : FileSystem) (p q : FilePath) (c : string) (t : Z) (n : Node) :
  Fs.write fs p c t !! q = Some n ↔
  (q = p ∧ n = File c t) ∨ (q ≠ p ∧ fs !! q = Some n).
Proof.
  unfold Fs.write. rewrite lookup_insert_Some.
  split; intros [[-> <-]|[Hne Hq]]; eauto.
Qed.

Lemma ancestors_from_prefix (done todo q : FilePath) :
  q ∈ Fs.ancestors_from done todo → q `prefix_of` done ++ todo.
Proof.
  revert done. induction todo as [|c todo IH]; intros done; simpl.
  - by intros ?%elem_of_nil.
  - intros [->|Hin]%elem_of_cons.
    + apply prefix_app, prefix_cons, prefix_nil.
    + apply IH in Hin. by rewrite <- List.app_assoc in Hin.
Qed.

Lemma lookup_create_directories (fs : FileSystem) (p q : FilePath) (t : Z) (n : Node) :
  Fs.create_directories fs p t !! q = Some n →
  fs !! q = Some n ∨ (fs !! q = None ∧ q `prefix_of` p).
Proof.
  unfold Fs.create_directories.
  assert (∀ dirs (fs0 : FileSystem),
    fold_left (fun fs d => match fs !! d with
                           | Some _ => fs
                           | None => <[d := Directory t]> fs
                           end) dirs fs0 !! q = Some n →
    fs0 !! q = Some n ∨ (fs0 !! q = None ∧ q ∈ dirs)) as Hfold.
  { induction dirs as [|d dirs IH]; intros fs0; simpl; [by left|].
    intros [Hq|[Hq Hin]]%IH.
    - destruct (fs0 !! d) eqn:Hd; [by left|].
      apply lookup_insert_Some in Hq as [[-> _]|[_ Hq]]; [|by left].
      right. split; [done|]. by left.
    - right. destruct (fs0 !! d) eqn:Hd.
      + split; [done|]. by right.
      + destruct (decide (d = q)) as [->|Hne].
        * by rewrite lookup_insert_eq in Hq.
        * rewrite lookup_insert_ne in Hq by done. split; [done|]. by right. }
  intros [?|[? Hin]]%Hfold; [by left|]. right. split; [done|].
  by apply ancestors_from_prefix in Hin.
Qed.

Lemma parentsExist_parent (fs : FileSystem) (p : FilePath) (c : string) :
  parentsExist fs = true → is_Some (fs !! (p ++ [c])) →
  p = [] ∨ is_Some (fs !! p).
Proof.
  unfold parentsExist. rewrite forallb_forall.
  intros Hall [n Hn]. apply elem_of_map_to_list, list_elem_of_In in Hn.
  specialize (Hall _ Hn). cbn [fst] in Hall. rewrite removelast_last in Hall.
  destruct p as [|d p]; [by left|]. right.
  unfold Fs.path_exists in Hall. by destruct (fs !! (d :: p)).
Qed.

Lemma parentsExist_below (fs : FileSystem) (root q : FilePath) :
  parentsExist fs = true → root ≠ [] → fs !! root = None →
  root `prefix_of` q → fs !! q = None.
Proof.
  intros Hwf Hroot Hnone [rest ->].
  induction rest as [|c rest IH] using rev_ind.
  - by rewrite List.app_nil_r.
  - destruct (fs !! (root ++ rest ++ [c])) eqn:Hq; [|done].
    rewrite List.app_assoc in Hq.
    destruct (parentsExist_parent fs (root ++ rest) c Hwf) as [Hnil|[n' Hn]]; [eauto| |].
    + by destruct root.
    + congruence.
Qed.

Lemma noNewDirectory_refl (fs : FileSystem) : noNewDirectory fs fs.
Proof. by intros q t. Qed.

Lemma noNewDirectory_trans (fs1 fs2 fs3 : FileSystem) :
  noNewDirectory fs1 fs2 → noNewDirectory fs2 fs3 → noNewDirectory fs1 fs3.
Proof. intros H12 H23 q t Hq. eauto. Qed.

Lemma noNewDirectory_write (fs : FileSystem) (p : FilePath) (c : string) (t : Z) :
  noNewDirectory fs (Fs.write fs p c t).
Proof. intros q t' [[_ [=]]|[_ Hq]]%lookup_write. done. Qed.

Lemma noNewDirectory_remove_all (fs : FileSystem) (p : FilePath) :
  noNewDirectory fs (Fs.remove_all fs p).
Proof. intros q t [Hq _]%lookup_remove_all. done. Qed.

Lemma addsOnly_write (fs : FileSystem) (p : FilePath) (c : string) (t : Z) :
  addsOnly [p] fs (Fs.write fs p c t).
Proof.
  intros q [n [[-> _]|[_ Hq]]%lookup_write]; [right; by left|by left].
Qed.

Lemma addsOnly_remove_all (fs : FileSystem) (p : FilePath) :
  addsOnly [] fs (Fs.remove_all fs p).
Proof. intros q [n [Hq _]%lookup_remove_all]. by left. Qed.

Lemma filesOnly_refl (allowed : list FilePath) (fs : FileSystem) :
  filesOnly allowed fs fs.
Proof. split; [apply noNewDirectory_refl|]. intros q Hq. by left. Qed.

Lemma filesOnly_trans (allowed : list FilePath) (fs1 fs2 fs3 : FileSystem) :
  filesOnly allowed fs1 fs2 → filesOnly allowed fs2 fs3 → filesOnly allowed fs1 fs3.
Proof.
  intros [Hd12 Ha12] [Hd23 Ha23]. split; [by eapply noNewDirectory_trans|].
  intros q [Hq|Hq]%Ha23; [by apply Ha12|by right].
Qed.

Lemma filesOnly_write (allowed : list FilePath) (fs : FileSystem) (p : FilePath)
    (c : string) (t : Z) :
  p ∈ allowed → filesOnly allowed fs (Fs.write fs p c t).
Proof.
  intros Hp. split; [apply noNewDirectory_write|].
  intros q [Hq|Hq%list_elem_of_singleton]%addsOnly_write; [by left|right; by subst].
Qed.

Lemma filesOnly_remove_all (allowed : list FilePath) (fs : FileSystem) (p : FilePath) :
  filesOnly allowed fs (Fs.remove_all fs p).
Proof.
  split; [apply noNewDirectory_remove_all|].
  intros q [Hq|Hq%elem_of_nil]%addsOnly_remove_all; [by left|done].
Qed.

(** ** The precompiled header store *)

Lemma argsForRCmdSHLIB_files (h : Host) env (tmp : FilePath) (s : Session)
    (allowed : list FilePath) :
  tmp ∈ allowed →
  filesOnly allowed (files s) (files (snd (argsForRCmdSHLIB h env tmp s))).
Proof.
  intros Htmp. rewrite argsForRCmdSHLIB_run.
  destruct (canWrite h tmp); cbn [snd files]; [|apply filesOnly_refl].
  destruct (canRemove h tmp).
  - eapply filesOnly_trans; [by apply filesOnly_write|apply filesOnly_remove_all].
  - by apply filesOnly_write.
Qed.

Lemma createPrecompiledHeader_files (h : Host) (pkgName stdArg : string)
    (platformPath pchPath : FilePath) (s : Session) :
  filesOnly [FilePath.childPath platformPath (pkgName +:+ stdArg +:+ ".cpp");
             tempFile h; pchPath]
            (files s)
            (files (snd (createPrecompiledHeader h pkgName stdArg platformPath
                           pchPath s))).
Proof.
  unfold createPrecompiledHeader, writeStringToFile.
  set (cppPath := FilePath.childPath platformPath _).
  set (allowed := [cppPath; tempFile h; pchPath]).
  destruct (canWrite h cppPath); [|apply filesOnly_refl].
  monad. cbn [negb].
  set (s1 := {| this := this s; files := Fs.write (files s) cppPath _ (now h);
                spawned := spawned s |}).
  assert (filesOnly allowed (files s) (files s1)) as H1.
  { apply filesOnly_write. set_solver. }
  pose proof (argsForRCmdSHLIB_files h (compilationEnvironment h) (tempFile h) s1
                allowed) as H2.
  destruct (argsForRCmdSHLIB h (compilationEnvironment h) (tempFile h) s1)
    as [cArgs s2].
  cbn [snd] in H2.
  assert (filesOnly allowed (files s) (files s2)) as H12.
  { eapply filesOnly_trans; [done|]. apply H2. set_solver. }
  destruct (negb (clang_parseTranslationUnit h _ _)); [done|].
  destruct (Z.eqb _ _); cbn [snd files]; [|done].
  eapply filesOnly_trans; [done|]. apply filesOnly_write. set_solver.
Qed.

Lemma ensurePlatformPath_files (h : Host) (root platformPath : FilePath) (s : Session) :
  parentsExist (files s) = true → root ≠ [] →
  let ready := fst (ensurePlatformPath h root platformPath s) in
  let s1 := snd (ensurePlatformPath h root platformPath s) in
  (Fs.path_exists (files s) platformPath = true ∧ files s1 = files s) ∨
  (Fs.path_exists (files s) platformPath = false ∧ ready = false ∧
   files s1 = files s) ∨
  (Fs.path_exists (files s) platformPath = false ∧
   evicted root platformPath (files s1)).
Proof.
  intros Hwf Hroot. unfold ensurePlatformPath. monad.
  destruct (Fs.path_exists (files s) platformPath) eqn:Hmissing; [by left|].
  right. cbn [negb]. unfold removeIfExists, removePath. monad.
  assert (∀ fs1 : FileSystem,
            (∀ q, root `prefix_of` q → fs1 !! q = None) →
            let s1 := snd (ensureDirectory h platformPath
                             {| this := this s; files := fs1; spawned := spawned s |}) in
            evicted root platformPath (files s1)) as Hcreate.
  { intros fs1 Hgone. unfold ensureDirectory. monad. cbn [files].
    assert (evicted root platformPath fs1) as Hsame.
    { intros q Hq [n Hn]. rewrite Hgone in Hn by done. done. }
    destruct (Fs.path_exists fs1 platformPath); [done|].
    destruct (canCreateDirectory h platformPath); [|done].
    cbn [snd files]. intros q Hq [n Hn].
    apply lookup_create_directories in Hn as [Hn|[_ Hn]]; [|done].
    rewrite Hgone in Hn by done. done. }
  destruct (Fs.path_exists (files s) root) eqn:Hexists.
  - destruct (canRemove h root); [|by left]. cbn [negb]. right. split; [done|].
    apply Hcreate. intros q Hq.
    destruct (Fs.remove_all (files s) root !! q) as [n|] eqn:Hn; [|done].
    by apply lookup_remove_all in Hn as [_ ?].
  - cbn [negb]. right. split; [done|].
    destruct s as [self fs0 sp]. cbn [this files spawned] in *.
    apply (Hcreate fs0). intros q Hq. apply (parentsExist_below _ root); try done.
    unfold Fs.path_exists in Hexists. by destruct (fs0 !! root).
Qed.

Lemma precompiledDirFor_not_root (h : Host) (pkgName : string) :
  precompiledDirFor h pkgName ≠ [].
Proof.
  unfold precompiledDirFor, FilePath.childPath, FilePath.components, split.
  intros [_ Hnil]%app_eq_nil. revert Hnil.
  change ("libclang/precompiled/" +:+ pkgName)
    with ("libclang" +:+ String "/" ("precompiled/" +:+ pkgName)).
  rewrite split_any_app by done. rewrite List.filter_app.
  vm_compute (split_any "/" "" "libclang"). by cbn.
Qed.

Lemma evicted_one_version (root platformPath : FilePath) (fs : FileSystem) :
  evicted root platformPath fs → atMostOneVersion fs root.
Proof.
  intros Hev v1 v2 [t1 H1] [t2 H2].
  assert (∀ v t, fs !! (root ++ [v]) = Some (Directory t) →
                 root ++ [v] `prefix_of` platformPath) as Hpre.
  { intros v t Hv. apply Hev; [by apply prefix_app_r|by eexists]. }
  destruct (Hpre _ _ H1) as [k1 Hk1]. destruct (Hpre _ _ H2) as [k2 Hk2].
  rewrite Hk1, <- !List.app_assoc in Hk2.
  by apply app_inv_head in Hk2 as [= ->].
Qed.

Lemma atMostOneVersion_kept (root : FilePath) (fs fs' : FileSystem) :
  noNewDirectory fs fs' → atMostOneVersion fs root → atMostOneVersion fs' root.
Proof.
  intros Hdirs Hone v1 v2 [t1 H1] [t2 H2].
  apply Hone; eexists; by apply Hdirs.
Qed.


(** The headers precompiled for libclang [3.5] are gone once the header is
    asked for with libclang [3.6]. *)
Lemma upgrade_evicts_old_version :
  Fs.path_exists (files Example.afterFirstHeader)
    ["home"; "u"; ".rstudio"; "libclang"; "precompiled"; "Rcpp";
     "x86_64-3.1-3.5"; "Rcpp.pch"] = true ∧
  Fs.path_exists
    (files (snd (precompiledHeaderArgs Example.upgraded "Rcpp" ""
                   Example.afterFirstHeader)))
    ["home"; "u"; ".rstudio"; "libclang"; "precompiled"; "Rcpp";
     "x86_64-3.1-3.5"] = false ∧
  Fs.path_exists
    (files (snd (precompiledHeaderArgs Example.upgraded "Rcpp" ""
                   Example.afterFirstHeader)))
    ["home"; "u"; ".rstudio"; "libclang"; "precompiled"; "Rcpp";
     "x86_64-3.1-3.6"; "Rcpp.pch"] = true.
Proof. vm_compute. repeat split. Qed.

(** A header that cannot be parsed gives no argument. *)
Lemma createPrecompiledHeader_parse_failure (h : Host) (pkgName stdArg : string)
    (platformPath pchPath : FilePath) (s : Session) :
  (∀ file args, clang_parseTranslationUnit h file args = false) →
  fst (createPrecompiledHeader h pkgName stdArg platformPath pchPath s) = false.
Proof.
  intros Hparse. unfold createPrecompiledHeader, writeStringToFile.
  destruct (canWrite h _); [|done]. monad. cbn [negb].
  destruct (argsForRCmdSHLIB h _ _ _) as [cArgs s2]. by rewrite Hparse.
Qed.

(** The answer of [createPrecompiledHeader] does not depend on whether the
    header could be saved. *)
Lemma createPrecompiledHeader_save_ignored (h : Host) (pkgName stdArg : string)
    (platformPath pchPath : FilePath) (s : Session) :
  canWrite h (FilePath.childPath platformPath (pkgName +:+ stdArg +:+ ".cpp")) = true →
  (∀ file args, clang_parseTranslationUnit h file args = true) →
  fst (createPrecompiledHeader h pkgName stdArg platformPath pchPath s) = true.
Proof.
  intros Hwrite Hparse. unfold createPrecompiledHeader, writeStringToFile.
  rewrite Hwrite. monad. cbn [negb].
  destruct (argsForRCmdSHLIB h _ _ _) as [cArgs s2]. rewrite Hparse. cbn [negb].
  by destruct (Z.eqb _ _).
Qed.

(** C2, the failing input: libclang parses the header of Rcpp and then fails
    to save it ([clang_saveTranslationUnit] answers [1]); the error is only
    logged, and the two arguments are returned for a file that is not
    there. *)
Theorem save_failure_returns_missing_pch :
  clang_saveTranslationUnit Example.cannotSave
    "/home/u/.rstudio/libclang/precompiled/Rcpp/x86_64-3.1-3.5/Rcpp.pch" = 1%Z ∧
  fst (precompiledHeaderArgs Example.cannotSave "Rcpp" ""
         (Example.fresh Example.withRcpp)) =
    ["-include-pch";
     "/home/u/.rstudio/libclang/precompiled/Rcpp/x86_64-3.1-3.5/Rcpp.pch"] ∧
  Fs.path_exists
    (files (snd (precompiledHeaderArgs Example.cannotSave "Rcpp" ""
                   (Example.fresh Example.withRcpp))))
    ["home"; "u"; ".rstudio"; "libclang"; "precompiled"; "Rcpp";
     "x86_64-3.1-3.5"; "Rcpp.pch"] = false.
Proof. vm_compute. repeat split. Qed.

(** ** Further properties of the caches and of the store *)

(** X1: a package whose build files have the fingerprint the cache holds is
    not resolved again: the resolver takes the cached arguments and the
    cached package, and the session, with the processes it has run, stays as
    it is. *)
Theorem package_cache_hit (h : Host) (filePath : FilePath) (s : Session) :
  isPackageSource h filePath = true →
  fst (packageBuildFileHash h s) = packageBuildFileHash_ (this s) →
  cachedArgsForTranslationUnit h filePath s =
    ((packageSrcArgs_ (this s), packagePCH_ (this s)), s).
Proof.
  intros Hpkg Hhit. rewrite cachedArgs_package by done.
  by rewrite updateForCurrentPackage_hit.
Qed.

Lemma package_cache_hit_witness :
  cachedArgsForTranslationUnit Example.working ["home"; "u"; "pkg"; "src"; "a.cpp"]
    (snd (updateForCurrentPackage Example.working (Example.fresh Example.withRcpp))) =
  ((packageSrcArgs_
      (this (snd (updateForCurrentPackage Example.working
                    (Example.fresh Example.withRcpp)))),
    packagePCH_
      (this (snd (updateForCurrentPackage Example.working
                    (Example.fresh Example.withRcpp))))),
   snd (updateForCurrentPackage Example.working (Example.fresh Example.withRcpp))).
Proof.
  apply (package_cache_hit Example.working ["home"; "u"; "pkg"; "src"; "a.cpp"]);
    vm_compute; reflexivity.
Defined.

(** X2: a standalone file whose fingerprint is the one stored for its path
    is not resolved again: the resolver takes what the cache holds and the
    session stays as it is. *)
Theorem sourceCpp_cache_hit (h : Host) (filePath : FilePath) (s : Session) :
  isPackageSource h filePath = false →
  sourceCppHashes_ (this s) !! FilePath.absolutePath filePath =
    Some (fst (sourceCppHash filePath s)) →
  cachedArgsForTranslationUnit h filePath s = (sourceCppCached (this s) filePath, s).
Proof.
  intros Hstandalone Hhit. rewrite cachedArgs_sourceCpp by done.
  assert (updateForSourceCpp h filePath s = (tt, s)) as ->; [|done].
  unfold updateForSourceCpp. unfold bind at 1. rewrite sourceCppHash_pure.
  unfold bind at 1, getThis. by rewrite bool_decide_eq_true_2.
Qed.

Lemma sourceCpp_cache_hit_witness :
  cachedArgsForTranslationUnit Example.working Example.fooCpp
    (snd (updateForSourceCpp Example.working Example.fooCpp
            (Example.fresh Example.withRcpp))) =
  (sourceCppCached
     (this (snd (updateForSourceCpp Example.working Example.fooCpp
                   (Example.fresh Example.withRcpp))))
     Example.fooCpp,
   snd (updateForSourceCpp Example.working Example.fooCpp
          (Example.fresh Example.withRcpp))).
Proof.
  apply (sourceCpp_cache_hit Example.working Example.fooCpp); vm_compute; reflexivity.
Defined.

(** X3: a precompiled header that is already there is used as it is: the
    two arguments are returned, nothing is run and nothing is written. *)
Theorem precompiled_header_reused (h : Host) (pkgName stdArg platformDir : string)
    (s : Session) :
  let platformPath := FilePath.childPath (precompiledDirFor h pkgName) platformDir in
  let pchPath := FilePath.childPath platformPath (pkgName +:+ stdArg +:+ ".pch") in
  rs_clangPCHPath h pkgName (clang_version h) = Some platformDir →
  Fs.path_exists (files s) platformPath = true →
  Fs.path_exists (files s) pchPath = true →
  precompiledHeaderArgs h pkgName stdArg s =
    (["-include-pch"; FilePath.absolutePath pchPath], s).
Proof.
  intros platformPath pchPath Hdir Hplatform Hpch.
  unfold precompiledHeaderArgs, ensurePlatformPath. rewrite Hdir.
  fold platformPath pchPath. monad. rewrite Hplatform. cbn [negb].
  by rewrite Hpch.
Qed.

Lemma precompiled_header_reused_witness :
  precompiledHeaderArgs Example.working "Rcpp" "" Example.afterFirstHeader =
  (["-include-pch";
    "/home/u/.rstudio/libclang/precompiled/Rcpp/x86_64-3.1-3.5/Rcpp.pch"],
   Example.afterFirstHeader).
Proof.
  apply (precompiled_header_reused Example.working "Rcpp" "" "x86_64-3.1-3.5"
           Example.afterFirstHeader); vm_compute; reflexivity.
Defined.

(** X4: the source file written for the dry run of [R CMD SHLIB] is removed
    again, whatever the run gives. *)
Theorem probe_file_removed (h : Host) (env : list (string * string))
    (tempSrcFile : FilePath) (s : Session) :
  canWrite h tempSrcFile = true → canRemove h tempSrcFile = true →
  Fs.path_exists (files (snd (argsForRCmdSHLIB h env tempSrcFile s))) tempSrcFile = false.
Proof.
  intros Hwrite Hremove. rewrite argsForRCmdSHLIB_run, Hwrite, Hremove.
  cbn [snd files]. unfold Fs.path_exists.
  destruct (Fs.remove_all _ tempSrcFile !! tempSrcFile) as [n|] eqn:Hn; [|done].
  by apply lookup_remove_all in Hn as [_ []].
Qed.

Lemma probe_file_removed_witness :
  Fs.path_exists
    (files (snd (argsForRCmdSHLIB Example.brokenBuild [] ["tmp"; "probe.cpp"]
                   (Example.fresh Example.withRcpp))))
    ["tmp"; "probe.cpp"] = false.
Proof.
  apply (probe_file_removed Example.brokenBuild [] ["tmp"; "probe.cpp"]); reflexivity.
Defined.

(** X5: when libclang cannot parse the source that includes the header of
    the package, no argument is returned. *)
Theorem parse_failure_no_pch (h : Host) (pkgName stdArg platformDir : string)
    (s : Session) :
  let platformPath := FilePath.childPath (precompiledDirFor h pkgName) platformDir in
  let pchPath := FilePath.childPath platformPath (pkgName +:+ stdArg +:+ ".pch") in
  rs_clangPCHPath h pkgName (clang_version h) = Some platformDir →
  Fs.path_exists (files s) platformPath = true →
  Fs.path_exists (files s) pchPath = false →
  (∀ file args, clang_parseTranslationUnit h file args = false) →
  fst (precompiledHeaderArgs h pkgName stdArg s) = [].
Proof.
  intros platformPath pchPath Hdir Hplatform Hpch Hparse.
  unfold precompiledHeaderArgs, ensurePlatformPath. rewrite Hdir.
  fold platformPath pchPath. monad. rewrite Hplatform. cbn [negb].
  rewrite Hpch. cbn [negb].
  pose proof (createPrecompiledHeader_parse_failure h pkgName stdArg platformPath
                pchPath s Hparse) as Hcreate.
  destruct (createPrecompiledHeader h pkgName stdArg platformPath pchPath s)
    as [created s']. cbn [fst] in Hcreate. by rewrite Hcreate.
Qed.

Lemma parse_failure_no_pch_witness :
  fst (precompiledHeaderArgs
         (Example.host Example.clangArgs "3.5" false 0 Example.shlibWorks None)
         "Rcpp" "-std=c++11" Example.afterFirstHeader) = [].
Proof.
  apply (parse_failure_no_pch
           (Example.host Example.clangArgs "3.5" false 0 Example.shlibWorks None)
           "Rcpp" "-std=c++11" "x86_64-3.1-3.5" Example.afterFirstHeader);
    vm_compute; reflexivity.
Defined.

(** ** The fingerprint of a standalone file *)

Lemma run_Lit_app {A} (l rest : string) (prev : option ascii)
    (k : option ascii → string → option A) :
  ∃ prev', run (Lit l) prev (l +:+ rest) k = k prev' rest.
Proof.
  revert prev. induction l as [|c l IH]; intros prev; sapp; cbn [Lit run].
  - by exists prev.
  - unfold ascii_eqb. rewrite Ascii.eqb_refl. apply IH.
Qed.

Lemma star_greedy_run {A} (p : ascii → bool) (ws rest : string)
    (prev : option ascii) (k : option ascii → string → option A) :
  all_chars p ws = true →
  match rest with String c _ => p c = false | EmptyString => True end →
  (∀ prev', is_Some (k prev' rest)) →
  is_Some (star_greedy p k prev (ws +:+ rest)).
Proof.
  intros Hws Hrest Hk. revert prev Hws.
  induction ws as [|c ws IH]; intros prev Hws; sapp.
  - destruct rest as [|c rest]; cbn [star_greedy]; [done|]. by rewrite Hrest.
  - cbn [all_chars] in Hws. apply andb_true_iff in Hws as [Hc Hws].
    cbn [star_greedy]. rewrite Hc.
    by destruct (IH (Some c) Hws) as [a ->].
Qed.

Lemma search_from_app (r : regex) (pre m : string) (prev : option ascii) :
  (∀ prev', is_Some (match_at r prev' m)) →
  search_from r prev (pre +:+ m) = true.
Proof.
  intros Hm. revert prev. induction pre as [|c pre IH]; intros prev; sapp.
  - destruct m; cbn [search_from]; by destruct (Hm prev) as [len ->].
  - cbn [search_from]. destruct (match_at r prev _); [done|]. apply IH.
Qed.

Lemma run_reRcpp11 {A} (ws post : string) (prev : option ascii)
    (k : option ascii → string → option A) :
  ws ≠ "" → all_chars is_space ws = true →
  (∀ prev' rest, is_Some (k prev' rest)) →
  is_Some (run reRcpp11 prev ("#include" +:+ ws +:+ "<Rcpp11" +:+ post) k).
Proof.
  intros Hne Hws Hk. unfold reRcpp11. cbn [run].
  destruct (run_Lit_app "#include" (ws +:+ "<Rcpp11" +:+ post) prev
    (fun prev' s' => run (Plus is_space) prev' s'
       (fun prev'' s'' => run (Lit "<Rcpp11") prev'' s'' k))) as [prev1 ->].
  destruct ws as [|w ws]; [done|]. sapp.
  cbn [all_chars] in Hws. apply andb_true_iff in Hws as [Hw Hws].
  unfold Plus. cbn [run]. rewrite Hw.
  apply star_greedy_run; [done|done|]. intros prev2.
  destruct (run_Lit_app "<Rcpp11" post prev2 k) as [prev3 Hrun].
  rewrite ?string_app_cons, ?string_app_nil_l in Hrun. rewrite Hrun. apply Hk.
Qed.

Lemma regex_search_reRcpp11 (pre ws post : string) :
  ws ≠ "" → all_chars is_space ws = true →
  regex_search (pre +:+ "#include" +:+ ws +:+ "<Rcpp11" +:+ post) reRcpp11 = true.
Proof.
  intros Hne Hws. unfold regex_search. apply search_from_app. intros prev.
  unfold match_at. by apply run_reRcpp11.
Qed.

(** C8: a file whose contents match the pattern of an include of Rcpp11 has
    the empty fingerprint, whatever else it contains; the contents match as
    soon as they have [#include], white space and [<Rcpp11] in a row. *)
Theorem sourceCppHash_Rcpp11_empty (contents : string) :
  (regex_search contents reRcpp11 = true →
     sourceCppHashOfContents contents = "" ∧
     ∀ srcPath s, Fs.readStringFromFile (files s) srcPath = Some contents →
                  sourceCppHash srcPath s = ("", s)) ∧
  (∀ pre ws post,
     ws ≠ "" → all_chars is_space ws = true →
     contents = pre +:+ "#include" +:+ ws +:+ "<Rcpp11" +:+ post →
     sourceCppHashOfContents contents = "").
Proof.
  assert (regex_search contents reRcpp11 = true →
          sourceCppHashOfContents contents = "") as Hempty.
  { unfold sourceCppHashOfContents. by intros ->. }
  split.
  - intros Hmatch. split; [by apply Hempty|].
    intros srcPath s Hread. unfold sourceCppHash. monad.
    by rewrite Hread, Hempty.
  - intros pre ws post Hne Hws ->. by apply Hempty, regex_search_reRcpp11.
Qed.

Lemma sourceCppHash_Rcpp11_empty_witness :
  sourceCppHashOfContents Example.withRcpp11 = "".
Proof.
  apply (sourceCppHash_Rcpp11_empty Example.withRcpp11).
  vm_compute. reflexivity.
Defined.

(** ** Files that do not mention Rcpp *)

Lemma contains_cons (c : ascii) (s pat : string) :
  contains (String c s) pat = starts_with (String c s) pat || contains s pat.
Proof. reflexivity. Qed.

Lemma contains_nil (pat : string) : contains "" pat = starts_with "" pat.
Proof. cbn [contains]. by rewrite orb_false_r. Qed.

Lemma contains_spec (s pat : string) :
  contains s pat = true ↔ ∃ pre post, s = pre +:+ pat +:+ post.
Proof.
  split.
  - induction s as [|c s IH].
    + rewrite contains_nil. intros [rest ->]%starts_with_app. by exists "", rest.
    + rewrite contains_cons. intros [Hs|Hs]%orb_true_iff.
      * apply starts_with_app in Hs as [rest ->]. by exists "", rest.
      * destruct (IH Hs) as (pre & post & ->). by exists (String c pre), post.
  - intros (pre & post & ->). induction pre as [|c pre IH]; sapp.
    + assert (starts_with (pat +:+ post) pat = true) as Hs
        by (apply starts_with_app; eauto).
      destruct (pat +:+ post); [by rewrite contains_nil|].
      by rewrite contains_cons, Hs.
    + by rewrite contains_cons, IH, orb_true_r.
Qed.

Lemma contains_trans (s a b : string) :
  contains s a = true → contains a b = true → contains s b = true.
Proof.
  intros (pre & post & ->)%contains_spec (pre' & post' & ->)%contains_spec.
  apply contains_spec. exists (pre +:+ pre'), (post' +:+ post).
  by rewrite !string_app_assoc.
Qed.

Lemma contains_false_trans (s a b : string) :
  contains s b = false → contains a b = true → contains s a = false.
Proof.
  intros Hs Ha. destruct (contains s a) eqn:Hsa; [|done].
  by rewrite (contains_trans _ _ _ Hsa Ha) in Hs.
Qed.

Lemma string_take_drop (n : nat) (s : string) : take n s +:+ drop n s = s.
Proof.
  revert s. induction n as [|n IH]; intros [|c s]; simpl; sapp; try done.
  by rewrite IH.
Qed.

Lemma contains_take (n : nat) (s : string) : contains s (take n s) = true.
Proof.
  apply contains_spec. exists "", (drop n s). sapp. by rewrite string_take_drop.
Qed.

(** What a search finds is a word of the pattern, and is in the text. *)
Lemma search_from_sound (r : regex) (prev : option ascii) (s : string) :
  search_from r prev s = true → ∃ w, Lang r w ∧ contains s w = true.
Proof.
  revert prev. induction s as [|c s IH]; intros prev; cbn [search_from].
  - destruct (match_at r prev "") as [len|] eqn:Hm; [|done]. intros _.
    exists (take len ""). split; [by eapply match_at_sound|apply contains_take].
  - destruct (match_at r prev (String c s)) as [len|] eqn:Hm.
    + intros _. exists (take len (String c s)).
      split; [by eapply match_at_sound|apply contains_take].
    + intros (w & Hw & Hin)%IH. exists w. split; [done|].
      by rewrite contains_cons, Hin, orb_true_r.
Qed.

Lemma find_all_from_contains (r : regex) (skip : nat) (prev : option ascii)
    (s tok : string) :
  tok ∈ find_all_from r skip prev s → contains s tok = true.
Proof.
  revert skip prev. induction s as [|c s IH]; intros skip prev; cbn [find_all_from].
  - by intros ?%elem_of_nil.
  - assert (∀ n p, tok ∈ find_all_from r n p s →
                   contains (String c s) tok = true) as Hrec.
    { intros n p Hin. by rewrite contains_cons, (IH _ _ Hin), orb_true_r. }
    destruct skip as [|n]; [|by apply Hrec].
    destruct (match_at r prev (String c s)) as [len|]; [|by apply Hrec].
    intros [->|Hin]%elem_of_cons; [apply contains_take|by eapply Hrec].
Qed.

(** A text without the marker of a pattern has no match of the pattern. *)
Lemma regex_search_without (r : regex) (s marker : string) :
  (∀ w, Lang r w → contains w marker = true) →
  contains s marker = false → regex_search s r = false.
Proof.
  intros Hr Hs. unfold regex_search.
  destruct (search_from r None s) eqn:Hfound; [|done].
  apply search_from_sound in Hfound as (w & Hw%Hr & Hin).
  by rewrite (contains_trans _ _ _ Hin Hw) in Hs.
Qed.

Lemma find_all_without (r : regex) (s marker : string) :
  (∀ w, Lang r w → contains w marker = true) →
  contains s marker = false → find_all r s = [].
Proof.
  intros Hr Hs. unfold find_all.
  destruct (find_all_from r 0 None s) as [|tok toks] eqn:Hfound; [done|].
  assert (tok ∈ find_all_from r 0 None s) as Hin by (rewrite Hfound; left).
  pose proof (find_all_from_contains _ _ _ _ _ Hin) as Hsub.
  apply find_all_from_sound, Hr in Hin.
  by rewrite (contains_trans _ _ _ Hsub Hin) in Hs.
Qed.

Lemma Lang_reRcpp_marker (w : string) : Lang reRcpp w → contains w "<Rcpp" = true.
Proof.
  intros (w1 & w2 & -> & _ & w3 & w4 & -> & _ & ->%Lang_Lit).
  apply contains_spec. exists (w1 +:+ w3), "".
  by rewrite string_app_nil_r, string_app_assoc.
Qed.

Lemma Lang_reRcpp11_marker (w : string) : Lang reRcpp11 w → contains w "<Rcpp11" = true.
Proof.
  intros (w1 & w2 & -> & _ & w3 & w4 & -> & _ & ->%Lang_Lit).
  apply contains_spec. exists (w1 +:+ w3), "".
  by rewrite string_app_nil_r, string_app_assoc.
Qed.

Lemma Lang_reAttribute_marker (w : string) :
  Lang reAttribute w → contains w "[[Rcpp::" = true.
Proof.
  intros (w1 & ? & -> & _ & w2 & ? & -> & _ & w3 & ? & -> & _ & w4 & ? & -> & _ &
          w5 & w6 & -> & ->%Lang_Lit & _).
  apply contains_spec. exists (w1 +:+ w2 +:+ w3 +:+ w4), w6.
  by rewrite !string_app_assoc.
Qed.

Lemma run_reRcpp {A} (ws post : string) (prev : option ascii)
    (k : option ascii → string → option A) :
  ws ≠ "" → all_chars is_space ws = true →
  (∀ prev' rest, is_Some (k prev' rest)) →
  is_Some (run reRcpp prev ("#include" +:+ ws +:+ "<Rcpp" +:+ post) k).
Proof.
  intros Hne Hws Hk. unfold reRcpp. rewrite run_Seq.
  destruct (run_Lit_app "#include" (ws +:+ "<Rcpp" +:+ post) prev
    (fun prev' s' => run (Seq (Plus is_space) (Lit "<Rcpp")) prev' s' k))
    as [prev1 ->].
  destruct ws as [|w ws]; [done|]. sapp.
  cbn [all_chars] in Hws. apply andb_true_iff in Hws as [Hw Hws].
  unfold Plus. rewrite !run_Seq, run_Cls, Hw. cbn [run].
  apply star_greedy_run; [done|done|]. intros prev2.
  destruct (run_Lit_app "<Rcpp" post prev2 k) as [prev3 Hrun].
  rewrite ?string_app_cons, ?string_app_nil_l in Hrun. rewrite Hrun. apply Hk.
Qed.

Lemma regex_search_reRcpp (pre ws post : string) :
  ws ≠ "" → all_chars is_space ws = true →
  regex_search (pre +:+ "#include" +:+ ws +:+ "<Rcpp" +:+ post) reRcpp = true.
Proof.
  intros Hne Hws. unfold regex_search. apply search_from_app. intros prev.
  unfold match_at. by apply run_reRcpp.
Qed.

Lemma sourceCppHash_no_attribute (contents : string) :
  contains contents "[[Rcpp::" = false →
  sourceCppHashOfContents contents =
  if regex_search contents reRcpp11 then ""
  else if regex_search contents reRcpp then "Rcpp" else "".
Proof.
  intros Hattr. unfold sourceCppHashOfContents.
  by rewrite (find_all_without _ _ _ Lang_reAttribute_marker Hattr).
Qed.

(** X7: a file whose text does not have the letters [Rcpp] anywhere has the
    empty fingerprint, and an update for it changes nothing and runs
    nothing. *)
Theorem file_without_Rcpp_not_resolved (h : Host) (srcFile : FilePath) (s : Session)
    (contents : string) :
  Fs.readStringFromFile (files s) srcFile = Some contents →
  contains contents "Rcpp" = false →
  sourceCppHash srcFile s = ("", s) ∧
  updateForSourceCpp h srcFile s = (tt, s).
Proof.
  intros Hread Hno.
  assert (sourceCppHash srcFile s = ("", s)) as Hhash.
  { unfold sourceCppHash. monad. rewrite Hread.
    rewrite sourceCppHash_no_attribute
      by (by eapply contains_false_trans; [exact Hno|]).
    rewrite (regex_search_without reRcpp11 contents "<Rcpp11")
      by (auto using Lang_reRcpp11_marker; by eapply contains_false_trans; [exact Hno|]).
    by rewrite (regex_search_without reRcpp contents "<Rcpp")
      by (auto using Lang_reRcpp_marker; by eapply contains_false_trans; [exact Hno|]). }
  split; [done|]. apply updateForSourceCpp_no_hash. by rewrite Hhash.
Qed.

Lemma file_without_Rcpp_not_resolved_witness :
  sourceCppHash Example.fooCpp (Example.fresh Example.plainCpp) =
    ("", Example.fresh Example.plainCpp) ∧
  updateForSourceCpp Example.working Example.fooCpp (Example.fresh Example.plainCpp) =
    (tt, Example.fresh Example.plainCpp).
Proof.
  apply (file_without_Rcpp_not_resolved Example.working Example.fooCpp
           (Example.fresh Example.plainCpp) Example.plainCpp);
    vm_compute; reflexivity.
Defined.

(** X8: a file that includes a header whose name starts with [Rcpp], has no
    attribute of Rcpp and no include of Rcpp11, has the fingerprint
    [Rcpp]. *)
Theorem sourceCppHash_plain_include (pre ws post : string) :
  let contents := pre +:+ "#include" +:+ ws +:+ "<Rcpp" +:+ post in
  ws ≠ "" → all_chars is_space ws = true →
  contains contents "<Rcpp11" = false →
  contains contents "[[Rcpp::" = false →
  sourceCppHashOfContents contents = "Rcpp".
Proof.
  intros contents Hne Hws H11 Hattr.
  rewrite sourceCppHash_no_attribute by done.
  rewrite (regex_search_without reRcpp11 contents "<Rcpp11")
    by auto using Lang_reRcpp11_marker.
  unfold contents. by rewrite regex_search_reRcpp.
Qed.

Lemma sourceCppHash_plain_include_witness :
  sourceCppHashOfContents
    ("" +:+ "#include" +:+ " " +:+ "<Rcpp" +:+
     ("Armadillo.h>" +:+ Example.newline +:+ "int one() { return 1; }")) = "Rcpp".
Proof.
  apply (sourceCppHash_plain_include "" " "
           ("Armadillo.h>" +:+ Example.newline +:+ "int one() { return 1; }"));
    [done|vm_compute; reflexivity..].
Defined.

(** ** The fingerprint of the package *)

Lemma string_app_inv_tail (a b x : string) : a +:+ x = b +:+ x → a = b.
Proof.
  revert b. induction a as [|c a IH]; intros [|d b]; sapp; intros H; try done.
  - apply (f_equal String.length) in H. cbn [String.length] in H.
    rewrite string_length_app in H. lia.
  - apply (f_equal String.length) in H. cbn [String.length] in H.
    rewrite string_length_app in H. lia.
  - injection H as -> H. f_equal. by apply IH.
Qed.

Lemma string_app_inv_head (x a b : string) : x +:+ a = x +:+ b → a = b.
Proof. induction x as [|c x IH]; sapp; [done|]. intros [= H]. by apply IH. Qed.

Lemma pretty_N_go_length (x : N) (s : string) :
  (String.length s ≤ String.length (pretty_N_go x s))%nat.
Proof.
  revert s. induction (N.lt_wf_0 x) as [x _ IH]; intros s.
  destruct (decide (x = 0)%N) as [->|Hx]; [by rewrite pretty_N_go_0|].
  rewrite pretty_N_go_step by lia.
  etrans; [|apply IH; apply N.div_lt; lia]. cbn [String.length]. lia.
Qed.

(** A printed number has at least one digit. *)
Lemma show_Z_not_empty (n : Z) : show_Z n ≠ "".
Proof.
  assert (∀ p : positive, pretty p ≠ "") as Hpos.
  { intros p. unfold pretty, pretty_positive, pretty, pretty_N.
    destruct (decide _) as [|_]; [done|].
    rewrite pretty_N_go_step by lia. intros Heq.
    pose proof (pretty_N_go_length (N.pos p `div` 10)
                  (String (pretty_N_char (N.pos p `mod` 10)) "")) as Hlen.
    rewrite Heq in Hlen. cbn [String.length] in Hlen. lia. }
  unfold show_Z, pretty, pretty_Z. destruct n as [|p|p]; [done|apply Hpos|done].
Qed.

(** The fingerprint of one file tells exactly its stamp. *)
Lemma buildFileHash_stamp (fs fs' : FileSystem) (p p' : FilePath) :
  buildFileHash fs p = buildFileHash fs' p' ↔ stamp fs p = stamp fs' p'.
Proof.
  unfold buildFileHash, stamp.
  destruct (Fs.path_exists fs p), (Fs.path_exists fs' p'); split; try done.
  - intros H. f_equal. by apply (inj pretty).
  - by intros [= ->].
  - intros H. by destruct (show_Z_not_empty (Fs.lastWriteTime fs p)).
  - intros H. symmetry in H. by destruct (show_Z_not_empty (Fs.lastWriteTime fs' p')).
Qed.

Lemma stamp_lookup (fs fs' : FileSystem) (p : FilePath) :
  fs' !! p = fs !! p → stamp fs' p = stamp fs p.
Proof. unfold stamp, Fs.path_exists, Fs.lastWriteTime. by intros ->. Qed.

Lemma packageBuildFileHash_stamps (h : Host) (s : Session) :
  fst (packageBuildFileHash h s) =
  buildFileHash (files s) (descriptionFile h) +:+
  (if Fs.path_exists (files s) (packageSrcDir h)
   then buildFileHash (files s) (makevarsFile h) +:+
        buildFileHash (files s) (makevarsWinFile h)
   else "").
Proof. reflexivity. Qed.

Lemma packageBuildFileHash_same (h : Host) (s s' : Session) :
  stamp (files s') (descriptionFile h) = stamp (files s) (descriptionFile h) →
  Fs.path_exists (files s') (packageSrcDir h) =
    Fs.path_exists (files s) (packageSrcDir h) →
  stamp (files s') (makevarsFile h) = stamp (files s) (makevarsFile h) →
  stamp (files s') (makevarsWinFile h) = stamp (files s) (makevarsWinFile h) →
  fst (packageBuildFileHash h s') = fst (packageBuildFileHash h s).
Proof.
  intros Hd Hsrc Hm Hw. rewrite !packageBuildFileHash_stamps, Hsrc.
  apply buildFileHash_stamp in Hd as ->. apply buildFileHash_stamp in Hm as ->.
  by apply buildFileHash_stamp in Hw as ->.
Qed.

(** X9: the fingerprint of the package reads nothing but the stamps of
    [DESCRIPTION], [src/Makevars] and [src/Makevars.win] and whether [src]
    exists: two states of the disk that agree on these have the same
    fingerprint, whatever else differs. *)
Theorem package_fingerprint_reads_stamps (h : Host) (s s' : Session) :
  stamp (files s') (descriptionFile h) = stamp (files s) (descriptionFile h) →
  Fs.path_exists (files s') (packageSrcDir h) =
    Fs.path_exists (files s) (packageSrcDir h) →
  stamp (files s') (makevarsFile h) = stamp (files s) (makevarsFile h) →
  stamp (files s') (makevarsWinFile h) = stamp (files s) (makevarsWinFile h) →
  fst (packageBuildFileHash h s') = fst (packageBuildFileHash h s).
Proof. apply packageBuildFileHash_same. Qed.

Lemma package_fingerprint_reads_stamps_witness :
  fst (packageBuildFileHash Example.working
         (Scene.touch ["home"; "u"; "pkg"; "src"; "a.cpp"] "int b;" 40
            (Example.fresh Example.withRcpp))) =
  fst (packageBuildFileHash Example.working (Example.fresh Example.withRcpp)).
Proof.
  apply (package_fingerprint_reads_stamps Example.working
           (Example.fresh Example.withRcpp)
           (Scene.touch ["home"; "u"; "pkg"; "src"; "a.cpp"] "int b;" 40
              (Example.fresh Example.withRcpp)));
    vm_compute; reflexivity.
Defined.

Lemma buildFiles_distinct (h : Host) :
  descriptionFile h ≠ makevarsFile h ∧ descriptionFile h ≠ makevarsWinFile h ∧
  makevarsFile h ≠ makevarsWinFile h.
Proof.
  unfold descriptionFile, makevarsFile, makevarsWinFile, packageSrcDir,
    FilePath.childPath.
  change (FilePath.components "DESCRIPTION") with ["DESCRIPTION"].
  change (FilePath.components "src") with ["src"].
  change (FilePath.components "Makevars") with ["Makevars"].
  change (FilePath.components "Makevars.win") with ["Makevars.win"].
  rewrite <- !(assoc_L (++)).
  repeat split; intros H%(inj (app _)); discriminate.
Qed.

(** X10: a change of the stamp of one of the three build files, the other
    two and the existence of [src] being as they were, changes the
    fingerprint (for the two files of [src], when [src] exists). *)
Theorem package_fingerprint_detects_change (h : Host) (s s' : Session) (p : FilePath) :
  p ∈ [descriptionFile h; makevarsFile h; makevarsWinFile h] →
  (∀ q, q ∈ [descriptionFile h; makevarsFile h; makevarsWinFile h] → q ≠ p →
        stamp (files s') q = stamp (files s) q) →
  Fs.path_exists (files s') (packageSrcDir h) =
    Fs.path_exists (files s) (packageSrcDir h) →
  (p ≠ descriptionFile h → Fs.path_exists (files s) (packageSrcDir h) = true) →
  stamp (files s') p ≠ stamp (files s) p →
  fst (packageBuildFileHash h s') ≠ fst (packageBuildFileHash h s).
Proof.
  intros Hp Hsame Hsrc Hthere Hstamp. rewrite !packageBuildFileHash_stamps, Hsrc.
  assert (buildFileHash (files s') p ≠ buildFileHash (files s) p) as Hchanged
    by (by rewrite buildFileHash_stamp).
  assert (∀ q, q ∈ [descriptionFile h; makevarsFile h; makevarsWinFile h] → q ≠ p →
               buildFileHash (files s') q = buildFileHash (files s) q) as Hhash.
  { intros q Hq Hne. by apply buildFileHash_stamp, Hsame. }
  destruct (buildFiles_distinct h) as (Hdm & Hdw & Hmw).
  apply elem_of_cons in Hp as [->|Hp]; [|apply elem_of_cons in Hp as [->|Hp];
    [|apply list_elem_of_singleton in Hp as ->]].
  - rewrite (Hhash (makevarsFile h)), (Hhash (makevarsWinFile h))
      by (first [congruence|repeat constructor]).
    by intros H%string_app_inv_tail.
  - rewrite Hthere by done.
    rewrite (Hhash (descriptionFile h)), (Hhash (makevarsWinFile h))
      by (first [congruence|repeat constructor]).
    by intros H%string_app_inv_head%string_app_inv_tail.
  - rewrite Hthere by done.
    rewrite (Hhash (descriptionFile h)), (Hhash (makevarsFile h))
      by (first [congruence|repeat constructor]).
    by intros H%string_app_inv_head%string_app_inv_head.
Qed.

Lemma package_fingerprint_detects_change_witness :
  stamp (files (Scene.touch Scene.description "Package: pkg" 20
                  (Example.fresh Example.withRcpp)))
        (descriptionFile Example.working) = Some 20%Z ∧
  stamp (files (Example.fresh Example.withRcpp)) (descriptionFile Example.working) =
    Some 10%Z ∧
  fst (packageBuildFileHash Example.working
         (Scene.touch Scene.description "Package: pkg" 20
            (Example.fresh Example.withRcpp))) ≠
  fst (packageBuildFileHash Example.working (Example.fresh Example.withRcpp)).
Proof.
  split; [vm_compute; reflexivity|]. split; [vm_compute; reflexivity|].
  apply (package_fingerprint_detects_change Example.working
           (Example.fresh Example.withRcpp) _ (descriptionFile Example.working)).
  - left.
  - intros q Hq Hne.
    apply elem_of_cons in Hq as [->|Hq]; [done|].
    repeat (apply elem_of_cons in Hq as [->|Hq]; [vm_compute; reflexivity|]).
    by apply elem_of_nil in Hq.
  - vm_compute. reflexivity.
  - done.
  - vm_compute. discriminate.
Defined.

(** X11: the fingerprint is the three stamps one behind the other, so it
    does not tell which of [Makevars] and [Makevars.win] a stamp belongs to:
    when [Makevars] is replaced by a [Makevars.win] of the same time, the
    fingerprint stays what it was, and an update whose cache holds it does
    nothing. *)
Theorem package_fingerprint_confuses_Makevars (h : Host) (s s' : Session) (t : Z) :
  stamp (files s) (makevarsFile h) = Some t →
  stamp (files s) (makevarsWinFile h) = None →
  stamp (files s') (makevarsFile h) = None →
  stamp (files s') (makevarsWinFile h) = Some t →
  stamp (files s') (descriptionFile h) = stamp (files s) (descriptionFile h) →
  Fs.path_exists (files s') (packageSrcDir h) =
    Fs.path_exists (files s) (packageSrcDir h) →
  fst (packageBuildFileHash h s') = fst (packageBuildFileHash h s) ∧
  (packageBuildFileHash_ (this s') = fst (packageBuildFileHash h s) →
     updateForCurrentPackage h s' = (tt, s')).
Proof.
  intros Hm Hw Hm' Hw' Hd Hsrc.
  assert (fst (packageBuildFileHash h s') = fst (packageBuildFileHash h s)) as Hsame.
  { rewrite !packageBuildFileHash_stamps, Hsrc.
    apply buildFileHash_stamp in Hd as ->.
    assert (buildFileHash (files s') (makevarsFile h) = "") as ->.
    { unfold buildFileHash. unfold stamp in Hm'. by destruct (Fs.path_exists _ _). }
    assert (buildFileHash (files s) (makevarsWinFile h) = "") as ->.
    { unfold buildFileHash. unfold stamp in Hw. by destruct (Fs.path_exists _ _). }
    assert (buildFileHash (files s') (makevarsWinFile h) =
            buildFileHash (files s) (makevarsFile h)) as ->.
    { apply buildFileHash_stamp. by rewrite Hw', Hm. }
    by rewrite string_app_nil_r. }
  split; [done|]. intros Hcached. apply updateForCurrentPackage_hit.
  by rewrite Hsame.
Qed.

Lemma package_fingerprint_confuses_Makevars_witness :
  updateForCurrentPackage Example.working
    (Scene.touch Scene.makevarsWin "PKG_CPPFLAGS = -DY" 30
       (Scene.unlink Scene.makevars Scene.resolvedWithMakevars)) =
  (tt, Scene.touch Scene.makevarsWin "PKG_CPPFLAGS = -DY" 30
         (Scene.unlink Scene.makevars Scene.resolvedWithMakevars)).
Proof.
  apply (package_fingerprint_confuses_Makevars Example.working
           Scene.resolvedWithMakevars
           (Scene.touch Scene.makevarsWin "PKG_CPPFLAGS = -DY" 30
              (Scene.unlink Scene.makevars Scene.resolvedWithMakevars))
           30); vm_compute; reflexivity.
Defined.

(** *** The probe file is apart from the build files *)

Lemma split_any_no_separator (seps cur s : string) :
  all_chars (fun c => negb (contains seps (String c ""))) s = true →
  split_any seps cur s = [String.rev_app cur s].
Proof.
  revert cur. induction s as [|c s IH]; intros cur; cbn [all_chars split_any].
  - done.
  - intros [Hc Hs]%andb_true_iff. apply negb_true_iff in Hc. rewrite Hc.
    by rewrite IH.
Qed.

Lemma rev_app_app (cur s t : string) :
  String.rev_app cur (s +:+ t) = String.rev_app cur s +:+ t.
Proof.
  revert s. induction cur as [|d cur IH]; intros s; cbn [String.rev_app]; [done|].
  apply (IH (String d s)).
Qed.

(** The last piece of a text that ends with [tail], where [tail] has no
    separator, ends with [tail]. *)
Lemma split_any_tail (seps cur x tail : string) :
  all_chars (fun c => negb (contains seps (String c ""))) tail = true →
  ∃ init w, split_any seps cur (x +:+ tail) = init ++ [w +:+ tail].
Proof.
  intros Htail. revert cur. induction x as [|c x IH]; intros cur; sapp.
  - exists [], (String.rev_app cur "").
    by rewrite split_any_no_separator, <- rev_app_app.
  - cbn [split_any]. destruct (contains seps (String c "")).
    + destruct (IH "") as (init & w & ->). by exists (String.rev cur :: init), w.
    + apply IH.
Qed.

Lemma components_cpp (x : string) :
  ∃ init w, FilePath.components (x +:+ ".cpp") = init ++ [w +:+ ".cpp"].
Proof.
  unfold FilePath.components, split.
  destruct (split_any_tail "/" "" x ".cpp") as (init & w & ->); [done|].
  rewrite List.filter_app. cbn [List.filter].
  assert ((w +:+ ".cpp" =? "")%string = false) as ->.
  { apply String.eqb_neq. intros H%(f_equal String.length).
    rewrite string_length_app in H. cbn in H. lia. }
  by eexists _, _.
Qed.

Lemma cpp_name_apart (init : list string) (w name : string) :
  (∀ v, name ≠ v +:+ ".cpp") → init ++ [w +:+ ".cpp"] `prefix_of` [name] → False.
Proof.
  intros Hno [rest' H]. destruct init as [|i init].
  - injection H as H _. by apply (Hno w).
  - injection H as _ H. by destruct init.
Qed.

Ltac not_cpp v H :=
  repeat (destruct v as [|? v];
          [by vm_compute in H
          |rewrite string_app_cons in H; first [discriminate H|injection H as _ H]]).

(** Neither the probe file nor anything above it is a build file. *)
Lemma packageTempSrcFile_apart (h : Host) (p : FilePath) :
  p ∈ buildFiles h → ¬ packageTempSrcFile h `prefix_of` p.
Proof.
  unfold packageTempSrcFile, FilePath.childPath at 1.
  destruct (components_cpp (generateUuid h)) as (init & w & ->).
  unfold buildFiles, descriptionFile, makevarsFile, makevarsWinFile, packageSrcDir,
    FilePath.childPath.
  change (FilePath.components "DESCRIPTION") with ["DESCRIPTION"].
  change (FilePath.components "src") with ["src"].
  change (FilePath.components "Makevars") with ["Makevars"].
  change (FilePath.components "Makevars.win") with ["Makevars.win"].
  intros Hp Hpre.
  repeat (apply elem_of_cons in Hp as [->|Hp]).
  - rewrite <- !(assoc_L (++)) in Hpre. apply prefix_app_inv in Hpre.
    destruct Hpre as [rest [=]].
  - rewrite <- (app_nil_r (_ ++ ["src"])) in Hpre at 2.
    apply prefix_app_inv in Hpre. destruct Hpre as [rest H]. by destruct init.
  - apply prefix_app_inv in Hpre. eapply cpp_name_apart; [|exact Hpre].
    intros v H. not_cpp v H.
  - apply prefix_app_inv in Hpre. eapply cpp_name_apart; [|exact Hpre].
    intros v H. not_cpp v H.
  - by apply elem_of_nil in Hp.
Qed.

Lemma argsForRCmdSHLIB_lookup (h : Host) env (tmp p : FilePath) (s : Session) :
  ¬ tmp `prefix_of` p →
  files (snd (argsForRCmdSHLIB h env tmp s)) !! p = files s !! p.
Proof.
  intros Hp. rewrite argsForRCmdSHLIB_run.
  destruct (canWrite h tmp); [|done]. cbn [snd files].
  assert (p ≠ tmp) as Hne by (by intros ->).
  assert (Fs.write (files s) tmp ("void foo() {}" +:+ String "010" "") (now h) !! p =
          files s !! p) as Hwrite.
  { unfold Fs.write. by rewrite lookup_insert_ne. }
  destruct (canRemove h tmp); [|done].
  apply option_eq. intros n. rewrite lookup_remove_all, Hwrite. tauto.
Qed.

Lemma argsForRCmdSHLIB_this (h : Host) env (tmp : FilePath) (s : Session) :
  this (snd (argsForRCmdSHLIB h env tmp s)) = this s.
Proof. rewrite argsForRCmdSHLIB_run. by destruct (canWrite h tmp). Qed.

(** [updateForCurrentPackage], step by step. *)
Lemma updateForCurrentPackage_run (h : Host) (s : Session) :
  updateForCurrentPackage h s =
  (tt,
   if String.eqb (fst (packageBuildFileHash h s)) (packageBuildFileHash_ (this s))
   then s
   else match readPackageInfo h (buildTargetPath h) with
        | None => s
        | Some pkgInfo =>
            let r := argsForRCmdSHLIB h (packageEnvironment h pkgInfo)
                       (packageTempSrcFile h) s in
            match fst r with
            | [] => snd r
            | flags =>
                {| this :=
                     {| packageBuildFileHash_ := fst (packageBuildFileHash h s);
                        packageSrcArgs_ :=
                          packageBaseArgs h pkgInfo ++
                          map (substitutePaths (packageSrcDir h)) flags;
                        packagePCH_ := packagePCH h (linkingTo pkgInfo);
                        sourceCppHashes_ := sourceCppHashes_ (this s);
                        sourceCppArgsMap_ := sourceCppArgsMap_ (this s) |};
                   files := files (snd r);
                   spawned := spawned (snd r) |}
            end
        end).
Proof.
  unfold updateForCurrentPackage.
  unfold bind at 1. rewrite packageBuildFileHash_pure.
  unfold bind at 1, getThis.
  destruct (String.eqb _ _); [by unfold ret|].
  destruct (readPackageInfo h (buildTargetPath h)) as [pkgInfo|]; [|by unfold ret].
  unfold bind at 1. cbn zeta.
  pose proof (argsForRCmdSHLIB_this h (packageEnvironment h pkgInfo)
                (packageTempSrcFile h) s) as Hthis.
  destruct (argsForRCmdSHLIB h _ _ s) as [[|arg args] s1]; cbn [fst snd] in *.
  - by unfold ret.
  - monad. by rewrite Hthis.
Qed.

Lemma updateForCurrentPackage_files (h : Host) (s : Session) :
  files (snd (updateForCurrentPackage h s)) = files s ∨
  ∃ pkgInfo,
    files (snd (updateForCurrentPackage h s)) =
    files (snd (argsForRCmdSHLIB h (packageEnvironment h pkgInfo)
                  (packageTempSrcFile h) s)).
Proof.
  rewrite updateForCurrentPackage_run. cbn [snd].
  destruct (String.eqb _ _); [by left|].
  destruct (readPackageInfo h (buildTargetPath h)) as [pkgInfo|]; [|by left].
  right. exists pkgInfo. cbn zeta.
  by destruct (argsForRCmdSHLIB h _ _ s) as [[|arg args] s1].
Qed.

Lemma updateForCurrentPackage_keeps_fingerprint (h : Host) (s : Session) :
  fst (packageBuildFileHash h (snd (updateForCurrentPackage h s))) =
  fst (packageBuildFileHash h s).
Proof.
  assert (∀ p, p ∈ buildFiles h →
               files (snd (updateForCurrentPackage h s)) !! p = files s !! p) as Hsame.
  { intros p Hp.
    destruct (updateForCurrentPackage_files h s) as [->|[pkgInfo ->]]; [done|].
    by apply argsForRCmdSHLIB_lookup, packageTempSrcFile_apart. }
  apply packageBuildFileHash_same.
  - apply stamp_lookup, Hsame. unfold buildFiles. repeat constructor.
  - unfold Fs.path_exists. rewrite Hsame; [done|]. unfold buildFiles. repeat constructor.
  - apply stamp_lookup, Hsame. unfold buildFiles. repeat constructor.
  - apply stamp_lookup, Hsame. unfold buildFiles. repeat constructor.
Qed.

(** X12: a package resolution never changes the fingerprint of the build
    files (the probe file it writes and removes is none of them), so after a
    resolution that succeeds the cache holds the fingerprint of the disk and
    the next update does nothing. *)
Theorem package_resolution_settles (h : Host) (s : Session)
    (pkgInfo : RPackageInfo) (flags : list string) :
  packageResolutionSucceeds h pkgInfo flags →
  let s1 := snd (updateForCurrentPackage h s) in
  fst (packageBuildFileHash h s1) = fst (packageBuildFileHash h s) ∧
  packageBuildFileHash_ (this s1) = fst (packageBuildFileHash h s1) ∧
  updateForCurrentPackage h s1 = (tt, s1).
Proof.
  intros Hok s1.
  assert (packageBuildFileHash_ (this s1) = fst (packageBuildFileHash h s1)) as Hhit.
  { unfold s1. rewrite updateForCurrentPackage_keeps_fingerprint.
    destruct (decide (fst (packageBuildFileHash h s) = packageBuildFileHash_ (this s)))
      as [Hsame|Hstale].
    - by rewrite updateForCurrentPackage_hit.
    - by destruct (updateForCurrentPackage_succeeds h s pkgInfo flags Hstale Hok)
        as (-> & _). }
  split; [apply updateForCurrentPackage_keeps_fingerprint|].
  split; [done|]. by apply updateForCurrentPackage_hit.
Qed.

Lemma package_resolution_settles_witness :
  updateForCurrentPackage Example.working
    (snd (updateForCurrentPackage Example.working (Example.fresh Example.plainCpp))) =
  (tt, snd (updateForCurrentPackage Example.working (Example.fresh Example.plainCpp))).
Proof.
  apply (package_resolution_settles Example.working (Example.fresh Example.plainCpp)
           {| linkingTo := "Rcpp"; systemRequirements := "" |}
           ["-I/usr/share/R/include"; "-DNDEBUG"; "-I../inst/include"; "-I."; "-fpic"]).
  vm_compute. repeat split. discriminate.
Defined.

(** ** The two caches, step by step *)

(** [updateForSourceCpp], step by step. *)
Lemma updateForSourceCpp_run (h : Host) (srcFile : FilePath) (s : Session) :
  let hash := fst (sourceCppHash srcFile s) in
  let filename := FilePath.absolutePath srcFile in
  updateForSourceCpp h srcFile s =
  (tt,
   if bool_decide (sourceCppHashes_ (this s) !! filename = Some hash) then s
   else if String.eqb hash "" then s
   else {| this := match sourceCppArgsOfRun h srcFile with
                   | [] => this s
                   | args => withSourceCppEntry (this s) filename hash args
                   end;
           files := files s;
           spawned := spawned s ++ sourceCppInvocations h srcFile |}).
Proof.
  intros hash filename. unfold updateForSourceCpp.
  unfold bind at 1. rewrite sourceCppHash_pure. fold hash.
  unfold bind at 1, getThis. fold filename. clearbody hash filename.
  destruct (bool_decide _); [by unfold ret|].
  destruct (String.eqb hash ""); [by unfold ret|].
  unfold bind at 1. rewrite argsForSourceCpp_run. fold (sourceCppArgsOfRun h srcFile).
  by destruct (sourceCppArgsOfRun h srcFile); monad.
Qed.

Lemma sourceCppHash_files (srcFile : FilePath) (s s' : Session) :
  files s' = files s → fst (sourceCppHash srcFile s') = fst (sourceCppHash srcFile s).
Proof.
  unfold sourceCppHash, bind, getFiles. intros ->.
  by destruct (Fs.readStringFromFile (files s) srcFile).
Qed.

(** X13: a standalone resolution that gives at least one argument stores the
    arguments and the fingerprint under the absolute path of the file and
    leaves the disk alone; the next update for the file, with whatever host,
    finds the fingerprint and does nothing. *)
Theorem sourceCpp_resolution_settles (h h' : Host) (srcFile : FilePath) (s : Session)
    (args : list string) :
  let hash := fst (sourceCppHash srcFile s) in
  let filename := FilePath.absolutePath srcFile in
  let s1 := snd (updateForSourceCpp h srcFile s) in
  hash ≠ "" →
  sourceCppHashes_ (this s) !! filename ≠ Some hash →
  sourceCppArgsOfRun h srcFile = args → args ≠ [] →
  this s1 = withSourceCppEntry (this s) filename hash args ∧
  files s1 = files s ∧
  spawned s1 = spawned s ++ sourceCppInvocations h srcFile ∧
  updateForSourceCpp h' srcFile s1 = (tt, s1).
Proof.
  intros hash filename s1 Hhash Hstale Hargs Hne.
  assert (s1 = {| this := withSourceCppEntry (this s) filename hash args;
                  files := files s;
                  spawned := spawned s ++ sourceCppInvocations h srcFile |}) as Hs1.
  { unfold s1. rewrite updateForSourceCpp_run. fold hash filename. cbn [snd].
    rewrite bool_decide_eq_false_2 by done.
    apply String.eqb_neq in Hhash as ->. rewrite Hargs. by destruct args. }
  rewrite Hs1. cbn [this files spawned]. repeat split.
  rewrite updateForSourceCpp_run. cbn [this withSourceCppEntry sourceCppHashes_].
  rewrite (sourceCppHash_files srcFile s) by done. fold hash filename.
  by rewrite lookup_insert_eq, bool_decide_eq_true_2.
Qed.

Lemma sourceCpp_resolution_settles_witness :
  updateForSourceCpp Example.brokenBuild Example.fooCpp
    (snd (updateForSourceCpp Example.working Example.fooCpp
            (Example.fresh Example.withExport))) =
  (tt, snd (updateForSourceCpp Example.working Example.fooCpp
              (Example.fresh Example.withExport))).
Proof.
  apply (sourceCpp_resolution_settles Example.working Example.brokenBuild Example.fooCpp
           (Example.fresh Example.withExport)
           ["-I/opt/clang/include"; "-I/usr/share/R/include"; "-DNDEBUG"; "-fpic"]).
  - vm_compute. discriminate.
  - vm_compute. discriminate.
  - vm_compute. reflexivity.
  - discriminate.
Defined.

Lemma updateForCurrentPackage_this (h : Host) (s : Session) :
  this (snd (updateForCurrentPackage h s)) = this s ∨
  ∃ hash args pch, args ≠ [] ∧
    this (snd (updateForCurrentPackage h s)) =
      {| packageBuildFileHash_ := hash;
         packageSrcArgs_ := args;
         packagePCH_ := pch;
         sourceCppHashes_ := sourceCppHashes_ (this s);
         sourceCppArgsMap_ := sourceCppArgsMap_ (this s) |}.
Proof.
  rewrite updateForCurrentPackage_run. cbn [snd].
  destruct (String.eqb _ _); [by left|].
  destruct (readPackageInfo h (buildTargetPath h)) as [pkgInfo|]; [|by left].
  cbn zeta.
  pose proof (argsForRCmdSHLIB_this h (packageEnvironment h pkgInfo)
                (packageTempSrcFile h) s) as Hthis.
  destruct (argsForRCmdSHLIB h _ _ s) as [[|arg args] s1]; cbn [fst snd] in *.
  - by left.
  - right. cbn [this]. eexists _, _, _. split; [|done].
    by destruct (packageBaseArgs h pkgInfo).
Qed.

Lemma writeStringToFile_this (h : Host) (p : FilePath) (c : string) (s : Session) :
  this (snd (writeStringToFile h p c s)) = this s.
Proof. unfold writeStringToFile. monad. by destruct (canWrite h p). Qed.

Lemma ensurePlatformPath_this (h : Host) (root platformPath : FilePath) (s : Session) :
  this (snd (ensurePlatformPath h root platformPath s)) = this s.
Proof.
  unfold ensurePlatformPath, removeIfExists, removePath, ensureDirectory. monad.
  destruct (Fs.path_exists (files s) platformPath); [done|]. cbn [negb].
  destruct (Fs.path_exists (files s) root); [destruct (canRemove h root)|]; cbn;
    repeat (destruct (Fs.path_exists _ _) || destruct (canCreateDirectory _ _)); done.
Qed.

Lemma createPrecompiledHeader_this (h : Host) (pkgName stdArg : string)
    (platformPath pchPath : FilePath) (s : Session) :
  this (snd (createPrecompiledHeader h pkgName stdArg platformPath pchPath s)) = this s.
Proof.
  unfold createPrecompiledHeader. unfold bind at 1.
  pose proof (writeStringToFile_this h
    (FilePath.childPath platformPath (pkgName +:+ stdArg +:+ ".cpp"))
    ("#include <" +:+ pkgName +:+ ".h>" +:+ String "010" "") s) as Hw.
  destruct (writeStringToFile h _ _ s) as [[] s1]; cbn [snd negb] in *; [|done].
  unfold bind at 1.
  pose proof (argsForRCmdSHLIB_this h (compilationEnvironment h) (tempFile h) s1) as Hr.
  destruct (argsForRCmdSHLIB h _ _ s1) as [cArgs s2]; cbn [snd] in *.
  destruct (clang_parseTranslationUnit h _ _); cbn [negb];
    [|unfold ret; cbn; congruence].
  monad. destruct (Z.eqb _ _); cbn; congruence.
Qed.

Lemma precompiledHeaderArgs_this (h : Host) (pkgName stdArg : string) (s : Session) :
  this (snd (precompiledHeaderArgs h pkgName stdArg s)) = this s.
Proof.
  unfold precompiledHeaderArgs.
  destruct (rs_clangPCHPath h pkgName (clang_version h)) as [platformDir|]; [|done].
  unfold bind at 1.
  pose proof (ensurePlatformPath_this h (precompiledDirFor h pkgName)
    (FilePath.childPath (precompiledDirFor h pkgName) platformDir) s) as He.
  destruct (ensurePlatformPath h _ _ s) as [[] s1]; cbn [snd negb] in *; [|done].
  unfold bind at 1, getFiles. unfold bind at 1.
  destruct (Fs.path_exists (files s1) _); cbn [negb].
  - by unfold ret.
  - pose proof (createPrecompiledHeader_this h pkgName stdArg
      (FilePath.childPath (precompiledDirFor h pkgName) platformDir)
      (FilePath.childPath (FilePath.childPath (precompiledDirFor h pkgName) platformDir)
         (pkgName +:+ stdArg +:+ ".pch")) s1) as Hc.
    destruct (createPrecompiledHeader h _ _ _ _ s1) as [[] s2]; cbn [snd negb] in *;
      unfold ret; cbn; congruence.
Qed.

(** [compileArgsForTranslationUnit], step by step. *)
Lemma compileArgs_steps (h : Host) (filename : string) (s : Session) :
  compileArgsForTranslationUnit h filename s =
  let filePath := FilePath.of_string filename in
  let found := cachedArgsForTranslationUnit h filePath s in
  let args := fst (fst found) in
  let pch := snd (fst found) in
  match args with
  | [] => ([], snd found)
  | _ => if negb (String.eqb pch "") && isCppFile filePath
         then let made := precompiledHeaderArgs h pch (extractStdArg args) (snd found) in
              (args ++ fst made, snd made)
         else (args, snd found)
  end.
Proof.
  unfold compileArgsForTranslationUnit. unfold bind at 1. cbn zeta.
  destruct (cachedArgsForTranslationUnit h _ s) as [[args pch] s1]. cbn [fst snd].
  destruct args as [|arg args]; [done|].
  destruct (negb (String.eqb pch "")); cbn [andb]; [|done].
  destruct (isCppFile _); [|done]. unfold bind, ret.
  by destruct (precompiledHeaderArgs h pch _ s1).
Qed.

Lemma compileArgs_this (h : Host) (filename : string) (s : Session) :
  this (snd (compileArgsForTranslationUnit h filename s)) =
  this (snd (cachedArgsForTranslationUnit h (FilePath.of_string filename) s)).
Proof.
  rewrite compileArgs_steps. cbn zeta.
  destruct (cachedArgsForTranslationUnit h _ s) as [[args pch] s1]. cbn [fst snd].
  destruct args as [|arg args]; [done|].
  destruct (negb (String.eqb pch "") && isCppFile _); [|done].
  apply precompiledHeaderArgs_this.
Qed.

Lemma cachedArgs_this (h : Host) (filePath : FilePath) (s : Session) :
  this (snd (cachedArgsForTranslationUnit h filePath s)) =
  if isPackageSource h filePath
  then this (snd (updateForCurrentPackage h s))
  else this (snd (updateForSourceCpp h filePath s)).
Proof.
  destruct (isPackageSource h filePath) eqn:Hpkg.
  - by rewrite cachedArgs_package.
  - by rewrite cachedArgs_sourceCpp.
Qed.

(** *** What the database keeps *)

Lemma wellFormed_empty : wellFormed emptyDatabase.
Proof.
  repeat split; cbn; try done.
  - by intros [? H]; rewrite lookup_empty in H.
  - by intros [? H]; rewrite lookup_empty in H.
Qed.

Lemma wellFormed_package (h : Host) (s : Session) :
  wellFormed (this s) → wellFormed (this (snd (updateForCurrentPackage h s))).
Proof.
  intros Hwf.
  destruct (updateForCurrentPackage_this h s) as [->|(hash & args & pch & Hne & ->)];
    [done|].
  destruct Hwf as (Hkeys & Hhash & Hargs & _).
  split; [exact Hkeys|]. split; [exact Hhash|]. split; [exact Hargs|].
  by intros ?.
Qed.

Lemma wellFormed_sourceCpp (h : Host) (srcFile : FilePath) (s : Session) :
  wellFormed (this s) → wellFormed (this (snd (updateForSourceCpp h srcFile s))).
Proof.
  intros Hwf. rewrite updateForSourceCpp_run. cbn [snd].
  destruct (bool_decide _); [done|].
  destruct (String.eqb _ "") eqn:Hhash; [done|]. cbn [this].
  destruct (sourceCppArgsOfRun h srcFile) as [|arg args]; [done|].
  apply String.eqb_neq in Hhash.
  destruct Hwf as (Hkeys & Hhashes & Hargs & Hpkg).
  unfold wellFormed, withSourceCppEntry. cbn. repeat split; try done.
  - destruct (decide (k = FilePath.absolutePath srcFile)) as [->|Hk].
    + by rewrite !lookup_insert_eq.
    + rewrite !lookup_insert_ne by done. apply Hkeys.
  - destruct (decide (k = FilePath.absolutePath srcFile)) as [->|Hk].
    + by rewrite !lookup_insert_eq.
    + rewrite !lookup_insert_ne by done. apply Hkeys.
  - intros k hash. destruct (decide (k = FilePath.absolutePath srcFile)) as [->|Hk].
    + rewrite lookup_insert_eq. by intros [= <-].
    + rewrite lookup_insert_ne by done. apply Hhashes.
  - intros k args'. destruct (decide (k = FilePath.absolutePath srcFile)) as [->|Hk].
    + rewrite lookup_insert_eq. by intros [= <-].
    + rewrite lookup_insert_ne by done. apply Hargs.
  - by apply Hpkg.
  - by apply Hpkg.
Qed.

(** X14: the database of a fresh session is well formed, and the resolver
    keeps it so: the two standalone maps have the same keys, no stored
    fingerprint and no stored argument list is empty, and the package cache
    is blank as long as it has no arguments. *)
Theorem database_well_formed (h : Host) (filename : string) (s : Session) :
  wellFormed emptyDatabase ∧
  (wellFormed (this s) →
     wellFormed (this (snd (compileArgsForTranslationUnit h filename s)))).
Proof.
  split; [apply wellFormed_empty|]. intros Hwf.
  rewrite compileArgs_this, cachedArgs_this.
  destruct (isPackageSource h _);
    [by apply wellFormed_package|by apply wellFormed_sourceCpp].
Qed.

Lemma database_well_formed_witness :
  wellFormed (this (snd (compileArgsForTranslationUnit Example.working "/home/u/foo.cpp"
                           (Example.fresh Example.withRcpp)))).
Proof.
  apply (database_well_formed Example.working "/home/u/foo.cpp"
           (Example.fresh Example.withRcpp)).
  apply (database_well_formed Example.working "/home/u/foo.cpp"
           (Example.fresh Example.withRcpp)).
Defined.

(** X15: the caches do not disturb each other.  An update of the package
    leaves the two standalone maps as they are; an update for a standalone
    file leaves the package cache, the disk and the entries of all other
    files as they are; the making of a precompiled header leaves the whole
    database as it is. *)
Theorem caches_are_independent (h : Host) (srcFile : FilePath) (pkgName stdArg : string)
    (s : Session) :
  (sourceCppHashes_ (this (snd (updateForCurrentPackage h s))) =
     sourceCppHashes_ (this s) ∧
   sourceCppArgsMap_ (this (snd (updateForCurrentPackage h s))) =
     sourceCppArgsMap_ (this s)) ∧
  (let s1 := snd (updateForSourceCpp h srcFile s) in
   packageBuildFileHash_ (this s1) = packageBuildFileHash_ (this s) ∧
   packageSrcArgs_ (this s1) = packageSrcArgs_ (this s) ∧
   packagePCH_ (this s1) = packagePCH_ (this s) ∧
   files s1 = files s ∧
   ∀ k, k ≠ FilePath.absolutePath srcFile →
        sourceCppHashes_ (this s1) !! k = sourceCppHashes_ (this s) !! k ∧
        sourceCppArgsMap_ (this s1) !! k = sourceCppArgsMap_ (this s) !! k) ∧
  this (snd (precompiledHeaderArgs h pkgName stdArg s)) = this s.
Proof.
  split; [|split; [|apply precompiledHeaderArgs_this]].
  - by destruct (updateForCurrentPackage_this h s)
      as [->|(hash & args & pch & _ & ->)].
  - intros s1. unfold s1. rewrite updateForSourceCpp_run. cbn [snd].
    destruct (bool_decide _); [done|]. destruct (String.eqb _ ""); [done|].
    cbn [this files]. destruct (sourceCppArgsOfRun h srcFile) as [|arg args]; [done|].
    cbn. repeat split; try done; by rewrite lookup_insert_ne.
Qed.

(** ** The processes the database starts *)

Lemma getenv_setenv (env : list (string * string)) (name value : string) :
  getenv (setenv env name value) name = Some value.
Proof.
  unfold getenv. induction env as [|[n v] env IH]; cbn [setenv List.find fst].
  - by rewrite String.eqb_refl.
  - destruct (String.eqb n name) eqn:Hn; cbn [List.find fst].
    + by rewrite String.eqb_refl.
    + by rewrite Hn.
Qed.

Lemma sourceCppCommand_dry_run (h : Host) env (srcPath : FilePath) exe args options :
  sourceCppCommand h env srcPath = Some (exe, args, options) →
  isDryRun (RunProgram exe args options).
Proof.
  unfold sourceCppCommand. destruct (rScriptPath h) as [rScript|]; [|done].
  destruct (packratModeOn h), (rcppSupportsDryRun h); intros [= <- <- <-];
    cbn [isDryRun environment].
  - left. eexists. cbn [app List.last]. rewrite <- !string_app_assoc.
    rewrite (string_app_assoc _ ", dryRun = TRUE" ")"). reflexivity.
  - right. apply getenv_setenv.
  - left. eexists. cbn [app List.last]. rewrite <- !string_app_assoc.
    rewrite (string_app_assoc _ ", dryRun = TRUE" ")"). reflexivity.
  - right. apply getenv_setenv.
Qed.

Lemma sourceCppInvocations_dry_run (h : Host) (srcPath : FilePath) :
  Forall isDryRun (sourceCppInvocations h srcPath).
Proof.
  unfold sourceCppInvocations.
  destruct (sourceCppCommand h _ srcPath) as [[[exe args] options]|] eqn:Hcmd;
    [|constructor].
  constructor; [|constructor]. by eapply sourceCppCommand_dry_run.
Qed.

Lemma rCmdSHLIBInvocations_dry_run (h : Host) env (srcPath : FilePath) :
  Forall isDryRun (rCmdSHLIBInvocations h env srcPath).
Proof.
  unfold rCmdSHLIBInvocations, rCmdSHLIBCommand.
  destruct (rBinDir h); [|constructor].
  constructor; [|constructor]. cbn [isDryRun]. by do 2 constructor.
Qed.

Lemma startsDryRuns_none (n : nat) (s s1 : Session) :
  spawned s1 = spawned s → startsDryRuns n s s1.
Proof.
  intros H. exists []. rewrite app_nil_r.
  repeat split; [done|constructor|simpl; lia].
Qed.

Lemma startsDryRuns_trans (n m : nat) (s s1 s2 : Session) :
  startsDryRuns n s s1 → startsDryRuns m s1 s2 → startsDryRuns (n + m) s s2.
Proof.
  intros (new1 & H1 & Hdry1 & Hlen1) (new2 & H2 & Hdry2 & Hlen2).
  exists (new1 ++ new2). rewrite H2, H1, (assoc_L (++)), length_app.
  repeat split; [by apply Forall_app|lia].
Qed.

Lemma rCmdSHLIBInvocations_length (h : Host) env (srcPath : FilePath) :
  length (rCmdSHLIBInvocations h env srcPath) ≤ 1.
Proof.
  unfold rCmdSHLIBInvocations.
  destruct (rCmdSHLIBCommand h env srcPath) as [[[? ?] ?]|]; simpl; lia.
Qed.

Lemma sourceCppInvocations_length (h : Host) (srcPath : FilePath) :
  length (sourceCppInvocations h srcPath) ≤ 1.
Proof.
  unfold sourceCppInvocations.
  destruct (sourceCppCommand h _ srcPath) as [[[? ?] ?]|]; simpl; lia.
Qed.

Lemma argsForRCmdSHLIB_starts (h : Host) env (tmp : FilePath) (s : Session) :
  startsDryRuns 1 s (snd (argsForRCmdSHLIB h env tmp s)).
Proof.
  rewrite argsForRCmdSHLIB_run. destruct (canWrite h tmp); cbn [snd].
  - exists (rCmdSHLIBInvocations h env tmp). cbn [spawned].
    auto using rCmdSHLIBInvocations_dry_run, rCmdSHLIBInvocations_length.
  - by apply startsDryRuns_none.
Qed.

Lemma updateForCurrentPackage_starts (h : Host) (s : Session) :
  startsDryRuns 1 s (snd (updateForCurrentPackage h s)).
Proof.
  rewrite updateForCurrentPackage_run. cbn [snd].
  destruct (String.eqb _ _); [by apply startsDryRuns_none|].
  destruct (readPackageInfo h (buildTargetPath h)) as [pkgInfo|];
    [|by apply startsDryRuns_none].
  cbn zeta.
  pose proof (argsForRCmdSHLIB_starts h (packageEnvironment h pkgInfo)
                (packageTempSrcFile h) s) as Hstarts.
  by destruct (argsForRCmdSHLIB h _ _ s) as [[|arg args] s1].
Qed.

Lemma updateForSourceCpp_starts (h : Host) (srcFile : FilePath) (s : Session) :
  startsDryRuns 1 s (snd (updateForSourceCpp h srcFile s)).
Proof.
  rewrite updateForSourceCpp_run. cbn [snd].
  destruct (bool_decide _); [by apply startsDryRuns_none|].
  destruct (String.eqb _ ""); [by apply startsDryRuns_none|].
  exists (sourceCppInvocations h srcFile). cbn [spawned].
  auto using sourceCppInvocations_dry_run, sourceCppInvocations_length.
Qed.

Lemma writeStringToFile_spawned (h : Host) (p : FilePath) (c : string) (s : Session) :
  spawned (snd (writeStringToFile h p c s)) = spawned s.
Proof. unfold writeStringToFile. monad. by destruct (canWrite h p). Qed.

Lemma ensurePlatformPath_spawned (h : Host) (root platformPath : FilePath) (s : Session) :
  spawned (snd (ensurePlatformPath h root platformPath s)) = spawned s.
Proof.
  unfold ensurePlatformPath, removeIfExists, removePath, ensureDirectory. monad.
  destruct (Fs.path_exists (files s) platformPath); [done|]. cbn [negb].
  destruct (Fs.path_exists (files s) root); [destruct (canRemove h root)|]; cbn;
    repeat (destruct (Fs.path_exists _ _) || destruct (canCreateDirectory _ _)); done.
Qed.

Lemma createPrecompiledHeader_starts (h : Host) (pkgName stdArg : string)
    (platformPath pchPath : FilePath) (s : Session) :
  startsDryRuns 1 s
    (snd (createPrecompiledHeader h pkgName stdArg platformPath pchPath s)).
Proof.
  unfold createPrecompiledHeader. unfold bind at 1.
  pose proof (writeStringToFile_spawned h
    (FilePath.childPath platformPath (pkgName +:+ stdArg +:+ ".cpp"))
    ("#include <" +:+ pkgName +:+ ".h>" +:+ String "010" "") s) as Hw.
  destruct (writeStringToFile h _ _ s) as [[] s1]; cbn [snd negb] in *;
    [|by apply startsDryRuns_none].
  apply (startsDryRuns_trans 0 1 s s1); [by apply startsDryRuns_none|].
  unfold bind at 1.
  pose proof (argsForRCmdSHLIB_starts h (compilationEnvironment h) (tempFile h) s1) as Hr.
  destruct (argsForRCmdSHLIB h _ _ s1) as [cArgs s2]; cbn [snd] in *.
  apply (startsDryRuns_trans 1 0 s1 s2); [done|]. apply startsDryRuns_none.
  destruct (clang_parseTranslationUnit h _ _); cbn [negb]; [|done].
  monad. by destruct (Z.eqb _ _).
Qed.

Lemma precompiledHeaderArgs_starts (h : Host) (pkgName stdArg : string) (s : Session) :
  startsDryRuns 1 s (snd (precompiledHeaderArgs h pkgName stdArg s)).
Proof.
  unfold precompiledHeaderArgs.
  destruct (rs_clangPCHPath h pkgName (clang_version h)) as [platformDir|];
    [|by apply startsDryRuns_none].
  unfold bind at 1.
  pose proof (ensurePlatformPath_spawned h (precompiledDirFor h pkgName)
    (FilePath.childPath (precompiledDirFor h pkgName) platformDir) s) as He.
  destruct (ensurePlatformPath h _ _ s) as [[] s1]; cbn [snd negb] in *;
    [|by apply startsDryRuns_none].
  apply (startsDryRuns_trans 0 1 s s1); [by apply startsDryRuns_none|].
  unfold bind at 1, getFiles. unfold bind at 1.
  destruct (Fs.path_exists (files s1) _); cbn [negb].
  - by apply startsDryRuns_none.
  - pose proof (createPrecompiledHeader_starts h pkgName stdArg
      (FilePath.childPath (precompiledDirFor h pkgName) platformDir)
      (FilePath.childPath (FilePath.childPath (precompiledDirFor h pkgName) platformDir)
         (pkgName +:+ stdArg +:+ ".pch")) s1) as Hc.
    by destruct (createPrecompiledHeader h _ _ _ _ s1) as [[] s2].
Qed.

Lemma compileArgs_starts (h : Host) (filename : string) (s : Session) :
  startsDryRuns 2 s (snd (compileArgsForTranslationUnit h filename s)).
Proof.
  rewrite compileArgs_steps. cbn zeta.
  assert (startsDryRuns 1 s
            (snd (cachedArgsForTranslationUnit h (FilePath.of_string filename) s)))
    as Hcached.
  { destruct (isPackageSource h (FilePath.of_string filename)) eqn:Hpkg.
    - rewrite cachedArgs_package by done. apply updateForCurrentPackage_starts.
    - rewrite cachedArgs_sourceCpp by done. apply updateForSourceCpp_starts. }
  destruct (cachedArgsForTranslationUnit h _ s) as [[args pch] s1]. cbn [fst snd] in *.
  apply (startsDryRuns_trans 1 1 s s1); [done|].
  destruct args as [|arg args]; [by apply startsDryRuns_none|].
  destruct (negb (String.eqb pch "") && isCppFile _); [|by apply startsDryRuns_none].
  apply precompiledHeaderArgs_starts.
Qed.

(** X16: the resolver never starts a real build.  One call starts two
    processes at most, and each is a dry run: [R CMD SHLIB] with
    [--dry-run], or [Rcpp::sourceCpp] with [dryRun = TRUE] as its last
    parameter or else with [MAKE] set to [make --dry-run]. *)
Theorem resolver_starts_dry_runs_only (h : Host) (filename : string) (s : Session) :
  ∃ new, spawned (snd (compileArgsForTranslationUnit h filename s)) = spawned s ++ new ∧
         Forall isDryRun new ∧ length new ≤ 2.
Proof. apply compileArgs_starts. Qed.

Lemma remove_all_free (fs : FileSystem) (p : FilePath) :
  (∀ q, p `prefix_of` q → fs !! q = None) → Fs.remove_all fs p = fs.
Proof.
  intros Hfree. apply map_eq. intros q. apply option_eq. intros n.
  rewrite lookup_remove_all. split; [tauto|]. intros Hq. split; [done|].
  intros Hpre. by rewrite (Hfree q Hpre) in Hq.
Qed.

Lemma remove_all_write (fs : FileSystem) (p : FilePath) (c : string) (t : Z) :
  Fs.remove_all (Fs.write fs p c t) p = Fs.remove_all fs p.
Proof.
  apply map_eq. intros q. apply option_eq. intros n.
  rewrite !lookup_remove_all, lookup_write. split.
  - intros [[[-> _]|[_ Hq]] Hpre]; [by destruct Hpre|done].
  - intros [Hq Hpre]. split; [|done]. right. split; [|done]. by intros ->.
Qed.

Lemma sameFiles_refl (fs : FileSystem) : sameFiles fs fs.
Proof. by intros q. Qed.

(** X17: the dry run of [R CMD SHLIB] cleans up behind itself.  When the
    probe file cannot be written, nothing is run and nothing changes; when
    it can be written and removed and its path was free, the same paths exist
    afterwards as before and every file has the contents and the time it
    had. *)
Theorem dry_run_restores_files (h : Host) (env : list (string * string))
    (tempSrcFile : FilePath) (s : Session) :
  (canWrite h tempSrcFile = false → argsForRCmdSHLIB h env tempSrcFile s = ([], s)) ∧
  (canWrite h tempSrcFile = true → canRemove h tempSrcFile = true →
   (∀ q, tempSrcFile `prefix_of` q → files s !! q = None) →
   sameFiles (files s) (files (snd (argsForRCmdSHLIB h env tempSrcFile s)))).
Proof.
  split.
  - intros Hw. by rewrite argsForRCmdSHLIB_run, Hw.
  - intros Hw Hr Hfree. rewrite argsForRCmdSHLIB_run, Hw, Hr. cbn [snd files].
    rewrite remove_all_write, remove_all_free by done. apply sameFiles_refl.
Qed.

Lemma dry_run_restores_files_witness :
  argsForRCmdSHLIB (Scene.readOnly Example.working) [] ["tmp"; "probe.cpp"]
    (Example.fresh Example.withRcpp) = ([], Example.fresh Example.withRcpp) ∧
  sameFiles (files (Example.fresh Example.withRcpp))
    (files (snd (argsForRCmdSHLIB Example.working [] ["tmp"; "probe.cpp"]
                   (Example.fresh Example.withRcpp)))).
Proof.
  split.
  - apply (dry_run_restores_files (Scene.readOnly Example.working) []
             ["tmp"; "probe.cpp"] (Example.fresh Example.withRcpp)).
    reflexivity.
  - apply (dry_run_restores_files Example.working [] ["tmp"; "probe.cpp"]
             (Example.fresh Example.withRcpp)); [reflexivity..|].
    intros q Hq. apply eq_None_not_Some. intros [n Hn].
    apply elem_of_map_to_list in Hn. vm_compute map_to_list in Hn.
    repeat (apply elem_of_cons in Hn as [[= -> ->]|Hn];
            [destruct Hq as [rest Hq]; simpl in Hq; discriminate|]).
    by apply elem_of_nil in Hn.
Defined.

Lemma to_lower_app (a b : string) : to_lower (a +:+ b) = to_lower a +:+ to_lower b.
Proof. induction a as [|c a IH]; sapp; cbn [to_lower]; sapp; [done|]. by rewrite IH. Qed.

Lemma icontains_app (pre x post pat : string) :
  to_lower x = to_lower pat → icontains (pre +:+ x +:+ post) pat = true.
Proof.
  intros Hx. unfold icontains. apply contains_spec.
  exists (to_lower pre), (to_lower post). by rewrite !to_lower_app, Hx.
Qed.

(** X18: a package resolution that runs the build tool starts one
    [R CMD SHLIB --dry-run] on the probe file, in the directory of the probe
    file.  When the system requirements of the package have [C++11]
    somewhere, in whatever letter case, the environment of that process is
    the compilation environment with [USE_CXX1X=1] added at its end; when
    they do not, it is the compilation environment as it is. *)
Theorem cxx11_requirement_sets_USE_CXX1X (h : Host) (s : Session)
    (pkgInfo : RPackageInfo) (rBin : FilePath) :
  let started env :=
    spawned (snd (updateForCurrentPackage h s)) =
    spawned s ++
    [RunRCommand rBin ["SHLIB"; "--dry-run"; FilePath.filename (packageTempSrcFile h)]
       {| workingDir := Some (FilePath.parent (packageTempSrcFile h));
          environment := env |}] in
  fst (packageBuildFileHash h s) ≠ packageBuildFileHash_ (this s) →
  readPackageInfo h (buildTargetPath h) = Some pkgInfo →
  canWrite h (packageTempSrcFile h) = true →
  rBinDir h = Some rBin →
  (∀ pre x post,
     systemRequirements pkgInfo = pre +:+ x +:+ post → to_lower x = "c++11" →
     started (compilationEnvironment h ++ [("USE_CXX1X", "1")])) ∧
  (icontains (systemRequirements pkgInfo) "C++11" = false →
     started (compilationEnvironment h)).
Proof.
  intros started Hstale Hinfo Hwrite Hbin.
  assert (started (packageEnvironment h pkgInfo)) as Hstarted.
  { unfold started. rewrite updateForCurrentPackage_run. cbn [snd].
    apply String.eqb_neq in Hstale. rewrite Hstale, Hinfo. cbn zeta.
    rewrite argsForRCmdSHLIB_run, Hwrite. cbn [fst snd].
    unfold rCmdSHLIBInvocations, rCmdSHLIBCommand. rewrite Hbin.
    by destruct (flagsOfRun _ _). }
  split.
  - intros pre x post Hreq Hx. unfold packageEnvironment in Hstarted.
    by rewrite Hreq, icontains_app in Hstarted.
  - intros Hnone. unfold packageEnvironment in Hstarted.
    by rewrite Hnone in Hstarted.
Qed.

Lemma cxx11_requirement_sets_USE_CXX1X_witness :
  spawned (snd (updateForCurrentPackage
                  (Scene.requiring "GNU make, c++11" Example.working)
                  (Example.fresh Example.withRcpp))) =
    [RunRCommand ["usr"; "bin"] ["SHLIB"; "--dry-run"; "7f1c.cpp"]
       {| workingDir := Some ["home"; "u"; "pkg"; "src"];
          environment := [("HOME", "/home/u"); ("USE_CXX1X", "1")] |}] ∧
  spawned (snd (updateForCurrentPackage Example.working
                  (Example.fresh Example.withRcpp))) =
    [RunRCommand ["usr"; "bin"] ["SHLIB"; "--dry-run"; "7f1c.cpp"]
       {| workingDir := Some ["home"; "u"; "pkg"; "src"];
          environment := [("HOME", "/home/u")] |}].
Proof.
  assert (fst (packageBuildFileHash (Scene.requiring "GNU make, c++11" Example.working)
                 (Example.fresh Example.withRcpp)) ≠
          packageBuildFileHash_ (this (Example.fresh Example.withRcpp))) as Hstale
    by (vm_compute; discriminate).
  assert (fst (packageBuildFileHash Example.working (Example.fresh Example.withRcpp)) ≠
          packageBuildFileHash_ (this (Example.fresh Example.withRcpp))) as Hstale'
    by (vm_compute; discriminate).
  destruct (cxx11_requirement_sets_USE_CXX1X
              (Scene.requiring "GNU make, c++11" Example.working)
              (Example.fresh Example.withRcpp)
              {| linkingTo := "Rcpp"; systemRequirements := "GNU make, c++11" |}
              ["usr"; "bin"] Hstale eq_refl eq_refl eq_refl) as [Hset _].
  destruct (cxx11_requirement_sets_USE_CXX1X Example.working
              (Example.fresh Example.withRcpp)
              {| linkingTo := "Rcpp"; systemRequirements := "" |}
              ["usr"; "bin"] Hstale' eq_refl eq_refl eq_refl) as [_ Hplain].
  split.
  - rewrite (Hset "GNU make, " "c++11" "") by reflexivity. vm_compute. reflexivity.
  - rewrite Hplain by reflexivity. vm_compute. reflexivity.
Defined.

(** ** The precompiled header store, step by step *)

Lemma path_exists_Some (fs : FileSystem) (p : FilePath) :
  Fs.path_exists fs p = true ↔ is_Some (fs !! p).
Proof. unfold Fs.path_exists. by destruct (fs !! p); split. Qed.

Lemma path_exists_write (fs : FileSystem) (p q : FilePath) (c : string) (t : Z) :
  Fs.path_exists (Fs.write fs p c t) q = (bool_decide (q = p) || Fs.path_exists fs q).
Proof.
  unfold Fs.path_exists, Fs.write. destruct (decide (q = p)) as [->|Hne].
  - by rewrite lookup_insert_eq, bool_decide_eq_true_2.
  - by rewrite lookup_insert_ne, bool_decide_eq_false_2.
Qed.

(** [create_directories] makes the directory it is asked for. *)
Lemma create_directories_exists (fs : FileSystem) (p : FilePath) (t : Z) :
  p ≠ [] → Fs.path_exists (Fs.create_directories fs p t) p = true.
Proof.
  intros Hp. unfold Fs.create_directories.
  set (step := fun (fs : FileSystem) d => match fs !! d with
                                          | Some _ => fs
                                          | None => <[d := Directory t]> fs
                                          end).
  assert (∀ dirs (fs0 : FileSystem) q,
            is_Some (fs0 !! q) → is_Some (fold_left step dirs fs0 !! q)) as Hkeep.
  { induction dirs as [|d dirs IH]; intros fs0 q Hq; cbn [fold_left]; [done|].
    apply IH. unfold step. destruct (fs0 !! d) eqn:Hd; [done|].
    destruct (decide (d = q)) as [->|Hne]; [by rewrite lookup_insert_eq|].
    by rewrite lookup_insert_ne. }
  assert (∀ dirs (fs0 : FileSystem) q,
            q ∈ dirs → is_Some (fold_left step dirs fs0 !! q)) as Hmake.
  { induction dirs as [|d dirs IH]; intros fs0 q Hq; [by apply elem_of_nil in Hq|].
    cbn [fold_left]. apply elem_of_cons in Hq as [->|Hq]; [|by apply IH].
    apply Hkeep. unfold step. destruct (fs0 !! d) eqn:Hd; [by eexists|].
    by rewrite lookup_insert_eq. }
  assert (∀ above todo, todo ≠ [] → above ++ todo ∈ Fs.ancestors_from above todo)
    as Hlast.
  { intros above todo. revert above.
    induction todo as [|c todo IH]; intros above Hne; [done|].
    cbn [Fs.ancestors_from]. destruct todo as [|c' todo].
    - left.
    - right. rewrite (cons_middle c above (c' :: todo)), (assoc_L (++)). by apply IH. }
  apply path_exists_Some, Hmake. by apply (Hlast [] p).
Qed.

Lemma ensureDirectory_run (h : Host) (p : FilePath) (s : Session) :
  ensureDirectory h p s =
  if Fs.path_exists (files s) p then (true, s)
  else if canCreateDirectory h p
       then (true, {| this := this s;
                      files := Fs.create_directories (files s) p (now h);
                      spawned := spawned s |})
       else (false, s).
Proof.
  unfold ensureDirectory. monad.
  destruct (Fs.path_exists (files s) p); [done|].
  by destruct (canCreateDirectory h p).
Qed.

Lemma ensurePlatformPath_run (h : Host) (root platformPath : FilePath) (s : Session) :
  ensurePlatformPath h root platformPath s =
  if Fs.path_exists (files s) platformPath then (true, s)
  else if Fs.path_exists (files s) root
       then if canRemove h root
            then ensureDirectory h platformPath
                   {| this := this s; files := Fs.remove_all (files s) root;
                      spawned := spawned s |}
            else (false, s)
       else ensureDirectory h platformPath s.
Proof.
  unfold ensurePlatformPath, removeIfExists, removePath. monad.
  destruct (Fs.path_exists (files s) platformPath); [done|]. cbn [negb].
  destruct (Fs.path_exists (files s) root); [|done].
  by destruct (canRemove h root).
Qed.

Lemma ensurePlatformPath_exists (h : Host) (root platformPath : FilePath) (s : Session) :
  platformPath ≠ [] →
  fst (ensurePlatformPath h root platformPath s) = true →
  Fs.path_exists (files (snd (ensurePlatformPath h root platformPath s)))
                 platformPath = true.
Proof.
  intros Hne. rewrite ensurePlatformPath_run.
  assert (∀ s0, fst (ensureDirectory h platformPath s0) = true →
                Fs.path_exists (files (snd (ensureDirectory h platformPath s0)))
                               platformPath = true) as Hdir.
  { intros s0. rewrite ensureDirectory_run.
    destruct (Fs.path_exists (files s0) platformPath) eqn:Hex; [done|].
    destruct (canCreateDirectory h platformPath); [|done]. intros _.
    by apply create_directories_exists. }
  destruct (Fs.path_exists (files s) platformPath) eqn:Hex; [done|].
  destruct (Fs.path_exists (files s) root); [|apply Hdir].
  destruct (canRemove h root); [apply Hdir|done].
Qed.

Lemma ensurePlatformPath_permitted (h : Host) (root platformPath : FilePath) (s : Session) :
  canRemove h root = true → canCreateDirectory h platformPath = true →
  fst (ensurePlatformPath h root platformPath s) = true.
Proof.
  intros Hrm Hmk. rewrite ensurePlatformPath_run, Hrm, !ensureDirectory_run, Hmk.
  cbn [files]. repeat (destruct (Fs.path_exists _ _)); done.
Qed.

Lemma createPrecompiledHeader_lookup (h : Host) (pkgName stdArg : string)
    (platformPath pchPath q : FilePath) (s : Session) :
  q ≠ FilePath.childPath platformPath (pkgName +:+ stdArg +:+ ".cpp") →
  q ≠ pchPath → ¬ tempFile h `prefix_of` q →
  files (snd (createPrecompiledHeader h pkgName stdArg platformPath pchPath s)) !! q =
  files s !! q.
Proof.
  intros Hcpp Hpch Htmp. unfold createPrecompiledHeader, writeStringToFile.
  set (cppPath := FilePath.childPath platformPath _) in *.
  destruct (canWrite h cppPath); [|done]. monad. cbn [negb].
  set (s1 := {| this := this s; files := Fs.write (files s) cppPath _ (now h);
                spawned := spawned s |}).
  pose proof (argsForRCmdSHLIB_lookup h (compilationEnvironment h) (tempFile h) q s1
                Htmp) as Hrun.
  destruct (argsForRCmdSHLIB h (compilationEnvironment h) (tempFile h) s1)
    as [cArgs s2].
  cbn [snd] in Hrun.
  assert (files s2 !! q = files s !! q) as Hq.
  { rewrite Hrun. unfold s1, Fs.write. cbn [files]. by rewrite lookup_insert_ne. }
  destruct (negb (clang_parseTranslationUnit h _ _)); [done|].
  destruct (Z.eqb _ _); cbn [snd files]; [|done].
  unfold Fs.write. by rewrite lookup_insert_ne.
Qed.

Lemma createPrecompiledHeader_success (h : Host) (pkgName stdArg : string)
    (platformPath pchPath : FilePath) (s : Session) :
  let cppPath := FilePath.childPath platformPath (pkgName +:+ stdArg +:+ ".cpp") in
  canWrite h cppPath = true →
  (∀ args, clang_parseTranslationUnit h (FilePath.absolutePath cppPath) args = true) →
  clang_saveTranslationUnit h (FilePath.absolutePath pchPath) = CXSaveError_None →
  fst (createPrecompiledHeader h pkgName stdArg platformPath pchPath s) = true ∧
  files (snd (createPrecompiledHeader h pkgName stdArg platformPath pchPath s))
    !! pchPath = Some (File "" (now h)) ∧
  (∀ q, ¬ tempFile h `prefix_of` q → is_Some (files s !! q) →
        is_Some (files (snd (createPrecompiledHeader h pkgName stdArg platformPath
                               pchPath s)) !! q)).
Proof.
  intros cppPath Hwrite Hparse Hsave. unfold createPrecompiledHeader, writeStringToFile.
  fold cppPath. rewrite Hwrite. monad. cbn [negb].
  set (s1 := {| this := this s; files := Fs.write (files s) cppPath _ (now h);
                spawned := spawned s |}).
  pose proof (fun q => argsForRCmdSHLIB_lookup h (compilationEnvironment h)
                         (tempFile h) q s1) as Hrun.
  destruct (argsForRCmdSHLIB h (compilationEnvironment h) (tempFile h) s1)
    as [cArgs s2].
  cbn [snd] in Hrun. rewrite Hparse, Hsave.
  cbn [negb Z.eqb CXSaveError_None fst snd files].
  split; [done|]. split.
  - unfold Fs.write. by rewrite lookup_insert_eq.
  - intros q Htmp Hq. apply path_exists_Some. rewrite path_exists_write.
    apply orb_true_iff. right. apply path_exists_Some. rewrite Hrun by done.
    apply path_exists_Some. unfold s1. cbn [files]. rewrite path_exists_write.
    apply orb_true_iff. right. by apply path_exists_Some.
Qed.

Lemma precompiledHeaderArgs_hit (h : Host) (pkgName stdArg platformDir : string)
    (s : Session) :
  rs_clangPCHPath h pkgName (clang_version h) = Some platformDir →
  Fs.path_exists (files s) (platformPathFor h pkgName platformDir) = true →
  Fs.path_exists (files s) (pchPathFor h pkgName platformDir stdArg) = true →
  precompiledHeaderArgs h pkgName stdArg s =
    (["-include-pch";
      FilePath.absolutePath (pchPathFor h pkgName platformDir stdArg)], s).
Proof.
  intros Hdir Hplatform Hpch.
  unfold precompiledHeaderArgs, ensurePlatformPath. rewrite Hdir.
  unfold pchPathFor, platformPathFor in *. monad. rewrite Hplatform. cbn [negb].
  by rewrite Hpch.
Qed.

Lemma platformPathFor_not_root (h : Host) (pkgName platformDir : string) :
  platformPathFor h pkgName platformDir ≠ [].
Proof.
  unfold platformPathFor, FilePath.childPath. intros [H _]%app_eq_nil.
  by apply precompiledDirFor_not_root in H.
Qed.

(** [precompiledHeaderArgs], step by step. *)
Lemma precompiledHeaderArgs_steps (h : Host) (pkgName stdArg platformDir : string)
    (s : Session) :
  rs_clangPCHPath h pkgName (clang_version h) = Some platformDir →
  precompiledHeaderArgs h pkgName stdArg s =
  let platformPath := platformPathFor h pkgName platformDir in
  let pchPath := pchPathFor h pkgName platformDir stdArg in
  let ensured := ensurePlatformPath h (precompiledDirFor h pkgName) platformPath s in
  if fst ensured
  then if Fs.path_exists (files (snd ensured)) pchPath
       then (["-include-pch"; FilePath.absolutePath pchPath], snd ensured)
       else let created := createPrecompiledHeader h pkgName stdArg platformPath
                             pchPath (snd ensured) in
            (if fst created then ["-include-pch"; FilePath.absolutePath pchPath]
             else [], snd created)
  else ([], snd ensured).
Proof.
  intros Hdir. unfold precompiledHeaderArgs. rewrite Hdir.
  unfold pchPathFor, platformPathFor. cbn zeta. unfold bind at 1.
  destruct (ensurePlatformPath h _ _ s) as [[] s1]; cbn [fst snd negb]; [|done].
  monad. destruct (Fs.path_exists (files s1) _); cbn [negb]; [done|].
  by destruct (createPrecompiledHeader h _ _ _ _ s1) as [[] s2].
Qed.

Lemma ensurePlatformPath_evicts (h : Host) (root platformPath : FilePath) (s : Session) :
  parentsExist (files s) = true → root ≠ [] →
  Fs.path_exists (files s) platformPath = false →
  Fs.path_exists (files s) root = false ∨ canRemove h root = true →
  evicted root platformPath (files (snd (ensurePlatformPath h root platformPath s))).
Proof.
  intros Hwf Hroot Hmissing Hcan.
  assert (∀ s0, (∀ q, root `prefix_of` q → files s0 !! q = None) →
                evicted root platformPath
                        (files (snd (ensureDirectory h platformPath s0)))) as Hcreate.
  { intros s0 Hgone. rewrite ensureDirectory_run.
    assert (evicted root platformPath (files s0)) as Hsame.
    { intros q Hq [n Hn]. rewrite Hgone in Hn by done. done. }
    destruct (Fs.path_exists (files s0) platformPath); [done|].
    destruct (canCreateDirectory h platformPath); [|done].
    cbn [snd files]. intros q Hq [n Hn].
    apply lookup_create_directories in Hn as [Hn|[_ Hn]]; [|done].
    rewrite Hgone in Hn by done. done. }
  rewrite ensurePlatformPath_run, Hmissing.
  destruct (Fs.path_exists (files s) root) eqn:Hexists.
  - destruct Hcan as [Hno|Hrm]; [done|]. rewrite Hrm. apply Hcreate. cbn [files]. intros q Hq.
    destruct (Fs.remove_all (files s) root !! q) as [n|] eqn:Hn; [|done].
    by apply lookup_remove_all in Hn as [_ ?].
  - apply Hcreate. intros q Hq. apply (parentsExist_below _ root); try done.
    unfold Fs.path_exists in Hexists. by destruct (files s !! root).
Qed.

Lemma ensurePlatformPath_ready (h : Host) (root platformPath : FilePath) (s : Session) :
  Fs.path_exists (files s) root = false ∨ canRemove h root = true →
  canCreateDirectory h platformPath = true →
  fst (ensurePlatformPath h root platformPath s) = true.
Proof.
  intros Hcan Hmk. rewrite ensurePlatformPath_run, !ensureDirectory_run, Hmk.
  cbn [files]. destruct (Fs.path_exists (files s) platformPath); [done|].
  destruct (Fs.path_exists (files s) root).
  - destruct Hcan as [Hno|Hrm]; [done|]. rewrite Hrm. by destruct (Fs.path_exists _ _).
  - done.
Qed.

Lemma createPrecompiledHeader_keeps (h : Host) (pkgName stdArg : string)
    (platformPath pchPath q : FilePath) (s : Session) :
  ¬ tempFile h `prefix_of` q → is_Some (files s !! q) →
  is_Some (files (snd (createPrecompiledHeader h pkgName stdArg platformPath
                         pchPath s)) !! q).
Proof.
  intros Htmp Hq. unfold createPrecompiledHeader, writeStringToFile.
  set (cppPath := FilePath.childPath platformPath _).
  destruct (canWrite h cppPath); [|done]. monad. cbn [negb].
  set (s1 := {| this := this s; files := Fs.write (files s) cppPath _ (now h);
                spawned := spawned s |}).
  pose proof (argsForRCmdSHLIB_lookup h (compilationEnvironment h) (tempFile h) q s1
                Htmp) as Hrun.
  destruct (argsForRCmdSHLIB h (compilationEnvironment h) (tempFile h) s1)
    as [cArgs s2].
  cbn [snd] in Hrun.
  assert (is_Some (files s2 !! q)) as Hq2.
  { rewrite Hrun. apply path_exists_Some. unfold s1. cbn [files].
    rewrite path_exists_write. apply orb_true_iff. right. by apply path_exists_Some. }
  destruct (negb (clang_parseTranslationUnit h _ _)); [done|].
  destruct (Z.eqb _ _); cbn [snd files]; [|done].
  apply path_exists_Some. rewrite path_exists_write. apply orb_true_iff. right.
  by apply path_exists_Some.
Qed.

(** What [precompiledHeaderArgs] does to the disk behind [ensurePlatformPath]. *)
Lemma precompiledHeaderArgs_behind (h : Host) (pkgName stdArg platformDir : string)
    (s : Session) :
  let platformPath := platformPathFor h pkgName platformDir in
  let ensured := ensurePlatformPath h (precompiledDirFor h pkgName) platformPath s in
  let s' := snd (precompiledHeaderArgs h pkgName stdArg s) in
  rs_clangPCHPath h pkgName (clang_version h) = Some platformDir →
  filesOnly [cppPathFor h pkgName platformDir stdArg; tempFile h;
             pchPathFor h pkgName platformDir stdArg]
            (files (snd ensured)) (files s') ∧
  (∀ q, ¬ tempFile h `prefix_of` q → is_Some (files (snd ensured) !! q) →
        is_Some (files s' !! q)).
Proof.
  intros platformPath ensured s' Hdir. unfold s'.
  rewrite (precompiledHeaderArgs_steps h pkgName stdArg platformDir) by done.
  cbn zeta. fold platformPath ensured.
  destruct (fst ensured); [|split; [apply filesOnly_refl|done]].
  destruct (Fs.path_exists (files (snd ensured)) _);
    [split; [apply filesOnly_refl|done]|].
  cbn [snd]. split.
  - apply createPrecompiledHeader_files.
  - intros q. apply createPrecompiledHeader_keeps.
Qed.

(** C6: when the directory of the current platform and versions is missing
    below the root of the package, the whole root is deleted before the
    directory is created.  Where the root exists and cannot be removed,
    nothing is done and no argument is returned.  Otherwise nothing is left
    below the root but the directories that lead to the new one, the source
    and the header put into it, and the temporary source file of the dry run
    if it was put there: whatever was kept for other versions is gone, the
    root has at most one directory right below it, and, where the directory
    can be created, it exists afterwards.  In every case there is at most
    one directory right below the root after the call when there was at most
    one before. *)
Theorem precompiled_headers_of_one_version (h : Host) (pkgName stdArg platformDir : string)
    (s : Session) :
  let root := precompiledDirFor h pkgName in
  let platformPath := FilePath.childPath root platformDir in
  let cppPath := FilePath.childPath platformPath (pkgName +:+ stdArg +:+ ".cpp") in
  let pchPath := FilePath.childPath platformPath (pkgName +:+ stdArg +:+ ".pch") in
  let s' := snd (precompiledHeaderArgs h pkgName stdArg s) in
  rs_clangPCHPath h pkgName (clang_version h) = Some platformDir →
  parentsExist (files s) = true →
  (Fs.path_exists (files s) platformPath = false →
     (Fs.path_exists (files s) root = true → canRemove h root = false →
        precompiledHeaderArgs h pkgName stdArg s = ([], s)) ∧
     (Fs.path_exists (files s) root = false ∨ canRemove h root = true →
        (∀ q, root `prefix_of` q → is_Some (files s' !! q) →
              q `prefix_of` platformPath ∨ q = cppPath ∨ q = pchPath ∨ q = tempFile h) ∧
        atMostOneVersion (files s') root ∧
        (canCreateDirectory h platformPath = true →
         ¬ tempFile h `prefix_of` platformPath →
         Fs.path_exists (files s') platformPath = true))) ∧
  (atMostOneVersion (files s) root → atMostOneVersion (files s') root).
Proof.
  intros root platformPath cppPath pchPath s' Hdir Hwf.
  pose proof (precompiledDirFor_not_root h pkgName) as Hroot. fold root in Hroot.
  destruct (precompiledHeaderArgs_behind h pkgName stdArg platformDir s Hdir)
    as [[Hdirs Hadds] Hkeeps].
  change (platformPathFor h pkgName platformDir) with platformPath in *.
  change (cppPathFor h pkgName platformDir stdArg) with cppPath in *.
  change (pchPathFor h pkgName platformDir stdArg) with pchPath in *.
  fold root s' in Hdirs, Hadds, Hkeeps.
  split.
  - intros Hmissing. split.
    + intros Hexists Hrm.
      rewrite (precompiledHeaderArgs_steps h pkgName stdArg platformDir) by done.
      cbn zeta. rewrite ensurePlatformPath_run.
      change (platformPathFor h pkgName platformDir) with platformPath.
      fold root. by rewrite Hmissing, Hexists, Hrm.
    + intros Hcan.
      pose proof (ensurePlatformPath_evicts h root platformPath s Hwf Hroot Hmissing Hcan)
        as Hevicted.
      split; [|split].
      * intros q Hq [Hin|Hin]%Hadds; [left; by apply Hevicted|right].
        apply elem_of_cons in Hin as [->|Hin]; [by left|].
        apply elem_of_cons in Hin as [->|Hin]; [by right; right|].
        apply list_elem_of_singleton in Hin as ->. by right; left.
      * apply (atMostOneVersion_kept root _ _ Hdirs).
        by eapply evicted_one_version.
      * intros Hmk Htmp. apply path_exists_Some, Hkeeps; [done|].
        apply path_exists_Some, ensurePlatformPath_exists.
        -- unfold platformPath, FilePath.childPath. intros [H _]%app_eq_nil. done.
        -- by apply ensurePlatformPath_ready.
  - intros Hone. apply (atMostOneVersion_kept root _ _ Hdirs).
    destruct (ensurePlatformPath_files h root platformPath s Hwf Hroot)
      as [[_ Hsame]|[(_ & _ & Hsame)|[_ Hevicted]]].
    + by rewrite Hsame.
    + by rewrite Hsame.
    + by eapply evicted_one_version.
Qed.

Lemma precompiled_headers_of_one_version_witness :
  (∀ q, precompiledDirFor Example.upgraded "Rcpp" `prefix_of` q →
        is_Some (files (snd (precompiledHeaderArgs Example.upgraded "Rcpp" ""
                               Example.afterFirstHeader)) !! q) →
        q `prefix_of` FilePath.childPath (precompiledDirFor Example.upgraded "Rcpp")
                        "x86_64-3.1-3.6" ∨
        q = ["home"; "u"; ".rstudio"; "libclang"; "precompiled"; "Rcpp";
             "x86_64-3.1-3.6"; "Rcpp.cpp"] ∨
        q = ["home"; "u"; ".rstudio"; "libclang"; "precompiled"; "Rcpp";
             "x86_64-3.1-3.6"; "Rcpp.pch"] ∨
        q = tempFile Example.upgraded) ∧
  atMostOneVersion
    (files (snd (precompiledHeaderArgs Example.upgraded "Rcpp" ""
                   Example.afterFirstHeader)))
    (precompiledDirFor Example.upgraded "Rcpp") ∧
  Fs.path_exists
    (files (snd (precompiledHeaderArgs Example.upgraded "Rcpp" ""
                   Example.afterFirstHeader)))
    ["home"; "u"; ".rstudio"; "libclang"; "precompiled"; "Rcpp"; "x86_64-3.1-3.6"] =
    true.
Proof.
  destruct (precompiled_headers_of_one_version Example.upgraded "Rcpp" ""
              "x86_64-3.1-3.6" Example.afterFirstHeader eq_refl eq_refl)
    as [Hmissing _].
  destruct (Hmissing eq_refl) as [_ Hevicts].
  destruct (Hevicts (or_intror eq_refl)) as (Hgone & Hone & Hmade).
  split; [exact Hgone|]. split; [exact Hone|].
  apply Hmade; [reflexivity|].
  intros [rest Hrest]. vm_compute in Hrest. discriminate.
Defined.

(** X19: when the disk lets the store work and libclang parses and saves the
    header, the two arguments are returned and the header file exists
    afterwards (the temporary source file of the dry run not being above
    it); a second call with the same arguments then returns the same answer
    without changing or running anything. *)
Theorem precompiled_header_settles (h : Host) (pkgName stdArg platformDir : string)
    (s : Session) :
  let root := precompiledDirFor h pkgName in
  let platformPath := platformPathFor h pkgName platformDir in
  let pchPath := pchPathFor h pkgName platformDir stdArg in
  let cppPath := cppPathFor h pkgName platformDir stdArg in
  let s1 := snd (precompiledHeaderArgs h pkgName stdArg s) in
  rs_clangPCHPath h pkgName (clang_version h) = Some platformDir →
  canRemove h root = true → canCreateDirectory h platformPath = true →
  canWrite h cppPath = true →
  (∀ args, clang_parseTranslationUnit h (FilePath.absolutePath cppPath) args = true) →
  clang_saveTranslationUnit h (FilePath.absolutePath pchPath) = CXSaveError_None →
  ¬ tempFile h `prefix_of` pchPath →
  fst (precompiledHeaderArgs h pkgName stdArg s) =
    ["-include-pch"; FilePath.absolutePath pchPath] ∧
  Fs.path_exists (files s1) pchPath = true ∧
  precompiledHeaderArgs h pkgName stdArg s1 =
    (["-include-pch"; FilePath.absolutePath pchPath], s1).
Proof.
  intros root platformPath pchPath cppPath s1 Hdir Hrm Hmk Hwrite Hparse Hsave Htmp.
  assert (fst (precompiledHeaderArgs h pkgName stdArg s) =
            ["-include-pch"; FilePath.absolutePath pchPath] ∧
          Fs.path_exists (files s1) platformPath = true ∧
          Fs.path_exists (files s1) pchPath = true) as (Hargs & Hplatform & Hpch).
  { unfold s1. rewrite (precompiledHeaderArgs_steps h pkgName stdArg platformDir) by done.
    cbn zeta. fold root platformPath pchPath.
    pose proof (ensurePlatformPath_permitted h root platformPath s Hrm Hmk) as Hready.
    pose proof (ensurePlatformPath_exists h root platformPath s
                  (platformPathFor_not_root h pkgName platformDir) Hready) as Hexists.
    destruct (ensurePlatformPath h root platformPath s) as [ready sa].
    cbn [fst snd] in *. subst ready.
    destruct (Fs.path_exists (files sa) pchPath) eqn:Hthere; [done|].
    destruct (createPrecompiledHeader_success h pkgName stdArg platformPath pchPath sa
                Hwrite Hparse Hsave) as (Hcreated & Hfile & Hkept).
    destruct (createPrecompiledHeader h pkgName stdArg platformPath pchPath sa)
      as [created sb].
    cbn [fst snd] in *. subst created. split; [done|]. split.
    - apply path_exists_Some, Hkept; [|by apply path_exists_Some].
      intros Hpre. apply Htmp. etrans; [exact Hpre|].
      by exists (FilePath.components (pkgName +:+ stdArg +:+ ".pch")).
    - apply path_exists_Some. by rewrite Hfile. }
  split; [done|]. split; [done|]. by apply precompiledHeaderArgs_hit.
Qed.

Lemma precompiled_header_settles_witness :
  precompiledHeaderArgs Example.working "Rcpp" "-std=c++11"
    (snd (precompiledHeaderArgs Example.working "Rcpp" "-std=c++11"
            (Example.fresh Example.withRcpp))) =
  (["-include-pch";
    FilePath.absolutePath (pchPathFor Example.working "Rcpp" "x86_64-3.1-3.5" "-std=c++11")],
   snd (precompiledHeaderArgs Example.working "Rcpp" "-std=c++11"
          (Example.fresh Example.withRcpp))).
Proof.
  apply (precompiled_header_settles Example.working "Rcpp" "-std=c++11" "x86_64-3.1-3.5"
           (Example.fresh Example.withRcpp)); try reflexivity.
  intros [rest Hrest]. vm_compute in Hrest. discriminate.
Defined.

(** X20: when the directory of the platform exists, the store touches three
    paths at most: the source it makes the header from, the header, and the
    temporary source file of the dry run with what is below it.  Every other
    path exists afterwards exactly when it did before, and every other file
    has the contents and the time it had: the headers made for other
    [-std] arguments stay. *)
Theorem precompiled_header_touches (h : Host) (pkgName stdArg platformDir : string)
    (s : Session) (q : FilePath) :
  let s1 := snd (precompiledHeaderArgs h pkgName stdArg s) in
  rs_clangPCHPath h pkgName (clang_version h) = Some platformDir →
  Fs.path_exists (files s) (platformPathFor h pkgName platformDir) = true →
  q ≠ cppPathFor h pkgName platformDir stdArg →
  q ≠ pchPathFor h pkgName platformDir stdArg →
  ¬ tempFile h `prefix_of` q →
  Fs.path_exists (files s1) q = Fs.path_exists (files s) q ∧
  ∀ c t, files s1 !! q = Some (File c t) ↔ files s !! q = Some (File c t).
Proof.
  intros s1 Hdir Hplatform Hcpp Hpch Htmp.
  assert (files s1 !! q = files s !! q) as Hsame.
  { unfold s1. rewrite (precompiledHeaderArgs_steps h pkgName stdArg platformDir) by done.
    cbn zeta. rewrite ensurePlatformPath_run, Hplatform. cbn [fst snd].
    destruct (Fs.path_exists (files s) (pchPathFor h pkgName platformDir stdArg));
      [done|]. cbn [snd].
    by apply createPrecompiledHeader_lookup. }
  unfold Fs.path_exists. by rewrite Hsame.
Qed.

Lemma precompiled_header_touches_witness :
  Fs.path_exists
    (files (snd (precompiledHeaderArgs Example.working "Rcpp" "-std=c++11"
                   Example.afterFirstHeader)))
    (pchPathFor Example.working "Rcpp" "x86_64-3.1-3.5" "") =
  Fs.path_exists (files Example.afterFirstHeader)
    (pchPathFor Example.working "Rcpp" "x86_64-3.1-3.5" "").
Proof.
  apply (precompiled_header_touches Example.working "Rcpp" "-std=c++11" "x86_64-3.1-3.5"
           Example.afterFirstHeader); try reflexivity;
    try (vm_compute; discriminate).
  intros [rest Hrest]. vm_compute in Hrest. discriminate.
Defined.

(** X21: the errors of the store.  When R cannot name the directory of the
    platform, or the old headers cannot be removed, or the source of the
    header cannot be written, no argument is returned and nothing has
    changed.  When the old headers are removed and the new directory cannot
    be created, no argument is returned and nothing is left below the root
    of the package. *)
Theorem precompiled_header_errors (h : Host) (pkgName stdArg : string) (s : Session) :
  let root := precompiledDirFor h pkgName in
  (rs_clangPCHPath h pkgName (clang_version h) = None →
     precompiledHeaderArgs h pkgName stdArg s = ([], s)) ∧
  (∀ platformDir,
     rs_clangPCHPath h pkgName (clang_version h) = Some platformDir →
     Fs.path_exists (files s) (platformPathFor h pkgName platformDir) = false →
     Fs.path_exists (files s) root = true →
     (canRemove h root = false →
        precompiledHeaderArgs h pkgName stdArg s = ([], s)) ∧
     (canRemove h root = true →
      canCreateDirectory h (platformPathFor h pkgName platformDir) = false →
        fst (precompiledHeaderArgs h pkgName stdArg s) = [] ∧
        ∀ q, root `prefix_of` q →
             files (snd (precompiledHeaderArgs h pkgName stdArg s)) !! q = None)) ∧
  (∀ platformDir,
     rs_clangPCHPath h pkgName (clang_version h) = Some platformDir →
     Fs.path_exists (files s) (platformPathFor h pkgName platformDir) = true →
     Fs.path_exists (files s) (pchPathFor h pkgName platformDir stdArg) = false →
     canWrite h (cppPathFor h pkgName platformDir stdArg) = false →
     precompiledHeaderArgs h pkgName stdArg s = ([], s)).
Proof.
  intros root. split; [|split].
  - intros Hdir. unfold precompiledHeaderArgs. by rewrite Hdir.
  - intros platformDir Hdir Hmissing Hroot. split.
    + intros Hrm.
      rewrite (precompiledHeaderArgs_steps h pkgName stdArg platformDir) by done.
      cbn zeta. fold root. by rewrite ensurePlatformPath_run, Hmissing, Hroot, Hrm.
    + intros Hrm Hmk.
      rewrite (precompiledHeaderArgs_steps h pkgName stdArg platformDir) by done.
      cbn zeta. fold root.
      rewrite ensurePlatformPath_run, Hmissing, Hroot, Hrm, ensureDirectory_run, Hmk.
      cbn [files].
      assert (∀ q, root `prefix_of` q → Fs.remove_all (files s) root !! q = None)
        as Hgone.
      { intros q Hq. apply eq_None_not_Some. intros [n Hn].
        by apply lookup_remove_all in Hn as [_ Hn]. }
      assert (Fs.path_exists (Fs.remove_all (files s) root)
                (platformPathFor h pkgName platformDir) = false) as ->.
      { unfold Fs.path_exists. rewrite Hgone; [done|].
        by exists (FilePath.components platformDir). }
      done.
  - intros platformDir Hdir Hplatform Hpch Hwrite.
    rewrite (precompiledHeaderArgs_steps h pkgName stdArg platformDir) by done.
    cbn zeta. rewrite ensurePlatformPath_run, Hplatform. cbn [fst snd]. rewrite Hpch.
    unfold createPrecompiledHeader, writeStringToFile.
    unfold cppPathFor in Hwrite. by rewrite Hwrite.
Qed.

Lemma precompiled_header_errors_witness :
  precompiledHeaderArgs (Scene.readOnly Example.upgraded) "Rcpp" ""
    Example.afterFirstHeader = ([], Example.afterFirstHeader) ∧
  precompiledHeaderArgs (Scene.readOnly Example.working) "Rcpp" "-std=c++11"
    Example.afterFirstHeader = ([], Example.afterFirstHeader).
Proof.
  split.
  - destruct (precompiled_header_errors (Scene.readOnly Example.upgraded) "Rcpp" ""
                Example.afterFirstHeader) as (_ & Hevict & _).
    apply (Hevict "x86_64-3.1-3.6"); vm_compute; reflexivity.
  - destruct (precompiled_header_errors (Scene.readOnly Example.working) "Rcpp"
                "-std=c++11" Example.afterFirstHeader) as (_ & _ & Hwrite).
    apply (Hwrite "x86_64-3.1-3.5"); vm_compute; reflexivity.
Defined.

(** X22: the resolver answers with the cached arguments as they are, or with
    the cached arguments followed by exactly [-include-pch] and the path of
    the precompiled header that goes with their [-std] argument; the second
    only for a file of C++ whose cache names a package for the header. *)
Theorem resolver_appends_header_only (h : Host) (filename : string) (s : Session) :
  let filePath := FilePath.of_string filename in
  let args := fst (fst (cachedArgsForTranslationUnit h filePath s)) in
  let pch := snd (fst (cachedArgsForTranslationUnit h filePath s)) in
  fst (compileArgsForTranslationUnit h filename s) = args ∨
  (args ≠ [] ∧ pch ≠ "" ∧ isCppFile filePath = true ∧
   ∃ platformDir,
     rs_clangPCHPath h pch (clang_version h) = Some platformDir ∧
     fst (compileArgsForTranslationUnit h filename s) =
       args ++ ["-include-pch";
                FilePath.absolutePath
                  (pchPathFor h pch platformDir (extractStdArg args))]).
Proof.
  intros filePath args pch. rewrite compileArgs_steps. cbn zeta.
  fold filePath. fold args pch.
  destruct (cachedArgsForTranslationUnit h filePath s) as [[cached name] s1].
  cbn [fst snd] in *. clearbody args pch.
  destruct args as [|arg args]; [by left|].
  destruct (String.eqb pch "") eqn:Hname; cbn [negb andb]; [by left|].
  destruct (isCppFile filePath); [|by left]. cbn [fst].
  apply String.eqb_neq in Hname.
  destruct (rs_clangPCHPath h pch (clang_version h)) as [platformDir|] eqn:Hdir.
  - rewrite (precompiledHeaderArgs_steps h pch _ platformDir) by done. cbn zeta.
    destruct (ensurePlatformPath h _ _ s1) as [[] sa]; cbn [fst snd].
    + destruct (Fs.path_exists (files sa) _); cbn [fst].
      * right. repeat split; [done..|]. by exists platformDir.
      * destruct (createPrecompiledHeader h _ _ _ _ sa) as [[] sb]; cbn [fst snd].
        -- right. repeat split; [done..|]. by exists platformDir.
        -- left. by rewrite app_nil_r.
    + left. by rewrite app_nil_r.
  - left. unfold precompiledHeaderArgs. rewrite Hdir. cbn. by rewrite app_nil_r.
Qed.

(** ** The translation units of the package *)

Lemma elem_of_children (fs : FileSystem) (dir p : FilePath) :
  p ∈ children fs dir ↔ is_Some (fs !! p) ∧ ∃ c, p = dir ++ [c].
Proof.
  unfold children. rewrite list_elem_of_In, List.filter_In, <- list_elem_of_In.
  rewrite bool_decide_eq_true, list_elem_of_fmap. split.
  - intros [([q n] & -> & Hq%elem_of_map_to_list) [Hne Hparent]]. cbn [fst] in *.
    split; [by eexists|]. unfold FilePath.parent in Hparent.
    destruct (exists_last Hne) as (front & c & ->).
    rewrite removelast_last in Hparent. subst front. by exists c.
  - intros [[n Hn] [c ->]]. split.
    + exists (dir ++ [c], n). split; [done|]. by apply elem_of_map_to_list.
    + split; [by destruct dir|]. unfold FilePath.parent. by rewrite removelast_last.
Qed.

Lemma translationUnits_run (h : Host) (index : SourceIndex) (s : Session) :
  translationUnits h index s =
  (if buildTypeIsPackage h && Fs.path_exists (files s) (packageSrcDir h) &&
      canList index (packageSrcDir h)
   then List.filter (isTranslationUnit index)
          (map FilePath.absolutePath (children (files s) (packageSrcDir h)))
   else [], s).
Proof.
  unfold translationUnits, packageSrcDir. monad.
  destruct (buildTypeIsPackage h); [|done]. cbn [andb].
  destruct (Fs.path_exists (files s) _); [|done]. cbn [andb].
  by destruct (canList index _).
Qed.

Lemma elem_of_translationUnits (h : Host) (index : SourceIndex) (s : Session)
    (name : string) :
  name ∈ fst (translationUnits h index s) ↔
  buildTypeIsPackage h = true ∧
  Fs.path_exists (files s) (packageSrcDir h) = true ∧
  canList index (packageSrcDir h) = true ∧
  isTranslationUnit index name = true ∧
  ∃ c, is_Some (files s !! (packageSrcDir h ++ [c])) ∧
       name = FilePath.absolutePath (packageSrcDir h ++ [c]).
Proof.
  rewrite translationUnits_run. cbn [fst].
  destruct (buildTypeIsPackage h); cbn [andb];
    [|split; [by intros ?%elem_of_nil|by intros [? _]]].
  destruct (Fs.path_exists (files s) _); cbn [andb];
    [|split; [by intros ?%elem_of_nil|by intros (_ & ? & _)]].
  destruct (canList index _);
    [|split; [by intros ?%elem_of_nil|by intros (_ & _ & ? & _)]].
  rewrite list_elem_of_In, List.filter_In, <- list_elem_of_In, list_elem_of_fmap.
  split.
  - intros [(p & -> & [Hp [c ->]]%elem_of_children) Hunit]. repeat split; [done|].
    by exists c.
  - intros (_ & _ & _ & Hunit & c & Hc & ->). split; [|done].
    exists (packageSrcDir h ++ [c]). split; [done|]. apply elem_of_children. eauto.
Qed.

(** X23: the translation units of the project are the absolute paths of the
    entries right below the [src] directory of a package that the source
    index takes for translation units, and nothing else; there is none when
    the project is no package, when [src] does not exist or when it cannot
    be listed.  Listing them changes nothing. *)
Theorem translationUnits_lists_sources (h : Host) (index : SourceIndex) (s : Session)
    (name : string) :
  snd (translationUnits h index s) = s ∧
  (name ∈ fst (translationUnits h index s) ↔
   buildTypeIsPackage h = true ∧
   Fs.path_exists (files s) (packageSrcDir h) = true ∧
   canList index (packageSrcDir h) = true ∧
   isTranslationUnit index name = true ∧
   ∃ c, is_Some (files s !! (packageSrcDir h ++ [c])) ∧
        name = FilePath.absolutePath (packageSrcDir h ++ [c])).
Proof.
  split; [by rewrite translationUnits_run|apply elem_of_translationUnits].
Qed.

(** *** From a path to its text and back *)

Lemma rev_app_rev_app (a b c : string) :
  String.rev_app (String.rev_app a b) c = String.rev_app b (a +:+ c).
Proof.
  revert b c. induction a as [|x a IH]; intros b c; cbn [String.rev_app]; sapp; [done|].
  rewrite IH. reflexivity.
Qed.

Lemma string_rev_rev (a : string) : String.rev (String.rev a) = a.
Proof.
  unfold String.rev. rewrite rev_app_rev_app. cbn [String.rev_app].
  apply string_app_nil_r.
Qed.

Lemma split_any_word (seps cur c rest : string) :
  all_chars (fun x => negb (contains seps (String x ""))) c = true →
  split_any seps cur (c +:+ rest) = split_any seps (String.rev_app c cur) rest.
Proof.
  revert cur. induction c as [|x c IH]; intros cur; sapp; cbn [all_chars]; [done|].
  intros [Hx Hc]%andb_true_iff. apply negb_true_iff in Hx.
  cbn [split_any String.rev_app]. rewrite Hx. by apply IH.
Qed.

Lemma split_absolutePathFrom (p : FilePath) (cur : string) :
  Forall (fun c => validComponent c = true) p →
  split_any "/" cur (FilePath.absolutePathFrom p) = String.rev cur :: p.
Proof.
  intros Hp. revert cur. induction Hp as [|c p Hc Hp IH]; intros cur; [reflexivity|].
  cbn [FilePath.absolutePathFrom]. sapp. cbn [split_any].
  change (contains "/" (String "/" "")) with true. cbn iota. f_equal.
  apply andb_true_iff in Hc as [_ Hc].
  rewrite split_any_word by exact Hc. rewrite IH. f_equal. apply string_rev_rev.
Qed.

Lemma filter_validComponents (p : FilePath) :
  Forall (fun c => validComponent c = true) p →
  List.filter (fun c => negb (String.eqb c "")) p = p.
Proof.
  induction 1 as [|c p Hc Hp IH]; [done|]. cbn [List.filter].
  apply andb_true_iff in Hc as [-> _]. by rewrite IH.
Qed.

Lemma of_string_absolutePath (p : FilePath) :
  Forall (fun c => validComponent c = true) p →
  FilePath.of_string (FilePath.absolutePath p) = p.
Proof.
  intros Hp. unfold FilePath.of_string, FilePath.components, split, FilePath.absolutePath.
  destruct p as [|c p]; [done|]. rewrite split_absolutePathFrom by done.
  change (String.rev "") with "".
  change (List.filter ?f ("" :: ?l)) with (List.filter f l).
  by apply filter_validComponents.
Qed.

Lemma validPaths_lookup (fs : FileSystem) (p : FilePath) :
  validPaths fs = true → is_Some (fs !! p) →
  Forall (fun c => validComponent c = true) p.
Proof.
  unfold validPaths. rewrite forallb_forall. intros Hall [n Hn].
  apply elem_of_map_to_list, list_elem_of_In in Hn. specialize (Hall _ Hn).
  cbn [fst] in Hall. rewrite forallb_forall in Hall.
  apply Forall_forall. intros c Hc. by apply Hall, list_elem_of_In.
Qed.

(** X24: the resolver takes every translation unit the database lists for a
    source file of the package: its arguments are those of the package
    cache, brought up to date.  (The paths of the disk are made of
    components that are not empty and have no slash.) *)
Theorem translation_units_are_package_sources (h : Host) (index : SourceIndex)
    (s : Session) (name : string) :
  validPaths (files s) = true →
  name ∈ fst (translationUnits h index s) →
  isPackageSource h (FilePath.of_string name) = true ∧
  fst (cachedArgsForTranslationUnit h (FilePath.of_string name) s) =
    (packageSrcArgs_ (this (snd (updateForCurrentPackage h s))),
     packagePCH_ (this (snd (updateForCurrentPackage h s)))).
Proof.
  intros Hfs Hname.
  apply elem_of_translationUnits in Hname as (Hpkg & _ & _ & _ & c & Hc & ->).
  pose proof (validPaths_lookup _ _ Hfs Hc) as Hvalid.
  rewrite of_string_absolutePath by done.
  assert (isPackageSource h (packageSrcDir h ++ [c]) = true) as Hsource.
  { unfold isPackageSource, FilePath.relativePath. rewrite Hpkg. cbn [andb].
    assert (FilePath.strip_prefix (packageSrcDir h) (packageSrcDir h ++ [c]) = Some [c])
      as -> by (by apply strip_prefix_Some).
    cbn [FilePath.absolutePathFrom]. rewrite string_app_nil_r.
    assert (validComponent c = true) as Hcv.
    { eapply (proj1 (Forall_forall _ _) Hvalid). apply elem_of_app. right. left. }
    by apply andb_true_iff in Hcv as [-> _]. }
  split; [done|]. by rewrite cachedArgs_package.
Qed.

Lemma translation_units_are_package_sources_witness :
  isPackageSource Example.working (FilePath.of_string "/home/u/pkg/src/a.cpp") = true ∧
  fst (cachedArgsForTranslationUnit Example.working
         (FilePath.of_string "/home/u/pkg/src/a.cpp") (Example.fresh Example.withRcpp)) =
    (packageSrcArgs_ (this (snd (updateForCurrentPackage Example.working
                                   (Example.fresh Example.withRcpp)))),
     packagePCH_ (this (snd (updateForCurrentPackage Example.working
                               (Example.fresh Example.withRcpp))))).
Proof.
  apply (translation_units_are_package_sources Example.working Scene.cppIndex
           (Example.fresh Example.withRcpp) "/home/u/pkg/src/a.cpp").
  - vm_compute. reflexivity.
  - vm_compute fst. left.
Defined.

Example translationUnits_example :
  fst (translationUnits Example.working Scene.cppIndex
         (Scene.touch ["home"; "u"; "pkg"; "src"; "notes.txt"] "to do" 50
            (Example.fresh Example.withRcpp))) =
  ["/home/u/pkg/src/a.cpp"].
Proof. vm_compute. reflexivity. Qed.

(** ** One compile line, from the build tool to the cache *)

(** X6: when the build files have a fingerprint the cache does not hold and
    the dry run prints one line of plain words that has the signature of the
    probe file, the words behind the first that are flags decide.  When
    there is one, the package cache gets the arguments of libclang, the
    includes of the packages linked to, and then exactly these flags, in
    their order and with their paths substituted, together with the new
    fingerprint; when there is none, the cache stays as it was. *)
Theorem package_resolution_of_compile_line (h : Host) (s : Session)
    (pkgInfo : RPackageInfo) (r : ProcessResult) (w0 : string) (ws : list string) :
  let s' := snd (updateForCurrentPackage h s) in
  fst (packageBuildFileHash h s) ≠ packageBuildFileHash_ (this s) →
  readPackageInfo h (buildTargetPath h) = Some pkgInfo →
  canWrite h (packageTempSrcFile h) = true →
  rCmdSHLIBResult h (packageEnvironment h pkgInfo) (packageTempSrcFile h) = Some r →
  exitStatus r = EXIT_SUCCESS →
  stdOut r = line_of w0 ws →
  all_chars plain_char w0 = true →
  Forall (fun w => all_chars plain_char w = true) ws →
  contains (line_of w0 ws) (compileSignature (packageTempSrcFile h)) = true →
  (List.filter flag_word ws ≠ [] →
     packageSrcArgs_ (this s') =
       packageBaseArgs h pkgInfo ++
       map (substitutePaths (packageSrcDir h)) (List.filter flag_word ws) ∧
     packageBuildFileHash_ (this s') = fst (packageBuildFileHash h s)) ∧
  (List.filter flag_word ws = [] → this s' = this s).
Proof.
  intros s' Hstale Hinfo Hwrite Hrun Hexit Hout Hw0 Hws Hsig.
  assert (parseCompilationResults (packageTempSrcFile h) (stdOut r) =
          List.filter flag_word ws) as Hparsed.
  { by rewrite Hout, parseCompilationResults_words, Hsig. }
  split.
  - intros Hflags.
    assert (packageResolutionSucceeds h pkgInfo (List.filter flag_word ws)) as Hok.
    { repeat split; try done. rewrite Hrun. unfold flagsOfRun.
      rewrite Hexit. cbn [Z.eqb EXIT_SUCCESS negb]. done. }
    unfold s'.
    by destruct (updateForCurrentPackage_succeeds h s pkgInfo _ Hstale Hok) as (-> & _).
  - intros Hnone. apply updateForCurrentPackage_fails.
    unfold packageResolutionFails. rewrite Hinfo. cbn zeta. rewrite Hrun.
    right. right. split; [done|]. by rewrite Hparsed.
Qed.

Lemma package_resolution_of_compile_line_witness :
  (packageSrcArgs_
     (this (snd (updateForCurrentPackage
                   (Example.host Example.clangArgs "3.5" true 0 Scene.oneLine None)
                   (Example.fresh Example.plainCpp)))) =
   packageBaseArgs (Example.host Example.clangArgs "3.5" true 0 Scene.oneLine None)
     {| linkingTo := "Rcpp"; systemRequirements := "" |} ++
   map (substitutePaths
          (packageSrcDir (Example.host Example.clangArgs "3.5" true 0 Scene.oneLine None)))
       (List.filter flag_word
          ["-c"; "7f1c.cpp"; "-o"; "7f1c"; "-I/usr/include/dep"; "-DFOO=1"]) ∧
   packageBuildFileHash_
     (this (snd (updateForCurrentPackage
                   (Example.host Example.clangArgs "3.5" true 0 Scene.oneLine None)
                   (Example.fresh Example.plainCpp)))) = "10") ∧
  this (snd (updateForCurrentPackage
               (Example.host Example.clangArgs "3.5" true 0 Scene.bareLine None)
               Scene.resolvedThenEdited)) =
  this Scene.resolvedThenEdited.
Proof.
  split.
  - apply (package_resolution_of_compile_line
             (Example.host Example.clangArgs "3.5" true 0 Scene.oneLine None)
             (Example.fresh Example.plainCpp)
             {| linkingTo := "Rcpp"; systemRequirements := "" |}
             {| exitStatus := 0;
                stdOut := "cc -c 7f1c.cpp -o 7f1c -I/usr/include/dep -DFOO=1";
                stdErr := "" |}
             "cc" ["-c"; "7f1c.cpp"; "-o"; "7f1c"; "-I/usr/include/dep"; "-DFOO=1"]);
      try (vm_compute; reflexivity).
    + vm_compute. discriminate.
    + repeat constructor.
    + vm_compute. discriminate.
  - apply (package_resolution_of_compile_line
             (Example.host Example.clangArgs "3.5" true 0 Scene.bareLine None)
             Scene.resolvedThenEdited
             {| linkingTo := "Rcpp"; systemRequirements := "" |}
             {| exitStatus := 0; stdOut := "cc -c 7f1c.cpp -o 7f1c"; stdErr := "" |}
             "cc" ["-c"; "7f1c.cpp"; "-o"; "7f1c"]);
      try (vm_compute; reflexivity).
    + vm_compute. discriminate.
    + repeat constructor.
Defined.

Example package_resolution_of_compile_line_example :
  packageSrcArgs_
    (this (snd (updateForCurrentPackage
                  (Example.host Example.clangArgs "3.5" true 0 Scene.oneLine None)
                  (Example.fresh Example.plainCpp)))) =
  ["-I/opt/clang/include"; "-I/usr/lib/R/Rcpp/include"; "-I/usr/include/dep";
   "-DFOO=1"].
Proof. vm_compute. reflexivity. Qed.

(** ** Files with an attribute of Rcpp *)










Lemma trim_left_not_empty (pre rest : string) (c : ascii) :
  is_space c = false → trim_left (pre +:+ String c rest) ≠ "".
Proof.
  intros Hc. induction pre as [|d pre IH]; sapp; cbn [trim_left].
  - by rewrite Hc.
  - by destruct (is_space d).
Qed.





(** ** Errors of R *)

(** X26: the errors of the two R functions on [LinkingTo] are logged and
    nothing more: without the includes the package arguments start with
    those of libclang alone, and without the name of a package for the
    precompiled header a source file of the package gets the package
    arguments with no [-include-pch], and no header is made. *)
Theorem r_errors_give_no_header (h : Host) (filename : string) (s : Session)
    (pkgInfo : RPackageInfo) (flags : list string) :
  isPackageSource h (FilePath.of_string filename) = true →
  fst (packageBuildFileHash h s) ≠ packageBuildFileHash_ (this s) →
  packageResolutionSucceeds h pkgInfo flags →
  rs_packagePCH h (linkingTo pkgInfo) = None →
  compileArgsForTranslationUnit h filename s =
    (packageBaseArgs h pkgInfo ++ map (substitutePaths (packageSrcDir h)) flags,
     snd (updateForCurrentPackage h s)) ∧
  (rs_includesForLinkingTo h (linkingTo pkgInfo) = None →
     packageBaseArgs h pkgInfo = clang_compileArgs h).
Proof.
  intros Hsource Hstale Hok Hpch. split.
  - rewrite compileArgs_steps. cbn zeta. rewrite cachedArgs_package by done.
    cbn zeta. cbn [fst snd].
    destruct (updateForCurrentPackage_succeeds h s pkgInfo flags Hstale Hok)
      as (-> & _).
    cbn [packageSrcArgs_ packagePCH_]. unfold packagePCH. rewrite Hpch.
    cbn [String.eqb negb andb].
    by destruct (packageBaseArgs h pkgInfo ++ map _ flags).
  - intros Hincludes. unfold packageBaseArgs, includesForLinkingTo.
    rewrite Hincludes, app_nil_r. by destruct (negb _).
Qed.

Lemma r_errors_give_no_header_witness :
  compileArgsForTranslationUnit (Scene.failingR Example.working) "/home/u/pkg/src/a.cpp"
    (Example.fresh Example.withRcpp) =
  (packageBaseArgs (Scene.failingR Example.working)
     {| linkingTo := "Rcpp"; systemRequirements := "" |} ++
   map (substitutePaths (packageSrcDir (Scene.failingR Example.working)))
     ["-I/usr/share/R/include"; "-DNDEBUG"; "-I../inst/include"; "-I."; "-fpic"],
   snd (updateForCurrentPackage (Scene.failingR Example.working)
          (Example.fresh Example.withRcpp))).
Proof.
  apply (r_errors_give_no_header (Scene.failingR Example.working) "/home/u/pkg/src/a.cpp"
           (Example.fresh Example.withRcpp)
           {| linkingTo := "Rcpp"; systemRequirements := "" |}
           ["-I/usr/share/R/include"; "-DNDEBUG"; "-I../inst/include"; "-I."; "-fpic"]).
  - vm_compute. reflexivity.
  - vm_compute. discriminate.
  - vm_compute. repeat split. discriminate.
  - reflexivity.
Defined.
